(** * CookieS web back end (server/server/api.py): a shallow embedding

    The service walks a cookiecutter variable document one field at a
    time ([form] / [get_next_option]), and publishes the generated
    project once every field has an answer ([create] /
    [validate_and_create]).  OAuth tokens travel encrypted
    ([encrypt_token] / [decrypt_token]).

    Python dictionaries are association lists in insertion order,
    exceptions are an error type, and everything the process does to
    the outside world (GitHub requests, the clock, the random source,
    the file system, subprocesses) is an explicit call answered by the
    environment and recorded in the process state. *)

From Stdlib Require Import ZArith Lia List.
From Stdlib Require Import Strings.String Strings.Ascii Strings.Byte.
From stdpp Require Import base decidable option list strings pretty gmap.

Set Warnings "-register-all,-clear-no-such-hyp".
Local Open Scope string_scope.
Local Open Scope Z_scope.

(** ** JSON values, as [json.loads] builds them *)

(** Objects keep their insertion order (a Python [dict]).  Floating
    point numbers are left out. *)
Inductive value : Type :=
| VNone
| VBool (b : bool)
| VInt (n : Z)
| VStr (s : string)
| VList (items : list value)
| VDict (entries : list (string * value)).

(** A Python [dict] with string keys. *)
Abbreviation pydict := (list (string * value)).

Definition dict_keys (d : pydict) : list string := d.*1.

(** [key in d] *)
Definition dict_contains (key : string) (d : pydict) : bool :=
  bool_decide (key ∈ dict_keys d).

(** [d[key]]; [None] stands for [KeyError]. *)
Fixpoint dict_get (key : string) (d : pydict) : option value :=
  match d with
  | [] => None
  | (k, v) :: rest => if decide (k = key) then Some v else dict_get key rest
  end.

(** [d[key] = v]: an existing key keeps its position, a new key goes
    to the end. *)
Fixpoint dict_set (key : string) (v : value) (d : pydict) : pydict :=
  match d with
  | [] => [(key, v)]
  | (k, w) :: rest =>
      if decide (k = key) then (k, v) :: rest else (k, w) :: dict_set key v rest
  end.

(** [key not in d], the test of the loop of [get_next_option]. *)
Definition unanswered (d : pydict) (key : string) : bool :=
  negb (dict_contains key d).

(** [set(d)] *)
Definition key_set (d : pydict) : gset string := list_to_set (dict_keys d).

(** Python's [==] on JSON values: [True == 1], lists compare element
    by element, dictionaries regardless of order. *)
Definition int_of_bool (b : bool) : Z := if b then 1 else 0.

Fixpoint py_eq (a b : value) {struct a} : bool :=
  match a, b with
  | VNone, VNone => true
  | VBool x, VBool y => bool_decide (x = y)
  | VBool x, VInt y => bool_decide (int_of_bool x = y)
  | VInt x, VBool y => bool_decide (x = int_of_bool y)
  | VInt x, VInt y => bool_decide (x = y)
  | VStr x, VStr y => bool_decide (x = y)
  | VList xs, VList ys =>
      (fix go (xs : list value) (ys : list value) {struct xs} : bool :=
         match xs, ys with
         | [], [] => true
         | x :: xs', y :: ys' => py_eq x y && go xs' ys'
         | _, _ => false
         end) xs ys
  | VDict xs, VDict ys =>
      bool_decide (length xs = length ys) &&
      (fix go (xs : list (string * value)) {struct xs} : bool :=
         match xs with
         | [] => true
         | (k, x) :: xs' =>
             match dict_get k ys with
             | Some y => py_eq x y && go xs'
             | None => false
             end
         end) xs
  | _, _ => false
  end.

(** ** Exceptions *)

Inductive exn : Type :=
| GithubException (status : Z)
| InvalidToken
| ValueError (msg : string)
| UnicodeEncodeError
| UnicodeDecodeError
| AssertionError (msg : string)
| NotImplementedError (what : string)
| StructError
| OSError (msg : string)
| JSONDecodeError
| UndefinedError (name : string)
| UnknownExtension (name : string)
| CookiecutterException (msg : string)
| CalledProcessError (cmd : string)
| IndexError
| KeyError (key : string)
| HTTPException (status_code : Z) (detail : message)
with message : Type :=
| MissingInputs (missing_values : gset string)
| ErrorOccured (error : exn).

Inductive result (A : Type) : Type :=
| Ok (a : A)
| Raise (e : exn).
Arguments Ok {A} a.
Arguments Raise {A} e.

Definition result_bind {A B} (r : result A) (k : A -> result B) : result B :=
  match r with
  | Ok a => k a
  | Raise e => Raise e
  end.

Definition result_map {A B} (f : A -> B) (r : result A) : result B :=
  result_bind r (fun a => Ok (f a)).

(** ** The process and the outside world *)

(** A PyGithub client: [Github(base_url=..., login_or_token=...)]. *)
Record Github : Type := { base_url : string; login_or_token : string }.

#[global] Instance Github_eq_dec : EqDecision Github.
Proof. solve_decision. Defined.

(** Everything the process asks of its environment. *)
Inductive call : Type :=
| time_time
| os_urandom (n : nat)
| Github_get_repo (client : Github) (full_name : string)
| Repository_get_contents (client : Github) (full_name path : string)
| Github_get_organization (client : Github) (login : string)
| Organization_create_repo (client : Github) (org name : string)
| Github_get_user (client : Github)
| tempfile_mkdtemp (prefix : string)
| shutil_rmtree (path : string)
| cookiecutter_main (template directory : string) (extra_context : pydict)
    (output_dir : string)
| Path_iterdir (path : string)
| subprocess_run (command cwd : string).

Inductive response : Type :=
| RNone
| RInt (n : Z)
| RBytes (data : list byte)
| RStr (s : string)
| RPaths (paths : list string)
| RUser (login name email : string).

(** The state of the server process: the environment's behaviour (a
    function of the calls made so far), the calls made so far (latest
    first), and the two [lru_cache] tables the claims touch (most
    recently used entry first). *)
Record process : Type := {
  respond : list call -> call -> result response;
  history : list call;
  decrypt_token_cache : list (string * string);
  get_git_client_cache : list (string * bool * Github)
}.

Definition M (A : Type) : Type := process -> result A * process.

Definition ret {A} (a : A) : M A := fun st => (Ok a, st).

Definition raise {A} (e : exn) : M A := fun st => (Raise e, st).

Definition bind {A B} (m : M A) (k : A -> M B) : M B :=
  fun st =>
    match m st with
    | (Ok a, st') => k a st'
    | (Raise e, st') => (Raise e, st')
    end.

Definition lift {A} (r : result A) : M A := fun st => (r, st).

Notation "'let*' x ':=' m 'in' k" := (bind m (fun x => k))
  (at level 10, x pattern, m at level 100, k at level 200).
Notation "'do' m 'in' k" := (bind m (fun _ => k))
  (at level 10, m at level 100, k at level 200).

(** [try: body except <handled>: handler] *)
Definition try_except {A} (body : M A) (handled : exn -> bool)
    (handler : exn -> M A) : M A :=
  fun st =>
    match body st with
    | (Ok a, st') => (Ok a, st')
    | (Raise e, st') => if handled e then handler e st' else (Raise e, st')
    end.

(** [with ... as x: body]: [cleanup] runs on every way out of [body];
    a failing cleanup replaces the outcome. *)
Definition finally {A} (body : M A) (cleanup : M unit) : M A :=
  fun st =>
    match body st with
    | (r, st') =>
        match cleanup st' with
        | (Ok _, st'') => (r, st'')
        | (Raise e, st'') => (Raise e, st'')
        end
    end.

Definition is_GithubException (e : exn) : bool :=
  match e with GithubException _ => true | _ => false end.

(** One external call: the environment answers, the call is recorded. *)
Definition extern (c : call) : M response :=
  fun st =>
    (respond st (history st) c,
     {| respond := respond st;
        history := c :: history st;
        decrypt_token_cache := decrypt_token_cache st;
        get_git_client_cache := get_git_client_cache st |}).

Definition as_int (r : response) : result Z :=
  match r with RInt n => Ok n | _ => Raise (OSError "malformed response") end.

Definition as_bytes (n : nat) (r : response) : result (list byte) :=
  match r with
  | RBytes data =>
      if decide (length data = n) then Ok data
      else Raise (OSError "malformed response")
  | _ => Raise (OSError "malformed response")
  end.

Definition as_str (r : response) : result string :=
  match r with RStr s => Ok s | _ => Raise (OSError "malformed response") end.

Definition as_paths (r : response) : result (list string) :=
  match r with RPaths l => Ok l | _ => Raise (OSError "malformed response") end.

Definition as_user (r : response) : result (string * string * string) :=
  match r with
  | RUser login name email => Ok (login, name, email)
  | _ => Raise (OSError "malformed response")
  end.

(** ** Text and bytes

    A [string] stands for the Python [str] whose UTF-8 encoding is that
    sequence of bytes, where a surrogate code point, which UTF-8 has no
    encoding for, is written as the three bytes that the
    [surrogatepass] error handler gives it.  [str.encode()] and
    [bytes.decode()] are strict UTF-8: encoding fails on a [str] with a
    surrogate, decoding on bytes that are no UTF-8. *)

Definition in_range (lo hi : N) (b : byte) : bool :=
  (lo <=? Byte.to_N b)%N && (Byte.to_N b <=? hi)%N.

Definition continuation (b : byte) : bool := in_range 128 191 b.

(** Well-formed UTF-8 (RFC 3629): shortest encodings only, no
    surrogates (U+D800 to U+DFFF), nothing above U+10FFFF. *)
Fixpoint utf8_valid (data : list byte) : bool :=
  match data with
  | [] => true
  | b0 :: rest =>
      if in_range 0 127 b0 then utf8_valid rest
      else if in_range 194 223 b0 then
        match rest with
        | b1 :: rest => continuation b1 && utf8_valid rest
        | _ => false
        end
      else if in_range 224 239 b0 then
        match rest with
        | b1 :: b2 :: rest =>
            (if in_range 224 224 b0 then in_range 160 191 b1
             else if in_range 237 237 b0 then in_range 128 159 b1
             else continuation b1)
            && continuation b2 && utf8_valid rest
        | _ => false
        end
      else if in_range 240 244 b0 then
        match rest with
        | b1 :: b2 :: b3 :: rest =>
            (if in_range 240 240 b0 then in_range 144 191 b1
             else if in_range 244 244 b0 then in_range 128 143 b1
             else continuation b1)
            && continuation b2 && continuation b3 && utf8_valid rest
        | _ => false
        end
      else false
  end.

(** [s.encode()] *)
Definition str_encode (s : string) : result (list byte) :=
  if utf8_valid (list_byte_of_string s) then Ok (list_byte_of_string s)
  else Raise UnicodeEncodeError.

(** [data.decode()] *)
Definition bytes_decode (data : list byte) : result string :=
  if utf8_valid data then Ok (string_of_list_byte data)
  else Raise UnicodeDecodeError.

(** ** [functools.lru_cache] tables *)

Section LruCache.
Context {K V : Type} `{EqDecision K}.

Fixpoint lru_find (k : K) (c : list (K * V)) : option V :=
  match c with
  | [] => None
  | (k', v) :: rest => if decide (k' = k) then Some v else lru_find k rest
  end.

Fixpoint lru_remove (k : K) (c : list (K * V)) : list (K * V) :=
  match c with
  | [] => []
  | (k', v) :: rest =>
      if decide (k' = k) then rest else (k', v) :: lru_remove k rest
  end.

(** A hit makes the entry the most recently used one. *)
Definition lru_touch (k : K) (v : V) (c : list (K * V)) : list (K * V) :=
  (k, v) :: lru_remove k c.

(** A miss stores the new result and drops the least recently used
    entry when the table is full. *)
Definition lru_store (maxsize : nat) (k : K) (v : V) (c : list (K * V))
    : list (K * V) :=
  take maxsize ((k, v) :: c).
End LruCache.

(** ** Fernet (the [cryptography] package), as [api.py] uses it

    A token is
    [urlsafe_b64encode(0x80 ‖ timestamp ‖ iv ‖ ciphertext ‖ hmac)]:
    [Fernet.encrypt] reads the clock and draws a fresh 16-byte IV on
    every call.  The base64 codec, the padded AES-128-CBC cipher and
    HMAC-SHA256 are parameters. *)

Module Fernet.

Record primitives : Type := {
  urlsafe_b64encode : list byte -> list byte;
  urlsafe_b64decode : list byte -> option (list byte);
  aes_cbc_encrypt : list byte -> list byte -> list byte -> list byte;
  aes_cbc_decrypt : list byte -> list byte -> list byte -> option (list byte);
  hmac_sha256 : list byte -> list byte -> list byte
}.

(** What the token codec needs of the primitives. *)
Record lawful (P : primitives) : Prop := {
  b64_roundtrip :
    forall data, urlsafe_b64decode P (urlsafe_b64encode P data) = Some data;
  cbc_roundtrip :
    forall key iv data,
      length key = 16%nat -> length iv = 16%nat ->
      aes_cbc_decrypt P key iv (aes_cbc_encrypt P key iv data) = Some data;
  hmac_length :
    forall key data, length (hmac_sha256 P key data) = 32%nat
}.

(** Base64 text is ASCII, so that a token decodes to a [str]. *)
Definition text_safe (P : primitives) : Prop :=
  forall data, utf8_valid (urlsafe_b64encode P data) = true.

Record key : Type := { signing_key : list byte; encryption_key : list byte }.

#[global] Instance byte_eq_dec : EqDecision byte := Byte.byte_eq_dec.

Definition byte_of_Z (z : Z) : byte :=
  match Byte.of_N (Z.to_N (z mod 256)) with
  | Some b => b
  | None => x00
  end.

(** [struct.pack(">Q", n)] *)
Definition pack_Q (n : Z) : result (list byte) :=
  if decide (0 <= n < 2 ^ 64)
  then Ok (map (fun i => byte_of_Z (n / 2 ^ (8 * i))) [7; 6; 5; 4; 3; 2; 1; 0])
  else Raise StructError.

Section WithPrimitives.
Variable P : primitives.

(** [Fernet(key)] *)
Definition new (k : string) : result key :=
  match urlsafe_b64decode P (list_byte_of_string k) with
  | None => Raise (ValueError "Incorrect padding")
  | Some raw =>
      if decide (length raw = 32%nat)
      then Ok {| signing_key := take 16 raw; encryption_key := drop 16 raw |}
      else Raise
             (ValueError
                "Fernet key must be 32 url-safe base64-encoded bytes.")
  end.

Definition encrypt_from_parts (k : key) (data : list byte)
    (current_time : Z) (iv : list byte) : result (list byte) :=
  result_bind (pack_Q current_time) (fun timestamp =>
    let ciphertext := aes_cbc_encrypt P (encryption_key k) iv data in
    let basic_parts := x80 :: timestamp ++ iv ++ ciphertext in
    let hmac := hmac_sha256 P (signing_key k) basic_parts in
    Ok (urlsafe_b64encode P (basic_parts ++ hmac))).

(** [Fernet.encrypt(data)] *)
Definition encrypt (k : key) (data : list byte) : M (list byte) :=
  let* t := extern time_time in
  let* current_time := lift (as_int t) in
  let* r := extern (os_urandom 16) in
  let* iv := lift (as_bytes 16 r) in
  lift (encrypt_from_parts k data current_time iv).

(** [Fernet.decrypt(token)], without a [ttl]. *)
Definition decrypt (k : key) (token : list byte) : result (list byte) :=
  match urlsafe_b64decode P token with
  | None => Raise InvalidToken
  | Some data =>
      match data with
      | [] => Raise InvalidToken
      | version :: _ =>
          if negb (bool_decide (version = x80)) then Raise InvalidToken
          else if negb (bool_decide (9 <= length data)%nat)
          then Raise InvalidToken
          else
            let n := length data in
            let signed := take (n - 32)%nat data in
            let hmac := drop (n - 32)%nat data in
            if negb (bool_decide (hmac_sha256 P (signing_key k) signed = hmac))
            then Raise InvalidToken
            else
              let iv := take 16 (drop 9 data) in
              let ciphertext := take (n - 32 - 25)%nat (drop 25 data) in
              match aes_cbc_decrypt P (encryption_key k) iv ciphertext with
              | Some plaintext => Ok plaintext
              | None => Raise InvalidToken
              end
      end
  end.
End WithPrimitives.

End Fernet.

(** ** The cookiecutter functions [api.py] imports

    [apply_overwrites_to_context] and [render_variable] are library
    code; they are written out here as cookiecutter 1.7 has them, the
    release whose signatures ([render_variable(env, raw, dict)],
    [StrictEnvironment(context=...)]) [api.py] calls. *)

Module Cookiecutter.

(** [x in l] and [l.remove(x)] on a Python list. *)
Definition list_contains (x : value) (l : list value) : bool :=
  existsb (fun y => py_eq y x) l.

Fixpoint list_remove (x : value) (l : list value) : list value :=
  match l with
  | [] => []
  | y :: rest => if py_eq y x then rest else y :: list_remove x rest
  end.

(** One turn of the loop of [apply_overwrites_to_context]: a variable
    the template does not use is skipped; for a choice variable (a
    list) a valid choice becomes the first item and any other value is
    dropped; every other variable takes the new value. *)
Definition apply_overwrite (context : pydict) (item : string * value)
    : pydict :=
  let '(variable, overwrite) := item in
  match dict_get variable context with
  | None => context
  | Some (VList context_value) =>
      if list_contains overwrite context_value
      then dict_set variable
             (VList (overwrite :: list_remove overwrite context_value)) context
      else context
  | Some _ => dict_set variable overwrite context
  end.

(** [cookiecutter.generate.apply_overwrites_to_context]; the context is
    changed in place, so the changed context is the result. *)
Definition apply_overwrites_to_context (context overwrite_context : pydict)
    : pydict :=
  fold_left apply_overwrite overwrite_context context.

(** [str(raw)] for the scalars [render_variable] turns into text. *)
Definition py_str (raw : value) : string :=
  match raw with
  | VBool true => "True"
  | VBool false => "False"
  | VInt n => pretty n
  | VStr s => s
  | _ => ""
  end.

Section Render.
(** The Jinja2 environment type, and
    [env.from_string(raw).render(cookiecutter=cookiecutter_dict)]. *)
Variable Env : Type.
Variable render_template : Env -> string -> pydict -> result string.

(** [cookiecutter.prompt.render_variable]: [None] stays [None],
    dictionaries and lists are rendered item by item, anything else
    is rendered as a template string. *)
Fixpoint render_variable (env : Env) (raw : value)
    (cookiecutter_dict : pydict) {struct raw} : result value :=
  match raw with
  | VNone => Ok VNone
  | VDict entries =>
      result_map VDict
        ((fix go (entries : list (string * value)) (acc : pydict)
              {struct entries} : result pydict :=
            match entries with
            | [] => Ok acc
            | (k, v) :: rest =>
                result_bind (render_template env k cookiecutter_dict)
                  (fun k' =>
                result_bind (render_variable env v cookiecutter_dict)
                  (fun v' => go rest (dict_set k' v' acc)))
            end) entries [])
  | VList items =>
      result_map VList
        ((fix go (items : list value) {struct items}
              : result (list value) :=
            match items with
            | [] => Ok []
            | v :: rest =>
                result_bind (render_variable env v cookiecutter_dict)
                  (fun v' =>
                result_bind (go rest) (fun vs => Ok (v' :: vs)))
            end) items)
  | VStr s => result_map VStr (render_template env s cookiecutter_dict)
  | _ =>
      result_map VStr
        (render_template env (py_str raw) cookiecutter_dict)
  end.
End Render.

End Cookiecutter.

(** ** [api.py] *)

(** Application constants. *)
Definition CC_ORIGIN : string := "cc-origin".
Definition GITHUB_URL : string := "github.com".
Definition GITHUB_API_URL : string := "https://api.github.com".

Record Template : Type := { template_repo : string; directory : string }.

Record FormDetails : Type := {
  template : Template;
  org : string;
  repo : string;
  cc_context : pydict;
  token : string;
  user_inputs : pydict;
  next_key : option string;
  next_value : value;
  done : bool
}.

Definition set_cc_context (c : pydict) (d : FormDetails) : FormDetails :=
  {| template := template d; org := org d; repo := repo d; cc_context := c;
     token := token d; user_inputs := user_inputs d; next_key := next_key d;
     next_value := next_value d; done := done d |}.

Definition set_next (step : option string * value * bool) (d : FormDetails)
    : FormDetails :=
  {| template := template d; org := org d; repo := repo d;
     cc_context := cc_context d; token := token d;
     user_inputs := user_inputs d; next_key := step.1.1;
     next_value := step.1.2; done := step.2 |}.

Definition set_decrypt_token_cache (c : list (string * string))
    (st : process) : process :=
  {| respond := respond st; history := history st;
     decrypt_token_cache := c;
     get_git_client_cache := get_git_client_cache st |}.

Definition set_get_git_client_cache (c : list (string * bool * Github))
    (st : process) : process :=
  {| respond := respond st; history := history st;
     decrypt_token_cache := decrypt_token_cache st;
     get_git_client_cache := c |}.

(** The [@lru_cache(maxsize)] decorator: a hit returns the stored
    result without running the function, a miss runs it and stores a
    result (an exception is not stored). *)
Definition lru_cache {K V : Type} `{EqDecision K} (maxsize : nat)
    (table : process -> list (K * V))
    (set_table : list (K * V) -> process -> process)
    (f : K -> M V) (k : K) : M V :=
  fun st =>
    match lru_find k (table st) with
    | Some v => (Ok v, set_table (lru_touch k v (table st)) st)
    | None =>
        match f k st with
        | (Ok v, st') => (Ok v, set_table (lru_store maxsize k v (table st')) st')
        | (Raise e, st') => (Raise e, st')
        end
    end.

(** [os.path.join] (POSIX) *)
Definition ends_with_slash (a : string) : bool :=
  match String.get (String.length a - 1) a with
  | Some c => bool_decide (c = "/"%char)
  | None => false
  end.

Definition os_path_join (a b : string) : string :=
  if String.prefix "/" b then b
  else if bool_decide (a = "") || ends_with_slash a then a ++ b
  else a ++ "/" ++ b.

Section Api.
(** User configuration, read from the process environment at import. *)
Variable HOST_NAME : string.
Variable BASE_URL : string.
Variable APP_KEY : string.

(** Library code: the Fernet primitives, the exception with which the
    constructor of PyGithub's [Github] rejects a base URL and a token,
    if it does, [json.loads] on the JSON objects the service reads,
    [shlex.quote], and the Jinja2 environment of cookiecutter. *)
Variable P : Fernet.primitives.
Variable Github_rejects : string -> string -> option exn.
Variable json_loads : string -> result pydict.
Variable shlex_quote : string -> string.
Variable Env : Type.
Variable StrictEnvironment : pydict -> result Env.
Variable render_template : Env -> string -> pydict -> result string.

Definition encrypt_token (token : string) : M string :=
  let* f := lift (Fernet.new P APP_KEY) in
  let* data := lift (str_encode token) in
  let* encrypted := Fernet.encrypt P f data in
  lift (bytes_decode encrypted).

(** The body of [decrypt_token], under its cache. *)
Definition decrypt_token_uncached (token : string) : M string :=
  let* f := lift (Fernet.new P APP_KEY) in
  let* data := lift (str_encode token) in
  let* decrypted := lift (Fernet.decrypt P f data) in
  lift (bytes_decode decrypted).

Definition decrypt_token : string -> M string :=
  lru_cache 1024 decrypt_token_cache set_decrypt_token_cache
    decrypt_token_uncached.

(** *** Common Github utilities *)

(** [Github(base_url=..., login_or_token=...)]: the client is the
    record of the arguments that the constructor accepted. *)
Definition Github_init (base_url login_or_token : string) : result Github :=
  match Github_rejects base_url login_or_token with
  | Some e => Raise e
  | None => Ok {| base_url := base_url; login_or_token := login_or_token |}
  end.

Definition get_git_client_uncached (args : string * bool) : M Github :=
  let '(token, encrypted) := args in
  let host_name :=
    if bool_decide (BASE_URL = GITHUB_URL) then GITHUB_API_URL
    else "https://" ++ BASE_URL ++ "/api/v3" in
  let host_name :=
    if bool_decide (HOST_NAME = "") then host_name else HOST_NAME in
  let* token := if encrypted then decrypt_token token else ret token in
  lift (Github_init host_name token).

(** [get_git_client(token, encrypted=True)], under [@lru_cache()]
    (128 entries). *)
Definition get_git_client (token : string) (encrypted : bool) : M Github :=
  lru_cache 128 get_git_client_cache set_get_git_client_cache
    get_git_client_uncached (token, encrypted).

(** *** Interactive form endpoint *)

(** [get_next_option(cc_context, user_inputs)]: the result is the
    tuple [(key, rendered_value, done)], with [VNone] for Python's
    [None] value. *)
Definition get_next_option (cc_context user_inputs : pydict)
    : result (option string * value * bool) :=
  let context := [("cookiecutter", VDict cc_context)] in
  result_bind (StrictEnvironment context) (fun env =>
    (fix loop (keys : list string) : result (option string * value * bool) :=
       match keys with
       | [] => Ok (None, VNone, true)
       | key :: rest =>
           if negb (dict_contains key user_inputs) then
             match dict_get key cc_context with
             | Some raw =>
                 result_bind
                   (Cookiecutter.render_variable Env render_template env raw
                      user_inputs)
                   (fun rendered_value => Ok (Some key, rendered_value, false))
             | None => Raise (KeyError key)
             end
           else loop rest
       end) (dict_keys cc_context)).

Definition get_config (repo_name directory user_org token : string)
    : M pydict :=
  let* client := get_git_client token true in
  do extern (Github_get_repo client repo_name) in
  let config_file_path := "cookiecutter.json" in
  let config_file_path :=
    if bool_decide (directory = "") then config_file_path
    else os_path_join directory config_file_path in
  let* content :=
    extern (Repository_get_contents client repo_name config_file_path) in
  let* decoded_content := lift (as_str content) in
  let* context := lift (json_loads decoded_content) in
  let config_repo_name := user_org ++ "/.github" in
  let* config_repo :=
    try_except
      (do extern (Github_get_repo client config_repo_name) in ret true)
      is_GithubException (fun _ => ret false) in
  if negb config_repo then ret context
  else
    let user_config :=
      os_path_join (os_path_join "cookiecutter" repo_name) config_file_path in
    try_except
      (let* content :=
         extern (Repository_get_contents client config_repo_name user_config) in
       let* decoded_content := lift (as_str content) in
       let* user_defaults := lift (json_loads decoded_content) in
       ret (Cookiecutter.apply_overwrites_to_context context user_defaults))
      is_GithubException (fun _ => ret context).

Definition form (details : FormDetails) : M FormDetails :=
  let* details :=
    match cc_context details with
    | [] =>
        let* context :=
          get_config (template_repo (template details))
            (directory (template details)) (org details) (token details) in
        ret (set_cc_context context details)
    | _ :: _ => ret details
    end in
  let* step :=
    lift (get_next_option (cc_context details) (user_inputs details)) in
  ret (set_next step details).

(** *** Creation end point *)

(** [set(details.cc_context) - set(details.user_inputs)] *)
Definition missing_values (details : FormDetails) : gset string :=
  key_set (cc_context details) ∖ key_set (user_inputs details).

Definition shell_command (output_dir command : string) : M unit :=
  do extern (subprocess_run command output_dir) in ret tt.

(** The body of the [with tempfile.TemporaryDirectory(...)] block.
    [client.get_user()] is lazy: the request goes out when [user.name]
    is first read. *)
Definition publish (details : FormDetails) (temp_dir : string) : M unit :=
  let* client := get_git_client (token details) true in
  do try_except
       (do extern (Github_get_organization client (org details)) in
        do extern (Organization_create_repo client (org details)
                     (repo details)) in
        ret tt)
       is_GithubException (fun _ => ret tt) in
  do extern (cookiecutter_main
               ("https://" ++ BASE_URL ++ "/" ++ template_repo (template details))
               (directory (template details)) (user_inputs details) temp_dir) in
  let* listing := extern (Path_iterdir temp_dir) in
  let* paths := lift (as_paths listing) in
  let* output_dir :=
    match paths with
    | [] => raise IndexError
    | first :: _ => ret first
    end in
  do shell_command output_dir "git init" in
  let* u := extern (Github_get_user client) in
  let* user := lift (as_user u) in
  let '(login, name, email) := user in
  do shell_command output_dir ("git config --local user.name " ++ name) in
  do shell_command output_dir ("git config --local user.email " ++ email) in
  let* raw_token := decrypt_token (token details) in
  let url :=
    "https://" ++ login ++ ":" ++ raw_token ++ "@" ++ BASE_URL ++ "/"
    ++ shlex_quote (org details) ++ "/" ++ shlex_quote (repo details) in
  do shell_command output_dir
       ("git remote add " ++ CC_ORIGIN ++ " " ++ url) in
  do shell_command output_dir "git add ." in
  do shell_command output_dir
       ("git commit -m 'Initialize repository with CC: "
        ++ template_repo (template details) ++ "'") in
  shell_command output_dir ("git push " ++ CC_ORIGIN ++ " master -f").

Definition validate_and_create (details : FormDetails) : M unit :=
  let missing := missing_values details in
  if negb (bool_decide (missing = ∅)) then
    raise (HTTPException 400 (MissingInputs missing))
  else
    let* made := extern (tempfile_mkdtemp "cookiecutter") in
    let* temp_dir := lift (as_str made) in
    finally (publish details temp_dir)
      (do extern (shutil_rmtree temp_dir) in ret tt).

(** [except BaseException] catches every exception, the
    [HTTPException] of the validation included. *)
Definition create (details : FormDetails) : M unit :=
  try_except (validate_and_create details) (fun _ => true)
    (fun error => raise (HTTPException 500 (ErrorOccured error))).
End Api.

(** ** The template engine

    Jinja2 is library code.  What the properties below need of it is
    how it renders a default made of literal text and of references
    [{{ cookiecutter.<name> }}] to the answers: this much is written
    out, as a law that an engine may satisfy.  A small engine that
    satisfies it stands in for Jinja2 where an example has to run. *)

Module Jinja2.

(** A default, cut into literal texts and references. *)
Inductive segment : Type :=
| Text (s : string)
| Ref (name : string).

Definition reference (name : string) : string :=
  "{{ cookiecutter." ++ name ++ " }}".

Definition source_of (seg : segment) : string :=
  match seg with
  | Text s => s
  | Ref name => reference name
  end.

(** The template that is written as these segments. *)
Fixpoint source (segments : list segment) : string :=
  match segments with
  | [] => ""
  | seg :: rest => source_of seg ++ source rest
  end.

(** Literal text: no brace opens or closes anything in it, and it has
    no line end, of which the engine drops or rewrites some. *)
Definition is_data_char (c : ascii) : bool :=
  negb (bool_decide (c = "{"%char) || bool_decide (c = "}"%char)
        || bool_decide (c = ascii_of_nat 10)
        || bool_decide (c = ascii_of_nat 13)).


Definition is_letter (c : ascii) : bool :=
  let n := nat_of_ascii c in
  (bool_decide (65 <= n)%nat && bool_decide (n <= 90)%nat)
  || (bool_decide (97 <= n)%nat && bool_decide (n <= 122)%nat)
  || bool_decide (n = 95%nat).

Definition is_name_char (c : ascii) : bool :=
  let n := nat_of_ascii c in
  is_letter c || (bool_decide (48 <= n)%nat && bool_decide (n <= 57)%nat).

Definition is_identifier (s : string) : bool :=
  match s with
  | EmptyString => false
  | String c rest =>
      is_letter c && forallb is_name_char (list_ascii_of_string rest)
  end.

(** The methods of a Python [dict]: the engine tries [getattr] before
    it looks a name up in the dictionary, so that [cookiecutter.items]
    is the method and not an answer. *)
Definition dict_methods : list string :=
  ["clear"; "copy"; "fromkeys"; "get"; "items"; "keys"; "pop"; "popitem";
   "setdefault"; "update"; "values"].

Definition is_dict_method (name : string) : bool :=
  bool_decide (name ∈ dict_methods).



(** [str(v)] for an answer that is a string, a boolean or [None]; the
    text of a number, of a list or of a dictionary is not written
    out. *)
Definition text_of (v : value) : option string :=
  match v with
  | VStr s => Some s
  | VBool true => Some "True"
  | VBool false => Some "False"
  | VNone => Some "None"
  | VInt _ | VList _ | VDict _ => None
  end.


(** The first reference to a name without an answer, if there is one. *)
Fixpoint missing (segments : list segment) (cookiecutter_dict : pydict)
    : option string :=
  match segments with
  | [] => None
  | Text _ :: rest => missing rest cookiecutter_dict
  | Ref name :: rest =>
      if dict_contains name cookiecutter_dict
      then missing rest cookiecutter_dict
      else Some name
  end.



(** *** A stand-in for the engine

    It renders literal text and references and nothing else: what it
    does not understand it refuses with [NotImplementedError], which
    is not what Jinja2 does with it. *)

Definition Env : Type := unit.

Inductive state : Type :=
| Data
| Opening (expected : string)
| Naming (name : string)
| Closing (name : string) (expected : string).

Definition lookup (name : string) (cookiecutter_dict : pydict)
    : result string :=
  if negb (is_identifier name) || String.prefix "__" name
  then Raise (NotImplementedError "expression")
  else if is_dict_method name
  then Ok ("<built-in method " ++ name ++ " of dict object at 0x7f3a5c0b1e40>")
  else
    match dict_get name cookiecutter_dict with
    | None => Raise (UndefinedError name)
    | Some v =>
        match text_of v with
        | Some s => Ok s
        | None => Raise (NotImplementedError "value")
        end
    end.

Fixpoint run (cookiecutter_dict : pydict) (st : state) (s : string)
    : result string :=
  match s with
  | EmptyString =>
      match st with
      | Data => Ok ""
      | _ => Raise (NotImplementedError "template")
      end
  | String c rest =>
      match st with
      | Data =>
          if bool_decide (c = "{"%char)
          then run cookiecutter_dict (Opening "{ cookiecutter.") rest
          else if is_data_char c
          then result_map (String c) (run cookiecutter_dict Data rest)
          else Raise (NotImplementedError "template")
      | Opening expected =>
          match expected with
          | String d expected' =>
              if bool_decide (c = d)
              then run cookiecutter_dict
                     (if bool_decide (expected' = "") then Naming ""
                      else Opening expected') rest
              else Raise (NotImplementedError "template")
          | EmptyString => Raise (NotImplementedError "template")
          end
      | Naming name =>
          if bool_decide (c = " "%char)
          then run cookiecutter_dict (Closing name "}}") rest
          else if is_name_char c
          then run cookiecutter_dict (Naming (name ++ String c "")) rest
          else Raise (NotImplementedError "template")
      | Closing name expected =>
          match expected with
          | String d expected' =>
              if bool_decide (c = d)
              then
                if bool_decide (expected' = "")
                then result_bind (lookup name cookiecutter_dict) (fun v =>
                       result_map (append v) (run cookiecutter_dict Data rest))
                else run cookiecutter_dict (Closing name expected') rest
              else Raise (NotImplementedError "template")
          | EmptyString => Raise (NotImplementedError "template")
          end
      end
  end.

Definition render_template (env : Env) (source : string)
    (cookiecutter_dict : pydict) : result string :=
  run cookiecutter_dict Data source.

(** The extensions that the stand-in for the environment cannot
    import. *)
Definition unloadable : list string := ["missing.Extension"].

(** A stand-in for [cookiecutter.environment.StrictEnvironment]: the
    extensions that the document lists under [_extensions] are loaded
    after cookiecutter's own, and one that cannot be imported is an
    [UnknownExtension].  The stand-in refuses a list that starts with
    anything but an extension it cannot import. *)
Definition StrictEnvironment (context : pydict) : result Env :=
  match dict_get "cookiecutter" context with
  | None => Ok tt
  | Some (VDict cookiecutter) =>
      match dict_get "_extensions" cookiecutter with
      | None | Some (VList []) => Ok tt
      | Some (VList (VStr ext :: _)) =>
          if bool_decide (ext ∈ unloadable) then Raise (UnknownExtension ext)
          else Raise (NotImplementedError "extension")
      | Some _ => Raise (NotImplementedError "extension")
      end
  | Some _ => Raise (NotImplementedError "context")
  end.

End Jinja2.

Module Example.

(** A stand-in for base64: a byte is written as two of the letters
    [a] to [p]. *)
Definition letter (n : N) : byte := default x00 (Byte.of_N (97 + n)).

Definition letters_of (b : byte) : list byte :=
  [letter (Byte.to_N b / 16); letter (Byte.to_N b mod 16)].

Definition letters (data : list byte) : list byte :=
  flat_map letters_of data.

Definition nibble (b : byte) : option N :=
  let n := Byte.to_N b in
  if (97 <=? n)%N && (n <=? 112)%N then Some (n - 97)%N else None.

Fixpoint unletters (text : list byte) : option (list byte) :=
  match text with
  | [] => Some []
  | high :: low :: rest =>
      match nibble high, nibble low, unletters rest with
      | Some h, Some l, Some data =>
          option_map (fun b => b :: data) (Byte.of_N (16 * h + l))
      | _, _, _ => None
      end
  | [_] => None
  end.

(** The null suite: letters for base64, no encryption and a constant
    tag.  It satisfies [Fernet.lawful] and [Fernet.text_safe] and lets
    the codec run on examples. *)
Definition null_primitives : Fernet.primitives :=
  {| Fernet.urlsafe_b64encode := letters;
     Fernet.urlsafe_b64decode := unletters;
     Fernet.aes_cbc_encrypt := fun _ _ data => data;
     Fernet.aes_cbc_decrypt := fun _ _ data => Some data;
     Fernet.hmac_sha256 := fun _ _ => repeat x00 32 |}.

(** Thirty-two bytes in the letters of the stand-in. *)
Definition APP_KEY : string :=
  "abcdefghijklmnopabcdefghijklmnopabcdefghijklmnopabcdefghijklmnop".

(** A stand-in for the checks of the constructor of [Github]: it
    looks at the scheme of the base URL only. *)
Definition Github_rejects (base_url login_or_token : string) : option exn :=
  if String.prefix "https://" base_url || String.prefix "http://" base_url
  then None
  else Some (AssertionError "Unknown URL scheme").

Definition quoted (s : string) : string :=
  String (ascii_of_nat 34) s ++ String (ascii_of_nat 34) "".

Definition cookiecutter_json : string :=
  "{" ++ quoted "project_name" ++ ": " ++ quoted "My App" ++ ", "
  ++ quoted "project_slug" ++ ": "
  ++ quoted "{{ cookiecutter.project_name }}" ++ "}".

Definition overrides_json : string :=
  "{" ++ quoted "project_name" ++ ": " ++ quoted "Initrode" ++ "}".

Definition base_document : pydict :=
  [("project_name", VStr "My App");
   ("project_slug", VStr "{{ cookiecutter.project_name }}")].

Definition overrides_document : pydict := [("project_name", VStr "Initrode")].

(** A reader for the two documents of the example. *)
Definition json_loads (text : string) : result pydict :=
  if decide (text = cookiecutter_json) then Ok base_document
  else if decide (text = overrides_json) then Ok overrides_document
  else Raise JSONDecodeError.

Definition shlex_quote (s : string) : string := s.

Definition template_name : string := "audreyr/cookiecutter-pypackage".

(** A GitHub with the template repository, an organization [acme]
    without a [.github] repository, an organization [initech] whose
    [.github] repository has no defaults file, and an organization
    [initrode] that has one.  The clock stands still and the random
    source answers with the number of calls made so far. *)
Definition github (h : list call) (c : call) : result response :=
  match c with
  | time_time => Ok (RInt 1604448000)
  | os_urandom n =>
      Ok (RBytes (repeat (Fernet.byte_of_Z (Z.of_nat (length h))) n))
  | Github_get_repo _ name =>
      if decide (name = template_name) then Ok RNone
      else if decide (name = "initech/.github") then Ok RNone
      else if decide (name = "initrode/.github") then Ok RNone
      else Raise (GithubException 404)
  | Repository_get_contents _ name path =>
      if decide (name = template_name ∧ path = "cookiecutter.json")
      then Ok (RStr cookiecutter_json)
      else if decide (name = "initrode/.github"
                      ∧ path = "cookiecutter/" ++ template_name
                               ++ "/cookiecutter.json")
      then Ok (RStr overrides_json)
      else Raise (GithubException 404)
  | _ => Ok RNone
  end.

Definition boot : process :=
  {| respond := github; history := [];
     decrypt_token_cache := []; get_git_client_cache := [] |}.

Definition session (organization : string) (context answers : pydict)
    (tok : string) : FormDetails :=
  {| template := {| template_repo := template_name; directory := "" |};
     org := organization; repo := "demo"; cc_context := context;
     token := tok; user_inputs := answers; next_key := None;
     next_value := VNone; done := false |}.

(** Answers and documents of the examples. *)
Definition foo_answer : pydict := [("project_name", VStr "Foo Bar")].

Definition complete_answers : pydict :=
  [("project_name", VStr "Foo Bar"); ("project_slug", VStr "foo-bar")].




Definition license_document : pydict :=
  [("license", VList [VStr "MIT"; VStr "BSD"])].

Definition abc_document : pydict :=
  [("a", VStr "1"); ("b", VStr "2"); ("c", VStr "3")].

Definition extra_answers : pydict :=
  [("project_name", VStr "Foo Bar"); ("project_slug", VStr "foo-bar");
   ("unknown", VStr "x")].

(** A document that asks for an extension that cannot be imported,
    and answers to all of its keys. *)
Definition extension_document : pydict :=
  [("_extensions", VList [VStr "missing.Extension"]);
   ("project_name", VStr "My App")].

Definition extension_answers : pydict :=
  [("_extensions", VList [VStr "missing.Extension"]);
   ("project_name", VStr "Foo Bar")].


(** The [str] that is one lone surrogate, U+D800. *)
Definition lone_surrogate : string := string_of_list_byte [xed; xa0; x80].

(** The encrypted form of the OAuth token [secret] that a fresh process
    hands out. *)
Definition secret_token : string :=
  Eval vm_compute in
    match (encrypt_token APP_KEY null_primitives "secret" boot).1 with
    | Ok encrypted => encrypted
    | Raise _ => ""
    end.

End Example.

(** ** Invariants of the memo tables *)

(** Every entry of the table of [decrypt_token] is a result of its
    body, which does not depend on the state. *)
Definition decrypt_cache_sound (APP_KEY : string) (P : Fernet.primitives)
    (st : process) : Prop :=
  forall tok raw,
    lru_find tok (decrypt_token_cache st) = Some raw ->
    forall st0, decrypt_token_uncached APP_KEY P tok st0 = (Ok raw, st0).

(** The bytes the random source hands to one call of [encrypt_token]
    started in [st]. *)
Definition drawn_iv (st : process) : result response :=
  respond st (time_time :: history st) (os_urandom 16).

(** The clock reading of one call of [encrypt_token] started in [st]. *)
Definition drawn_time (st : process) : result response :=
  respond st (history st) time_time.

(** The world of [st'] is the world of [st]: no external call was made
    in between. *)
Definition same_world (st st' : process) : Prop :=
  respond st' = respond st /\ history st' = history st.

(** What [apply_overwrites_to_context] makes of the value [old] of a
    variable that is overwritten with [v]. *)
Definition overwritten (old v : value) : value :=
  match old with
  | VList choices =>
      if Cookiecutter.list_contains v choices
      then VList (v :: Cookiecutter.list_remove v choices)
      else old
  | _ => v
  end.

(** [m] keeps the invariant [I] of the process state, however it ends. *)
Definition preserves {A : Type} (I : process -> Prop) (m : M A) : Prop :=
  forall st r st', I st -> m st = (r, st') -> I st'.

(** ** The client's side of a session, and what a run leaves behind *)

Definition set_user_inputs (u : pydict) (d : FormDetails) : FormDetails :=
  {| template := template d; org := org d; repo := repo d;
     cc_context := cc_context d; token := token d; user_inputs := u;
     next_key := next_key d; next_value := next_value d; done := done d |}.

(** [details.user_inputs[key] = a]: the client records its answer to
    the key that [form] asked for. *)
Definition answer (key : string) (a : value) (d : FormDetails) : FormDetails :=
  set_user_inputs (dict_set key a (user_inputs d)) d.

(** [st'] is [st] after some more external calls, which all satisfy
    [ok]. *)
Definition extends_with (ok : call -> bool) (st st' : process) : Prop :=
  respond st' = respond st
  /\ exists calls,
      history st' = (calls ++ history st)%list /\ forallb ok calls = true.

Definition is_subprocess_run (c : call) : bool :=
  match c with subprocess_run _ _ => true | _ => false end.

Definition is_Path_iterdir (c : call) : bool :=
  match c with Path_iterdir _ => true | _ => false end.

(** The sizes [@lru_cache(maxsize=1024)] and [@lru_cache()] allow, and
    one entry for each key. *)
Definition cache_bounded (st : process) : Prop :=
  (length (decrypt_token_cache st) <= 1024)%nat
  /\ NoDup (decrypt_token_cache st).*1
  /\ (length (get_git_client_cache st) <= 128)%nat
  /\ NoDup (get_git_client_cache st).*1.

(** The [host_name] that [get_git_client] computes. *)
Definition host_name (HOST_NAME BASE_URL : string) : string :=
  if bool_decide (HOST_NAME = "") then
    if bool_decide (BASE_URL = GITHUB_URL) then GITHUB_API_URL
    else "https://" ++ BASE_URL ++ "/api/v3"
  else HOST_NAME.

(** Every entry of the table of [get_git_client] is a client that
    the constructor accepted, for the configured host, that logs in
    with the token of the entry, decrypted when the entry is one for
    an encrypted token. *)
Definition client_cache_sound (HOST_NAME BASE_URL APP_KEY : string)
    (P : Fernet.primitives) (Github_rejects : string -> string -> option exn)
    (st : process) : Prop :=
  forall tok encrypted client,
    lru_find (tok, encrypted) (get_git_client_cache st) = Some client ->
    base_url client = host_name HOST_NAME BASE_URL
    /\ Github_rejects (base_url client) (login_or_token client) = None
    /\ if encrypted
       then forall st0,
              decrypt_token_uncached APP_KEY P tok st0
              = (Ok (login_or_token client), st0)
       else login_or_token client = tok.

(** The process after the external call [c]. *)
Definition logged (c : call) (st : process) : process := (extern c st).2.

(** Every run of [m] only adds calls that satisfy [ok] to the record. *)
Definition grows_with {A : Type} (ok : call -> bool) (m : M A) : Prop :=
  forall st r st', m st = (r, st') -> extends_with ok st st'.

(** The path of a template's document, as [get_config] computes it:
    [cookiecutter.json], inside the template's directory when it has
    one. *)
Definition document_path (directory : string) : string :=
  if bool_decide (directory = "") then "cookiecutter.json"
  else os_path_join directory "cookiecutter.json".

(** Both memo tables hold what their functions return. *)
Definition caches_sound (HOST_NAME BASE_URL APP_KEY : string)
    (P : Fernet.primitives) (Github_rejects : string -> string -> option exn)
    (st : process) : Prop :=
  decrypt_cache_sound APP_KEY P st
  /\ client_cache_sound HOST_NAME BASE_URL APP_KEY P Github_rejects st.

(** A process that has just been started: nothing is memoised yet. *)
Definition fresh (st : process) : Prop :=
  decrypt_token_cache st = [] /\ get_git_client_cache st = [].

(** The states of a process that was started in [st0], after any
    number of runs of the functions of the service and of external
    calls. *)
Section Reachability.
Context (HOST_NAME BASE_URL APP_KEY : string) (P : Fernet.primitives)
  (Github_rejects : string -> string -> option exn)
  (json_loads : string -> result pydict) (shlex_quote : string -> string)
  (Env : Type) (StrictEnvironment : pydict -> result Env)
  (render_template : Env -> string -> pydict -> result string).

Inductive reachable (st0 : process) : process -> Prop :=
| reachable_start : reachable st0 st0
| reachable_extern (c : call) (st st' : process) (r : result response) :
    reachable st0 st -> extern c st = (r, st') -> reachable st0 st'
| reachable_encrypt_token (t : string) (st st' : process)
    (r : result string) :
    reachable st0 st ->
    encrypt_token APP_KEY P t st = (r, st') ->
    reachable st0 st'
| reachable_decrypt_token (tok : string) (st st' : process)
    (r : result string) :
    reachable st0 st ->
    decrypt_token APP_KEY P tok st = (r, st') ->
    reachable st0 st'
| reachable_get_git_client (tok : string) (encrypted : bool)
    (st st' : process) (r : result Github) :
    reachable st0 st ->
    get_git_client HOST_NAME BASE_URL APP_KEY P
        Github_rejects tok encrypted st = (r, st') ->
    reachable st0 st'
| reachable_form (details : FormDetails) (st st' : process)
    (r : result FormDetails) :
    reachable st0 st ->
    form HOST_NAME BASE_URL APP_KEY P
        Github_rejects json_loads Env StrictEnvironment
      render_template details st = (r, st') ->
    reachable st0 st'
| reachable_create (details : FormDetails) (st st' : process)
    (r : result unit) :
    reachable st0 st ->
    create HOST_NAME BASE_URL APP_KEY P
        Github_rejects shlex_quote details st = (r, st') ->
    reachable st0 st'.
End Reachability.

(** [Fernet(APP_KEY).decrypt(token.encode()).decode()]: what the body
    of [decrypt_token] computes, which reads nothing of the process. *)
Definition decrypted (APP_KEY : string) (P : Fernet.primitives)
    (token : string) : result string :=
  result_bind (Fernet.new P APP_KEY) (fun f =>
  result_bind (str_encode token) (fun data =>
  result_bind (Fernet.decrypt P f data) bytes_decode)).

(** ** An environment to run the creation end point in *)

Module Scenario.

Definition temp_dir : string := "/tmp/cookiecutter8k2".

Definition output_dir : string := "/tmp/cookiecutter8k2/foo-bar".

Definition empty_json : string := "{}".

(** The reader of the examples, which also reads the empty object. *)
Definition json_loads (text : string) : result pydict :=
  if decide (text = empty_json) then Ok [] else Example.json_loads text.

(** The GitHub of the examples, with a file system and a generator.
    The generator answers [generated] and leaves [listing] in the
    temporary directory.  The organization [ghost] does not exist and
    the lookup of [down] fails on the network; no organization can
    make a repository named [taken].  The template [empty/template]
    has an empty document, and the defaults file of [broken] is no
    JSON. *)
Definition world (generated : result response) (listing : list string)
    (h : list call) (c : call) : result response :=
  match c with
  | tempfile_mkdtemp _ => Ok (RStr temp_dir)
  | shutil_rmtree _ => Ok RNone
  | cookiecutter_main _ _ _ _ => generated
  | Path_iterdir _ => Ok (RPaths listing)
  | subprocess_run _ _ => Ok RNone
  | Github_get_user _ =>
      Ok (RUser "monalisa" "Mona Lisa" "mona@example.com")
  | Github_get_organization _ login =>
      if decide (login = "ghost") then Raise (GithubException 404)
      else if decide (login = "down") then Raise (OSError "connection refused")
      else Ok RNone
  | Organization_create_repo _ _ name =>
      if decide (name = "taken") then Raise (GithubException 422)
      else Ok RNone
  | Github_get_repo _ name =>
      if decide (name = "empty/template") then Ok RNone
      else if decide (name = "broken/.github") then Ok RNone
      else Example.github h c
  | Repository_get_contents _ name _ =>
      if decide (name = "empty/template") then Ok (RStr empty_json)
      else if decide (name = "broken/.github") then Ok (RStr "not json")
      else Example.github h c
  | time_time | os_urandom _ => Example.github h c
  end.

Definition start (generated : result response) (listing : list string)
    : process :=
  {| respond := world generated listing; history := [];
     decrypt_token_cache := []; get_git_client_cache := [] |}.

(** A session on the template of the examples, for the repository
    [name] of [organization]. *)
Definition session (organization name : string) (context answers : pydict)
    : FormDetails :=
  {| template :=
       {| template_repo := Example.template_name; directory := "" |};
     org := organization; repo := name; cc_context := context;
     token := Example.secret_token; user_inputs := answers; next_key := None;
     next_value := VNone; done := false |}.

(** A session on the template without variables. *)
Definition empty_session : FormDetails :=
  {| template := {| template_repo := "empty/template"; directory := "" |};
     org := "acme"; repo := "demo"; cc_context := [];
     token := Example.secret_token; user_inputs := []; next_key := None;
     next_value := VNone; done := false |}.

End Scenario.

(** * Properties *)

Local Open Scope list_scope.

(** ** Dictionaries *)

Lemma dict_contains_spec (key : string) (d : pydict) :
  dict_contains key d = true <-> key ∈ dict_keys d.
Proof. unfold dict_contains. apply bool_decide_eq_true. Qed.

Lemma dict_contains_false (key : string) (d : pydict) :
  dict_contains key d = false <-> key ∉ dict_keys d.
Proof. unfold dict_contains. apply bool_decide_eq_false. Qed.

Lemma dict_keys_app (d1 d2 : pydict) :
  dict_keys (d1 ++ d2) = dict_keys d1 ++ dict_keys d2.
Proof. unfold dict_keys. apply fmap_app. Qed.



Lemma dict_get_middle (key : string) (v : value) (pre post : pydict) :
  key ∉ dict_keys pre -> dict_get key (pre ++ (key, v) :: post) = Some v.
Proof.
  induction pre as [|[k w] pre IH]; simpl; intros Hfresh.
  - by rewrite decide_True.
  - unfold dict_keys in Hfresh. simpl in Hfresh.
    apply not_elem_of_cons in Hfresh as [Hne Hfresh].
    rewrite decide_False by congruence. by apply IH.
Qed.

Lemma key_set_spec (key : string) (d : pydict) :
  key ∈ key_set d <-> key ∈ dict_keys d.
Proof. unfold key_set. apply elem_of_list_to_set. Qed.

Lemma elem_of_dict_keys_dict_set (x key : string) (v : value) (d : pydict) :
  x ∈ dict_keys (dict_set key v d) <-> x = key \/ x ∈ dict_keys d.
Proof.
  unfold dict_keys.
  induction d as [|[k w] d IH]; simpl.
  - rewrite list_elem_of_singleton. split; [by left | intros [H|H]; [done |]].
    by apply elem_of_nil in H.
  - destruct (decide (k = key)) as [->|Hne]; simpl.
    + rewrite elem_of_cons. tauto.
    + rewrite !elem_of_cons, IH. tauto.
Qed.

Lemma dict_keys_dict_set (key : string) (v : value) (d : pydict) :
  key_set (dict_set key v d) = {[key]} ∪ key_set d.
Proof.
  apply set_eq. intros x.
  rewrite elem_of_union, elem_of_singleton, !key_set_spec.
  apply elem_of_dict_keys_dict_set.
Qed.

Lemma key_set_subseteq (d1 d2 : pydict) :
  key_set d1 ⊆ key_set d2 <->
  (forall x, x ∈ dict_keys d1 -> x ∈ dict_keys d2).
Proof.
  split.
  - intros H x Hx. apply key_set_spec, H, key_set_spec, Hx.
  - intros H x Hx. apply key_set_spec, H, key_set_spec, Hx.
Qed.

Lemma missing_values_empty (details : FormDetails) :
  missing_values details = ∅ <->
  key_set (cc_context details) ⊆ key_set (user_inputs details).
Proof.
  unfold missing_values. split.
  - intros H x Hx.
    destruct (decide (x ∈ key_set (user_inputs details))); [done |].
    assert (x ∈ (∅ : gset string)) by (rewrite <- H; set_solver).
    set_solver.
  - intros H. apply set_eq. set_solver.
Qed.

(** ** The field resolver *)

Section Resolver.
Context (Env : Type) (StrictEnvironment : pydict -> result Env)
  (render_template : Env -> string -> pydict -> result string).

Local Abbreviation resolve :=
  (get_next_option Env StrictEnvironment render_template).
Local Abbreviation render := (Cookiecutter.render_variable Env render_template).

Lemma get_next_option_unfold (env : Env) (cc_context user_inputs : pydict) :
  StrictEnvironment [("cookiecutter", VDict cc_context)] = Ok env ->
  resolve cc_context user_inputs =
  match List.find (unanswered user_inputs) (dict_keys cc_context) with
  | None => Ok (None, VNone, true)
  | Some key =>
      match dict_get key cc_context with
      | Some raw =>
          result_bind (render env raw user_inputs)
            (fun rendered_value => Ok (Some key, rendered_value, false))
      | None => Raise (KeyError key)
      end
  end.
Proof.
  intros Henv. unfold get_next_option. rewrite Henv. simpl.
  induction (dict_keys cc_context) as [|key keys IH]; simpl; [done |].
  unfold unanswered at 1.
  destruct (negb (dict_contains key user_inputs)); [done | exact IH].
Qed.

Lemma find_unanswered_middle (user_inputs : pydict) (pre : list string)
    (key : string) (post : list string) :
  (forall x, x ∈ pre -> x ∈ dict_keys user_inputs) ->
  key ∉ dict_keys user_inputs ->
  List.find (unanswered user_inputs) (pre ++ key :: post) = Some key.
Proof.
  intros Hpre Hkey.
  induction pre as [|x pre IH]; simpl.
  - unfold unanswered.
    apply dict_contains_false in Hkey. by rewrite Hkey.
  - assert (Hx : dict_contains x user_inputs = true).
    { apply dict_contains_spec, Hpre. left. }
    unfold unanswered at 1. rewrite Hx. simpl.
    apply IH. intros y Hy. apply Hpre. by right.
Qed.

Lemma find_unanswered_None (user_inputs : pydict) (keys : list string) :
  List.find (unanswered user_inputs) keys = None <->
  (forall x, x ∈ keys -> x ∈ dict_keys user_inputs).
Proof.
  induction keys as [|x keys IH]; simpl.
  - split; [intros _ y Hy; by apply elem_of_nil in Hy | done].
  - unfold unanswered at 1.
    destruct (dict_contains x user_inputs) eqn:Hx; simpl.
    + rewrite IH. split.
      * intros H y Hy. apply elem_of_cons in Hy as [->|Hy];
          [by apply dict_contains_spec | by apply H].
      * intros H y Hy. apply H. by right.
    + split; [done |]. intros H.
      apply dict_contains_false in Hx. exfalso. apply Hx, H. left.
Qed.

Lemma find_unanswered_Some (user_inputs : pydict) (keys : list string)
    (key : string) :
  List.find (unanswered user_inputs) keys = Some key ->
  key ∈ keys /\ key ∉ dict_keys user_inputs.
Proof.
  intros H. apply find_some in H as [Hin Hun].
  split; [by apply list_elem_of_In |].
  apply dict_contains_false. unfold unanswered in Hun.
  by destruct (dict_contains key user_inputs).
Qed.

(** What the resolver returns for the first key without an answer. *)
Lemma get_next_option_first (env : Env) (cc_context user_inputs : pydict)
    (pre : pydict) (key : string) (raw : value) (post : pydict) :
  StrictEnvironment [("cookiecutter", VDict cc_context)] = Ok env ->
  cc_context = pre ++ (key, raw) :: post ->
  (forall x, x ∈ dict_keys pre -> x ∈ dict_keys user_inputs) ->
  key ∉ dict_keys user_inputs ->
  resolve cc_context user_inputs =
  result_bind (render env raw user_inputs)
    (fun rendered_value => Ok (Some key, rendered_value, false)).
Proof.
  intros Henv -> Hpre Hkey.
  rewrite (get_next_option_unfold env) by exact Henv.
  rewrite dict_keys_app. unfold dict_keys at 2. simpl.
  rewrite find_unanswered_middle by assumption.
  rewrite dict_get_middle; [done |].
  intros Hin. apply Hkey, Hpre, Hin.
Qed.

(** The resolver is done exactly when no key is left without an
    answer. *)
Lemma get_next_option_done (env : Env) (cc_context user_inputs : pydict) :
  StrictEnvironment [("cookiecutter", VDict cc_context)] = Ok env ->
  resolve cc_context user_inputs = Ok (None, VNone, true) <->
  (forall x, x ∈ dict_keys cc_context -> x ∈ dict_keys user_inputs).
Proof.
  intros Henv.
  rewrite (get_next_option_unfold env) by exact Henv.
  rewrite <- find_unanswered_None.
  destruct (List.find (unanswered user_inputs) (dict_keys cc_context))
    as [key|] eqn:Hfind; [| done].
  split; [| done].
  destruct (dict_get key cc_context) as [raw|]; [| done].
  destruct (render env raw user_inputs); simpl; done.
Qed.

(** The environment is built before any key is looked at. *)
Lemma get_next_option_Raise (cc_context user_inputs : pydict) (e : exn) :
  StrictEnvironment [("cookiecutter", VDict cc_context)] = Raise e ->
  resolve cc_context user_inputs = Raise e.
Proof. intros Henv. unfold get_next_option. by rewrite Henv. Qed.

(** C1, as the code has it.  [get_next_option] builds the template
    environment first, and raises what that raises whatever the answers
    are.  With the environment built, it returns the first key of the
    document, in the document's order, that has no entry in the
    answers, together with what [render_variable] makes of the default
    of that key against the answers and [done = false], or it raises
    what the rendering raises; and it returns [(None, None, True)]
    exactly when every key of the document has an answer. *)
Theorem get_next_option_first_unanswered (cc_context user_inputs : pydict) :
  match StrictEnvironment [("cookiecutter", VDict cc_context)] with
  | Raise e => resolve cc_context user_inputs = Raise e
  | Ok env =>
      (forall pre key raw post,
          cc_context = pre ++ (key, raw) :: post ->
          (forall x, x ∈ dict_keys pre -> x ∈ dict_keys user_inputs) ->
          key ∉ dict_keys user_inputs ->
          resolve cc_context user_inputs
          = result_map
              (fun rendered_value => (Some key, rendered_value, false))
              (render env raw user_inputs))
      /\ (resolve cc_context user_inputs = Ok (None, VNone, true) <->
          (forall x, x ∈ dict_keys cc_context -> x ∈ dict_keys user_inputs))
  end.
Proof.
  destruct (StrictEnvironment [("cookiecutter", VDict cc_context)])
    as [env|e] eqn:Henv; [| by apply get_next_option_Raise].
  split.
  - intros pre key raw post Hsplit Hpre Hkey.
    by apply (get_next_option_first env _ _ pre key raw post).
  - by apply (get_next_option_done env).
Qed.

(** A key that the resolver returns is a key of the document that has
    no answer. *)
Lemma get_next_option_Some (cc_context user_inputs : pydict)
    (key : string) (v : value) (b : bool) :
  resolve cc_context user_inputs = Ok (Some key, v, b) ->
  key ∈ dict_keys cc_context /\ (key ∉ dict_keys user_inputs) /\ b = false.
Proof.
  intros H.
  destruct (StrictEnvironment [("cookiecutter", VDict cc_context)])
    as [env|e] eqn:Henv.
  - rewrite (get_next_option_unfold env) in H by exact Henv.
    destruct (List.find (unanswered user_inputs) (dict_keys cc_context))
      as [k|] eqn:Hfind; [| discriminate].
    apply find_unanswered_Some in Hfind as [Hin Hun].
    destruct (dict_get k cc_context) as [raw|]; [| discriminate].
    destruct (render env raw user_inputs); simpl in H; [| discriminate].
    by injection H as -> _ <-.
  - unfold get_next_option in H. rewrite Henv in H. discriminate.
Qed.




(** C10, as the code has it.  At completion every key of the
    document has an answer: both the resolver's [done] and the
    validation of [/create] say that the document's keys are among
    the answers' keys, and neither looks at the other inclusion.  The
    two key sets are equal when the answers' keys were document keys
    to begin with, which answering the returned key preserves. *)
Theorem completion_covers_document (env : Env) (details : FormDetails) :
  StrictEnvironment [("cookiecutter", VDict (cc_context details))] = Ok env ->
  (resolve (cc_context details) (user_inputs details) = Ok (None, VNone, true)
   <-> key_set (cc_context details) ⊆ key_set (user_inputs details))
  /\ (missing_values details = ∅
      <-> key_set (cc_context details) ⊆ key_set (user_inputs details))
  /\ (missing_values details = ∅ ->
      key_set (user_inputs details) ⊆ key_set (cc_context details) ->
      key_set (user_inputs details) = key_set (cc_context details))
  /\ (forall key v b answer,
        resolve (cc_context details) (user_inputs details)
        = Ok (Some key, v, b) ->
        key_set (user_inputs details) ⊆ key_set (cc_context details) ->
        key_set (dict_set key answer (user_inputs details))
        ⊆ key_set (cc_context details)).
Proof.
  intros Henv. repeat split.
  - intros H. apply key_set_subseteq.
    by apply (get_next_option_done env _ _ Henv).
  - intros H. apply (get_next_option_done env _ _ Henv).
    by apply key_set_subseteq.
  - apply missing_values_empty.
  - apply missing_values_empty.
  - intros Hmissing Hsub. apply missing_values_empty in Hmissing.
    apply set_eq. set_solver.
  - intros key v b answer Hstep Hsub.
    apply get_next_option_Some in Hstep as (Hin & _ & _).
    rewrite dict_keys_dict_set. apply key_set_spec in Hin. set_solver.
Qed.
End Resolver.

(** ** The token codec *)

Lemma lru_find_take {K V : Type} `{EqDecision K} (n : nat) (k : K) (v : V)
    (c : list (K * V)) :
  lru_find k (take n c) = Some v -> lru_find k c = Some v.
Proof.
  revert n. induction c as [|[k' v'] c IH]; intros [|n]; simpl; try done.
  destruct (decide (k' = k)); [done | apply IH].
Qed.

Lemma lru_find_store {K V : Type} `{EqDecision K} (n : nat) (k k' : K)
    (v v' : V) (c : list (K * V)) :
  lru_find k' (lru_store n k v c) = Some v' ->
  (k' = k /\ v' = v) \/ lru_find k' c = Some v'.
Proof.
  unfold lru_store. intros H. apply lru_find_take in H. simpl in H.
  destruct (decide (k = k')) as [->|Hne]; [left | by right].
  split; [done | congruence].
Qed.

Lemma lru_find_remove_ne {K V : Type} `{EqDecision K} (k k' : K)
    (c : list (K * V)) :
  k <> k' -> lru_find k' (lru_remove k c) = lru_find k' c.
Proof.
  intros Hne. induction c as [|[k0 v0] c IH]; simpl; [done |].
  destruct (decide (k0 = k)) as [->|Hk0].
  - by rewrite decide_False.
  - simpl. destruct (decide (k0 = k')); [done | exact IH].
Qed.

Lemma lru_find_touch {K V : Type} `{EqDecision K} (k k' : K) (v v' : V)
    (c : list (K * V)) :
  lru_find k' (lru_touch k v c) = Some v' ->
  (k' = k /\ v' = v) \/ lru_find k' c = Some v'.
Proof.
  unfold lru_touch. simpl.
  destruct (decide (k = k')) as [->|Hne]; intros H.
  - left. split; [done | congruence].
  - right. by rewrite lru_find_remove_ne in H.
Qed.

Section Codec.
Context (APP_KEY : string) (P : Fernet.primitives).

Local Abbreviation encrypt := (encrypt_token APP_KEY P).
Local Abbreviation decrypt := (decrypt_token APP_KEY P).
Local Abbreviation sound := (decrypt_cache_sound APP_KEY P).

Lemma pack_Q_length (n : Z) (bytes : list byte) :
  Fernet.pack_Q n = Ok bytes -> length bytes = 8%nat.
Proof.
  unfold Fernet.pack_Q. destruct (decide (0 <= n < 2 ^ 64)); [| done].
  intros H. injection H as <-. reflexivity.
Qed.

Lemma new_key_lengths (k : Fernet.key) :
  Fernet.new P APP_KEY = Ok k ->
  length (Fernet.signing_key k) = 16%nat
  /\ length (Fernet.encryption_key k) = 16%nat.
Proof.
  unfold Fernet.new.
  destruct (Fernet.urlsafe_b64decode P (list_byte_of_string APP_KEY))
    as [raw|]; [| done].
  destruct (decide (length raw = 32%nat)) as [Hlen|]; [| done].
  intros H. injection H as <-. simpl.
  rewrite length_take, length_drop. lia.
Qed.

(** Decryption undoes [encrypt_from_parts], whatever the time stamp
    and the IV. *)
Lemma decrypt_encrypt_from_parts (k : Fernet.key) (data : list byte)
    (now : Z) (iv tok : list byte) :
  Fernet.lawful P ->
  Fernet.new P APP_KEY = Ok k ->
  length iv = 16%nat ->
  Fernet.encrypt_from_parts P k data now iv = Ok tok ->
  Fernet.decrypt P k tok = Ok data.
Proof.
  intros [Hb64 Hcbc Hmac] Hk Hiv. unfold Fernet.encrypt_from_parts.
  destruct (Fernet.pack_Q now) as [ts|] eqn:Hts; simpl; [| done].
  apply pack_Q_length in Hts.
  intros H. injection H as <-.
  apply new_key_lengths in Hk as [_ Henc].
  remember (Fernet.aes_cbc_encrypt P (Fernet.encryption_key k) iv data)
    as ct eqn:Hct.
  remember (Fernet.hmac_sha256 P (Fernet.signing_key k)
              (x80 :: ts ++ iv ++ ct)) as mac eqn:Hmacdef.
  assert (Hmaclen : length mac = 32%nat) by (subst mac; apply Hmac).
  unfold Fernet.decrypt. rewrite Hb64.
  change ((x80 :: ts ++ iv ++ ct) ++ mac)
    with (x80 :: (ts ++ iv ++ ct) ++ mac).
  cbv beta iota zeta.
  change (x80 :: (ts ++ iv ++ ct) ++ mac)
    with ((x80 :: ts ++ iv ++ ct) ++ mac).
  set (basic := x80 :: ts ++ iv ++ ct) in *.
  assert (Hbasic : length basic = (25 + length ct)%nat).
  { subst basic. simpl. rewrite !length_app. lia. }
  assert (Hlen : length (basic ++ mac) = (length basic + 32)%nat).
  { rewrite length_app. lia. }
  rewrite bool_decide_eq_true_2 by done.
  change (negb true) with false. cbv iota.
  rewrite bool_decide_eq_true_2 by (rewrite Hlen; lia).
  change (negb true) with false. cbv iota.
  rewrite Hlen.
  replace (length basic + 32 - 32)%nat with (length basic) by lia.
  rewrite take_app_length, drop_app_length.
  rewrite <- Hmacdef.
  rewrite bool_decide_eq_true_2 by done.
  change (negb true) with false. cbv iota.
  assert (Hiv' : take 16 (drop 9 (basic ++ mac)) = iv).
  { subst basic. simpl.
    rewrite <- (app_assoc ts), (drop_app_length' ts) by lia.
    rewrite <- !app_assoc. by rewrite take_app_length' by lia. }
  assert (Hct' : take (length basic - 25) (drop 25 (basic ++ mac)) = ct).
  { subst basic. simpl.
    rewrite (app_assoc ts iv), <- (app_assoc (ts ++ iv)).
    rewrite (drop_app_length' (ts ++ iv)) by (rewrite length_app; lia).
    rewrite take_app_length'; [done |].
    simpl in Hbasic. rewrite !length_app in *. lia. }
  rewrite Hiv', Hct'. subst ct. by rewrite Hcbc.
Qed.

Lemma str_encode_Ok (s : string) (data : list byte) :
  str_encode s = Ok data ->
  data = list_byte_of_string s /\ utf8_valid data = true.
Proof.
  unfold str_encode.
  destruct (utf8_valid (list_byte_of_string s)) eqn:Hvalid; [| done].
  intros H. by injection H as <-.
Qed.

Lemma bytes_decode_Ok (data : list byte) (s : string) :
  bytes_decode data = Ok s ->
  s = string_of_list_byte data /\ utf8_valid data = true.
Proof.
  unfold bytes_decode. destruct (utf8_valid data) eqn:Hvalid; [| done].
  intros H. by injection H as <-.
Qed.

(** Text that was encoded decodes to itself, and the other way
    round. *)
Lemma bytes_decode_str_encode (s : string) (data : list byte) :
  str_encode s = Ok data -> bytes_decode data = Ok s.
Proof.
  intros H. apply str_encode_Ok in H as [-> Hvalid].
  unfold bytes_decode. by rewrite Hvalid, string_of_list_byte_of_string.
Qed.

Lemma str_encode_bytes_decode (data : list byte) (s : string) :
  bytes_decode data = Ok s -> str_encode s = Ok data.
Proof.
  intros H. apply bytes_decode_Ok in H as [-> Hvalid].
  unfold str_encode. by rewrite list_byte_of_string_of_list_byte, Hvalid.
Qed.

(** The result of [encrypt_token] is a function of the key, the
    token, the clock reading and the random bytes drawn. *)
Lemma encrypt_token_result (t : string) (st : process) :
  (encrypt t st).1 =
  result_bind (Fernet.new P APP_KEY) (fun k =>
  result_bind (str_encode t) (fun data =>
  result_bind (result_bind (drawn_time st) as_int) (fun now =>
  result_bind (result_bind (drawn_iv st) (as_bytes 16)) (fun iv =>
  result_bind (Fernet.encrypt_from_parts P k data now iv) bytes_decode)))).
Proof.
  unfold encrypt_token, Fernet.encrypt, bind, lift, ret, extern,
    drawn_time, drawn_iv.
  destruct (Fernet.new P APP_KEY) as [k|]; simpl; [| done].
  destruct (str_encode t) as [data|]; simpl; [| done].
  destruct (respond st (history st) time_time) as [r|]; simpl; [| done].
  destruct (as_int r) as [now|]; simpl; [| done].
  destruct (respond st (time_time :: history st) (os_urandom 16)) as [r'|];
    simpl; [| done].
  destruct (as_bytes 16 r') as [iv|]; simpl; [| done].
  by destruct (Fernet.encrypt_from_parts P k data now iv).
Qed.

(** [encrypt_token] leaves the memo tables alone. *)
Lemma encrypt_token_caches (t : string) (st : process) :
  decrypt_token_cache (encrypt t st).2 = decrypt_token_cache st
  /\ get_git_client_cache (encrypt t st).2 = get_git_client_cache st.
Proof.
  unfold encrypt_token, Fernet.encrypt, bind, lift, ret, extern.
  destruct (Fernet.new P APP_KEY) as [k|]; simpl; [| done].
  destruct (str_encode t) as [data|]; simpl; [| done].
  destruct (respond st (history st) time_time) as [r|]; simpl; [| done].
  destruct (as_int r) as [now|]; simpl; [| done].
  destruct (respond st (time_time :: history st) (os_urandom 16)) as [r'|];
    simpl; [| done].
  destruct (as_bytes 16 r') as [iv|]; simpl; [| done].
  by destruct (Fernet.encrypt_from_parts P k data now iv).
Qed.

(** A token that cannot be encoded is refused before anything is
    asked of the outside world. *)
Lemma encrypt_token_unencodable (t : string) (st : process)
    (k : Fernet.key) (e : exn) :
  Fernet.new P APP_KEY = Ok k ->
  str_encode t = Raise e ->
  encrypt t st = (Raise e, st).
Proof.
  intros Hk Hencode. unfold encrypt_token, bind, lift.
  by rewrite Hk, Hencode.
Qed.

Lemma as_bytes_inv (n : nat) (r : result response) (data : list byte) :
  result_bind r (as_bytes n) = Ok data ->
  r = Ok (RBytes data) /\ length data = n.
Proof.
  destruct r as [[]|]; simpl; try done.
  destruct (decide (length data0 = n)); [| done].
  intros H. by injection H as <-.
Qed.

Lemma encrypt_token_inv (t c : string) (st : process) :
  (encrypt t st).1 = Ok c ->
  exists k data now iv tok,
    Fernet.new P APP_KEY = Ok k
    /\ str_encode t = Ok data
    /\ drawn_iv st = Ok (RBytes iv)
    /\ length iv = 16%nat
    /\ Fernet.encrypt_from_parts P k data now iv = Ok tok
    /\ bytes_decode tok = Ok c.
Proof.
  rewrite encrypt_token_result.
  destruct (Fernet.new P APP_KEY) as [k|]; simpl; [| done].
  destruct (str_encode t) as [data|]; simpl; [| done].
  destruct (result_bind (drawn_time st) as_int) as [now|]; simpl; [| done].
  destruct (result_bind (drawn_iv st) (as_bytes 16)) as [iv|] eqn:Hiv;
    simpl; [| done].
  apply as_bytes_inv in Hiv as [Hiv Hlen].
  destruct (Fernet.encrypt_from_parts P k data now iv)
    as [tok|] eqn:Htok; simpl; [| done].
  intros H. by exists k, data, now, iv, tok.
Qed.

(** The body of [decrypt_token] is a pure function of the token. *)
Lemma decrypt_token_uncached_pure (tok : string) (st : process) :
  decrypt_token_uncached APP_KEY P tok st = (decrypted APP_KEY P tok, st).
Proof.
  unfold decrypt_token_uncached, decrypted, bind, lift.
  destruct (Fernet.new P APP_KEY) as [f|]; simpl; [| done].
  destruct (str_encode tok) as [data|]; simpl; [| done].
  by destruct (Fernet.decrypt P f data).
Qed.

(** The memo table does not change what [decrypt_token] returns, and
    stays sound. *)
Lemma decrypt_token_transparent (tok : string) (st : process) :
  sound st ->
  exists st',
    decrypt tok st = ((decrypt_token_uncached APP_KEY P tok st).1, st')
    /\ sound st'
    /\ respond st' = respond st
    /\ history st' = history st
    /\ get_git_client_cache st' = get_git_client_cache st.
Proof.
  intros Hsound. unfold decrypt_token, lru_cache.
  destruct (lru_find tok (decrypt_token_cache st)) as [raw|] eqn:Hfind.
  - exists (set_decrypt_token_cache
              (lru_touch tok raw (decrypt_token_cache st)) st).
    split; [| split; [| done]].
    + rewrite (Hsound tok raw Hfind st). reflexivity.
    + intros tok' raw' H.
      change (lru_find tok' (lru_touch tok raw (decrypt_token_cache st))
              = Some raw') in H.
      apply lru_find_touch in H as [[-> ->]|H]; eauto.
  - pose proof (decrypt_token_uncached_pure tok st) as Hpure.
    destruct (decrypt_token_uncached APP_KEY P tok st) as [[raw|e] st1]
      eqn:Hrun; injection Hpure as Hres ->.
    + exists (set_decrypt_token_cache
                (lru_store 1024 tok raw (decrypt_token_cache st)) st).
      split; [done | split; [| done]].
      intros tok' raw' H.
      change (lru_find tok' (lru_store 1024 tok raw (decrypt_token_cache st))
              = Some raw') in H.
      apply lru_find_store in H as [[-> ->]|H]; [| eauto].
      intros st0. rewrite decrypt_token_uncached_pure. by rewrite <- Hres.
    + exists st. split; [done | split; done].
Qed.

(** Whatever [encrypt_token] returned decrypts to the token that
    was encrypted. *)
Lemma decrypt_after_encrypt (t c : string) (st st' : process) :
  Fernet.lawful P ->
  sound st ->
  encrypt t st = (Ok c, st') ->
  exists st'', decrypt c st' = (Ok t, st'') /\ sound st''.
Proof.
  intros Hlaw Hsound Hrun.
  assert (Hres : (encrypt t st).1 = Ok c) by by rewrite Hrun.
  assert (Hsound' : sound st').
  { intros tok raw H. apply Hsound.
    pose proof (encrypt_token_caches t st) as [Hc _].
    rewrite Hrun in Hc. simpl in Hc. by rewrite <- Hc. }
  apply encrypt_token_inv in Hres
    as (k & data & now & iv & tok & Hk & Hdata & _ & Hiv & Htok & Hc).
  destruct (decrypt_token_transparent c st' Hsound')
    as (st'' & Hdec & Hsound'' & _).
  exists st''. split; [| done]. rewrite Hdec. f_equal.
  rewrite decrypt_token_uncached_pure. unfold decrypted. simpl.
  rewrite Hk. simpl.
  rewrite (str_encode_bytes_decode tok c Hc). simpl.
  rewrite (decrypt_encrypt_from_parts k data now iv tok) by assumption.
  simpl. by apply bytes_decode_str_encode.
Qed.

(** [encrypt_token] returns a token whenever the token can be encoded,
    the key is a Fernet key, the clock reads a 64-bit time, the random
    source hands out sixteen bytes and base64 text is ASCII. *)
Lemma encrypt_token_returns (t : string) (st : process) (k : Fernet.key)
    (data : list byte) (now : Z) (iv : list byte) :
  Fernet.text_safe P ->
  Fernet.new P APP_KEY = Ok k ->
  str_encode t = Ok data ->
  drawn_time st = Ok (RInt now) ->
  0 <= now < 2 ^ 64 ->
  drawn_iv st = Ok (RBytes iv) ->
  length iv = 16%nat ->
  exists c, (encrypt t st).1 = Ok c.
Proof.
  intros Hsafe Hk Hdata Htime Hrange Hiv Hlen.
  rewrite encrypt_token_result, Hk, Hdata, Htime, Hiv. simpl.
  rewrite decide_True by exact Hlen. simpl.
  unfold Fernet.encrypt_from_parts, Fernet.pack_Q.
  rewrite decide_True by exact Hrange. simpl.
  unfold bytes_decode. rewrite Hsafe. eauto.
Qed.

(** C5, as the code has it.  Under lawful primitives whose base64
    text is ASCII and a Fernet key, in a process whose clock and
    random source answer: for every token that can be encoded in
    UTF-8, [encrypt_token] returns an encrypted token and
    [decrypt_token] turns that encrypted token back into the input,
    whatever the memo table of [decrypt_token] holds; for any other
    token [encrypt_token] raises the error of the encoding, and
    nothing was asked of the outside world. *)
Theorem decrypt_encrypt_token (t : string) (st : process) (k : Fernet.key)
    (now : Z) (iv : list byte) :
  Fernet.lawful P ->
  Fernet.text_safe P ->
  Fernet.new P APP_KEY = Ok k ->
  drawn_time st = Ok (RInt now) ->
  0 <= now < 2 ^ 64 ->
  drawn_iv st = Ok (RBytes iv) ->
  length iv = 16%nat ->
  sound st ->
  match str_encode t with
  | Ok _ =>
      exists c st' st'',
        encrypt t st = (Ok c, st')
        /\ decrypt c st' = (Ok t, st'')
        /\ sound st''
  | Raise e => encrypt t st = (Raise e, st)
  end.
Proof.
  intros Hlaw Hsafe Hk Htime Hrange Hiv Hlen Hsound.
  destruct (str_encode t) as [data|e] eqn:Hdata;
    [| by apply (encrypt_token_unencodable t st k)].
  destruct (encrypt_token_returns t st k data now iv) as [c Hc];
    try assumption.
  destruct (encrypt t st) as [r st'] eqn:Hrun. simpl in Hc. subst r.
  destruct (decrypt_after_encrypt t c st st' Hlaw Hsound Hrun)
    as (st'' & Hdec & Hsound'').
  by exists c, st', st''.
Qed.

Lemma b64_injective (x y : list byte) :
  Fernet.lawful P ->
  Fernet.urlsafe_b64encode P x = Fernet.urlsafe_b64encode P y -> x = y.
Proof.
  intros [Hb64 _ _] H.
  pose proof (Hb64 x) as Hx. rewrite H, Hb64 in Hx. by injection Hx.
Qed.

Lemma string_of_list_byte_injective (x y : list byte) :
  string_of_list_byte x = string_of_list_byte y -> x = y.
Proof.
  intros H.
  by rewrite <- (list_byte_of_string_of_list_byte x), H,
    list_byte_of_string_of_list_byte.
Qed.

(** The IV is part of the token. *)
Lemma encrypt_from_parts_iv (k : Fernet.key) (data : list byte)
    (now1 now2 : Z) (iv1 iv2 tok : list byte) :
  Fernet.lawful P ->
  length iv1 = 16%nat -> length iv2 = 16%nat ->
  Fernet.encrypt_from_parts P k data now1 iv1 = Ok tok ->
  Fernet.encrypt_from_parts P k data now2 iv2 = Ok tok ->
  iv1 = iv2.
Proof.
  intros Hlaw Hiv1 Hiv2. unfold Fernet.encrypt_from_parts.
  destruct (Fernet.pack_Q now1) as [ts1|] eqn:Hts1; simpl; [| done].
  destruct (Fernet.pack_Q now2) as [ts2|] eqn:Hts2; simpl; [| done].
  apply pack_Q_length in Hts1, Hts2.
  intros H1 H2. injection H1 as <-. injection H2 as H2.
  apply (b64_injective _ _ Hlaw) in H2.
  injection H2 as H2. rewrite <- !app_assoc in H2.
  apply app_inj_1 in H2 as [_ H2]; [| congruence].
  apply app_inj_1 in H2 as [H2 _]; congruence.
Qed.

(** C6, as the code has it.  The encrypted token is a function of the
    raw token, the key, the clock reading and the sixteen random
    bytes of the call: two invocations that read the same time and
    draw the same bytes return the same token, and two invocations
    that draw different bytes return different tokens. *)
Theorem encrypt_token_draws (t : string) (st1 st2 : process) :
  (drawn_time st1 = drawn_time st2 -> drawn_iv st1 = drawn_iv st2 ->
   (encrypt t st1).1 = (encrypt t st2).1)
  /\ (Fernet.lawful P ->
      forall c1 c2,
        (encrypt t st1).1 = Ok c1 -> (encrypt t st2).1 = Ok c2 ->
        drawn_iv st1 <> drawn_iv st2 -> c1 <> c2).
Proof.
  split.
  - intros Htime Hiv. rewrite !encrypt_token_result. by rewrite Htime, Hiv.
  - intros Hlaw c1 c2 H1 H2 Hdiff Heq. subst c2.
    apply encrypt_token_inv in H1
      as (k1 & data1 & now1 & iv1 & tok1 & Hk1 & He1 & Hd1 & Hl1 & Ht1 & Hc1).
    apply encrypt_token_inv in H2
      as (k2 & data2 & now2 & iv2 & tok2 & Hk2 & He2 & Hd2 & Hl2 & Ht2 & Hc2).
    apply bytes_decode_Ok in Hc1 as [Hc1 _].
    apply bytes_decode_Ok in Hc2 as [Hc2 _].
    rewrite Hc1 in Hc2. apply string_of_list_byte_injective in Hc2.
    subst tok2. assert (k2 = k1) as -> by congruence.
    assert (data2 = data1) as -> by congruence.
    apply Hdiff. rewrite Hd1, Hd2. do 2 f_equal.
    by apply (encrypt_from_parts_iv k1 data1 now1 now2 iv1 iv2 tok1).
Qed.
End Codec.

(** ** The service *)

Lemma lru_cache_same_world {K V : Type} `{EqDecision K} (maxsize : nat)
    (table : process -> list (K * V))
    (set_table : list (K * V) -> process -> process)
    (f : K -> M V) (k : K) (st st' : process) (r : result V) :
  (forall st0 r0 st0', f k st0 = (r0, st0') -> same_world st0 st0') ->
  (forall c st0, same_world st0 (set_table c st0)) ->
  lru_cache maxsize table set_table f k st = (r, st') ->
  same_world st st'.
Proof.
  intros Hf Hset. unfold lru_cache.
  destruct (lru_find k (table st)) as [v|].
  - intros H. injection H as _ <-. apply Hset.
  - destruct (f k st) as [[v|e] st1] eqn:Hrun; intros H; injection H as _ <-.
    + destruct (Hf _ _ _ Hrun) as [Hr Hh].
      destruct (Hset (lru_store maxsize k v (table st1)) st1) as [Hr' Hh'].
      split; congruence.
    + by apply (Hf _ _ _ Hrun).
Qed.

Section Service.
Context (HOST_NAME BASE_URL APP_KEY : string) (P : Fernet.primitives)
  (Github_rejects : string -> string -> option exn)
  (json_loads : string -> result pydict) (shlex_quote : string -> string)
  (Env : Type) (StrictEnvironment : pydict -> result Env)
  (render_template : Env -> string -> pydict -> result string).

Local Abbreviation resolve :=
  (get_next_option Env StrictEnvironment render_template).
Local Abbreviation client_of := (get_git_client HOST_NAME BASE_URL APP_KEY P
    Github_rejects).
Local Abbreviation fetch :=
  (get_config HOST_NAME BASE_URL APP_KEY P Github_rejects json_loads).

Lemma decrypt_token_same_world (tok : string) (st st' : process)
    (r : result string) :
  decrypt_token APP_KEY P tok st = (r, st') -> same_world st st'.
Proof.
  apply lru_cache_same_world.
  - intros st0 r0 st0'. rewrite decrypt_token_uncached_pure.
    intros H. injection H as _ <-. by split.
  - intros c st0. by split.
Qed.

(** Building a client asks nothing of the outside world. *)
Lemma get_git_client_same_world (tok : string) (encrypted : bool)
    (st st' : process) (r : result Github) :
  client_of tok encrypted st = (r, st') -> same_world st st'.
Proof.
  apply lru_cache_same_world.
  - intros st0 r0 st0'. unfold get_git_client_uncached, bind, ret.
    destruct encrypted.
    + destruct (decrypt_token APP_KEY P tok st0) as [[raw|e] st1] eqn:Hrun;
        intros H; injection H as _ <-;
        by apply (decrypt_token_same_world tok st0 st1 _ Hrun).
    + intros H. injection H as _ <-. by split.
  - intros c st0. by split.
Qed.

(** C8. When the session already carries a variable document, [form]
    only runs the field resolver on the carried document and answers:
    the process state, and with it the record of external calls, is
    what it was. *)
Theorem form_cached_is_local (details : FormDetails) (st : process) :
  cc_context details <> [] ->
  form HOST_NAME BASE_URL APP_KEY P
      Github_rejects json_loads Env StrictEnvironment
    render_template details st =
  (result_map (fun step => set_next step details)
     (resolve (cc_context details) (user_inputs details)), st).
Proof.
  intros Hcached. unfold form, bind, ret, lift, result_map.
  destruct (cc_context details) as [|entry rest] eqn:Hcc; [done |].
  rewrite Hcc.
  by destruct (resolve (entry :: rest) (user_inputs details)).
Qed.

(** An incomplete session never gets past the validation, and the
    handler of [create] turns the validation error into status 500. *)
Lemma create_incomplete (details : FormDetails) (st : process) :
  missing_values details <> ∅ ->
  validate_and_create HOST_NAME BASE_URL APP_KEY P
      Github_rejects shlex_quote details st =
  (Raise (HTTPException 400 (MissingInputs (missing_values details))), st)
  /\ create HOST_NAME BASE_URL APP_KEY P Github_rejects shlex_quote details st =
     (Raise
        (HTTPException 500
           (ErrorOccured
              (HTTPException 400 (MissingInputs (missing_values details))))),
      st).
Proof.
  intros Hmissing.
  assert (Hv : validate_and_create HOST_NAME BASE_URL APP_KEY P
      Github_rejects shlex_quote
                 details st =
               (Raise (HTTPException 400
                         (MissingInputs (missing_values details))), st)).
  { unfold validate_and_create.
    by rewrite bool_decide_eq_false_2. }
  split; [exact Hv |].
  unfold create, try_except. by rewrite Hv.
Qed.

(** C9. When the template's document is fetched and the organization
    has no [.github] repository, or that repository has no defaults
    file for the template, [get_config] succeeds and returns the
    template's document unchanged. *)
Theorem get_config_without_overrides
    (repo_name directory user_org tok : string) (st st1 : process)
    (client : Github) (text : string) (base : pydict) :
  let path :=
    if bool_decide (directory = "") then "cookiecutter.json"
    else os_path_join directory "cookiecutter.json" in
  let config_repo := (user_org ++ "/.github")%string in
  let c1 := Github_get_repo client repo_name in
  let c2 := Repository_get_contents client repo_name path in
  let c3 := Github_get_repo client config_repo in
  let c4 :=
    Repository_get_contents client config_repo
      (os_path_join (os_path_join "cookiecutter" repo_name) path) in
  let h := history st in
  client_of tok true st = (Ok client, st1) ->
  (exists r, respond st h c1 = Ok r) ->
  respond st (c1 :: h) c2 = Ok (RStr text) ->
  json_loads text = Ok base ->
  (exists status, respond st (c2 :: c1 :: h) c3 = Raise (GithubException status))
  \/ ((exists r, respond st (c2 :: c1 :: h) c3 = Ok r)
      /\ exists status,
          respond st (c3 :: c2 :: c1 :: h) c4
          = Raise (GithubException status)) ->
  exists st', fetch repo_name directory user_org tok st = (Ok base, st').
Proof.
  intros path config_repo c1 c2 c3 c4 h Hclient [r1 H1] H2 Hjson Hover.
  apply get_git_client_same_world in Hclient as Hworld.
  destruct Hworld as [Hr Hh].
  destruct st1 as [resp1 hist1 dcache1 gcache1].
  cbn [respond history] in Hr, Hh. subst resp1 hist1.
  unfold get_config, bind, extern, lift, try_except, ret.
  rewrite Hclient. cbn [respond history].
  fold path. fold config_repo. fold h. fold c1. rewrite H1.
  fold c2. rewrite H2. cbn [as_str]. rewrite Hjson.
  fold c3.
  destruct Hover as [[status H3]|[[r3 H3] [status H4]]]; rewrite H3.
  - cbn. eauto.
  - cbn [negb is_GithubException respond history].
    fold c4. rewrite H4. cbn. eauto.
Qed.

(** With both documents fetched, the result of [get_config] is the
    template's document with the organization's overrides applied. *)
Lemma get_config_with_overrides
    (repo_name directory user_org tok : string) (st st1 : process)
    (client : Github) (text text' : string) (base overrides : pydict) :
  let path :=
    if bool_decide (directory = "") then "cookiecutter.json"
    else os_path_join directory "cookiecutter.json" in
  let config_repo := (user_org ++ "/.github")%string in
  let c1 := Github_get_repo client repo_name in
  let c2 := Repository_get_contents client repo_name path in
  let c3 := Github_get_repo client config_repo in
  let c4 :=
    Repository_get_contents client config_repo
      (os_path_join (os_path_join "cookiecutter" repo_name) path) in
  let h := history st in
  client_of tok true st = (Ok client, st1) ->
  (exists r, respond st h c1 = Ok r) ->
  respond st (c1 :: h) c2 = Ok (RStr text) ->
  json_loads text = Ok base ->
  (exists r, respond st (c2 :: c1 :: h) c3 = Ok r) ->
  respond st (c3 :: c2 :: c1 :: h) c4 = Ok (RStr text') ->
  json_loads text' = Ok overrides ->
  exists st',
    fetch repo_name directory user_org tok st =
    (Ok (Cookiecutter.apply_overwrites_to_context base overrides), st').
Proof.
  intros path config_repo c1 c2 c3 c4 h Hclient [r1 H1] H2 Hjson [r3 H3]
    H4 Hjson'.
  apply get_git_client_same_world in Hclient as Hworld.
  destruct Hworld as [Hr Hh].
  destruct st1 as [resp1 hist1 dcache1 gcache1].
  cbn [respond history] in Hr, Hh. subst resp1 hist1.
  unfold get_config, bind, extern, lift, try_except, ret.
  rewrite Hclient. cbn [respond history].
  fold path. fold config_repo. fold h. fold c1. rewrite H1.
  fold c2. rewrite H2. cbn [as_str]. rewrite Hjson.
  fold c3. rewrite H3.
  cbn [negb is_GithubException respond history].
  fold c4. rewrite H4. cbn [as_str]. rewrite Hjson'. cbn. eauto.
Qed.
End Service.

(** ** Organization overrides *)

Lemma dict_get_dict_set_eq (key : string) (v old : value) (d : pydict) :
  dict_get key d = Some old -> dict_get key (dict_set key v d) = Some v.
Proof.
  induction d as [|[k w] d IH]; simpl; [done |].
  destruct (decide (k = key)) as [->|Hne]; simpl.
  - by rewrite decide_True.
  - rewrite decide_False by done. exact IH.
Qed.

Lemma dict_get_dict_set_ne (key key' : string) (v : value) (d : pydict) :
  key <> key' -> dict_get key' (dict_set key v d) = dict_get key' d.
Proof.
  intros Hne. induction d as [|[k w] d IH]; simpl.
  - by rewrite decide_False.
  - destruct (decide (k = key)) as [->|Hk]; simpl.
    + by rewrite !decide_False.
    + by rewrite IH.
Qed.

Lemma dict_keys_dict_set_present (key : string) (v old : value) (d : pydict) :
  dict_get key d = Some old -> dict_keys (dict_set key v d) = dict_keys d.
Proof.
  unfold dict_keys. induction d as [|[k w] d IH]; simpl; [done |].
  destruct (decide (k = key)) as [->|Hne]; [done |].
  intros H. rewrite !fmap_cons. f_equal. by apply IH.
Qed.

Lemma apply_overwrite_keys (context : pydict) (item : string * value) :
  dict_keys (Cookiecutter.apply_overwrite context item) = dict_keys context.
Proof.
  destruct item as [variable overwrite]. unfold Cookiecutter.apply_overwrite.
  destruct (dict_get variable context) as [old|] eqn:Hget; [| done].
  destruct old; try by apply (dict_keys_dict_set_present _ _ _ _ Hget).
  destruct (Cookiecutter.list_contains overwrite items); [| done].
  by apply (dict_keys_dict_set_present _ _ _ _ Hget).
Qed.

Lemma apply_overwrite_other (context : pydict) (variable key : string)
    (overwrite : value) :
  variable <> key ->
  dict_get key (Cookiecutter.apply_overwrite context (variable, overwrite))
  = dict_get key context.
Proof.
  intros Hne. unfold Cookiecutter.apply_overwrite.
  destruct (dict_get variable context) as [old|]; [| done].
  destruct old; try by apply dict_get_dict_set_ne.
  destruct (Cookiecutter.list_contains overwrite items); [| done].
  by apply dict_get_dict_set_ne.
Qed.

Lemma apply_overwrite_same (context : pydict) (variable : string)
    (overwrite old : value) :
  dict_get variable context = Some old ->
  dict_get variable
    (Cookiecutter.apply_overwrite context (variable, overwrite))
  = Some (overwritten old overwrite).
Proof.
  intros Hget. unfold Cookiecutter.apply_overwrite, overwritten.
  rewrite Hget.
  destruct old; try by apply (dict_get_dict_set_eq _ _ _ _ Hget).
  destruct (Cookiecutter.list_contains overwrite items); [| done].
  by apply (dict_get_dict_set_eq _ _ _ _ Hget).
Qed.

Lemma apply_overwrites_keys (context overwrite_context : pydict) :
  dict_keys (Cookiecutter.apply_overwrites_to_context context overwrite_context)
  = dict_keys context.
Proof.
  unfold Cookiecutter.apply_overwrites_to_context.
  revert context. induction overwrite_context as [|item rest IH];
    intros context; simpl; [done |].
  by rewrite IH, apply_overwrite_keys.
Qed.

Lemma apply_overwrites_untouched (context overwrite_context : pydict)
    (key : string) :
  key ∉ dict_keys overwrite_context ->
  dict_get key
    (Cookiecutter.apply_overwrites_to_context context overwrite_context)
  = dict_get key context.
Proof.
  unfold Cookiecutter.apply_overwrites_to_context, dict_keys.
  revert context. induction overwrite_context as [|[variable overwrite] rest IH];
    intros context; simpl; [done |].
  intros Hfresh. apply not_elem_of_cons in Hfresh as [Hne Hfresh].
  rewrite IH by done. apply apply_overwrite_other. congruence.
Qed.

Lemma apply_overwrites_overwritten (context overwrite_context : pydict)
    (key : string) (v old : value) :
  NoDup (dict_keys overwrite_context) ->
  (key, v) ∈ overwrite_context ->
  dict_get key context = Some old ->
  dict_get key
    (Cookiecutter.apply_overwrites_to_context context overwrite_context)
  = Some (overwritten old v).
Proof.
  revert context.
  induction overwrite_context as [|[variable overwrite] rest IH];
    intros context Hnodup Hin Hget.
  - by apply elem_of_nil in Hin.
  - unfold dict_keys in Hnodup. simpl in Hnodup.
    apply NoDup_cons in Hnodup as [Hfresh Hnodup].
    change (Cookiecutter.apply_overwrites_to_context context
              ((variable, overwrite) :: rest))
      with (Cookiecutter.apply_overwrites_to_context
              (Cookiecutter.apply_overwrite context (variable, overwrite)) rest).
    apply elem_of_cons in Hin as [Heq|Hin].
    + injection Heq as <- <-.
      rewrite apply_overwrites_untouched by exact Hfresh.
      by apply apply_overwrite_same.
    + assert (Hne : variable <> key).
      { intros ->. apply Hfresh.
        apply list_elem_of_fmap. by exists (key, v). }
      apply IH; [exact Hnodup | exact Hin |].
      by rewrite apply_overwrite_other.
Qed.

(** C7, as the code has it.  Merging the overrides keeps the keys of
    the base document and their order, leaves the keys that have no
    override untouched and ignores overrides for keys the base does not
    have.  A key that occurs in both takes the override as its value,
    unless its base value is a list of choices: then the override moves
    to the front of the list when it is one of the choices and is
    dropped otherwise. *)
Theorem apply_overwrites_to_context_spec (context overwrite_context : pydict) :
  NoDup (dict_keys overwrite_context) ->
  let merged :=
    Cookiecutter.apply_overwrites_to_context context overwrite_context in
  dict_keys merged = dict_keys context
  /\ (forall key,
        key ∉ dict_keys overwrite_context ->
        dict_get key merged = dict_get key context)
  /\ (forall key v old,
        (key, v) ∈ overwrite_context ->
        dict_get key context = Some old ->
        dict_get key merged = Some (overwritten old v)).
Proof.
  intros Hnodup merged. split; [apply apply_overwrites_keys |].
  split.
  - intros key. apply apply_overwrites_untouched.
  - intros key v old. by apply apply_overwrites_overwritten.
Qed.

(** ** The memo table of [decrypt_token] stays sound *)

Lemma preserves_ret {A : Type} (I : process -> Prop) (a : A) :
  preserves I (ret a).
Proof. intros st r st' HI H. by injection H as _ <-. Qed.

Lemma preserves_raise {A : Type} (I : process -> Prop) (e : exn) :
  preserves I (@raise A e).
Proof. intros st r st' HI H. by injection H as _ <-. Qed.

Lemma preserves_lift {A : Type} (I : process -> Prop) (x : result A) :
  preserves I (lift x).
Proof. intros st r st' HI H. by injection H as _ <-. Qed.

Lemma preserves_bind {A B : Type} (I : process -> Prop) (m : M A)
    (k : A -> M B) :
  preserves I m -> (forall a, preserves I (k a)) -> preserves I (bind m k).
Proof.
  intros Hm Hk st r st' HI. unfold bind.
  destruct (m st) as [[a|e] st1] eqn:Hrun.
  - apply (Hk a). by apply (Hm _ _ _ HI Hrun).
  - intros H. injection H as _ <-. by apply (Hm _ _ _ HI Hrun).
Qed.

Lemma preserves_try_except {A : Type} (I : process -> Prop) (body : M A)
    (handled : exn -> bool) (handler : exn -> M A) :
  preserves I body -> (forall e, preserves I (handler e)) ->
  preserves I (try_except body handled handler).
Proof.
  intros Hbody Hhandler st r st' HI. unfold try_except.
  destruct (body st) as [[a|e] st1] eqn:Hrun.
  - intros H. injection H as _ <-. by apply (Hbody _ _ _ HI Hrun).
  - destruct (handled e).
    + apply (Hhandler e). by apply (Hbody _ _ _ HI Hrun).
    + intros H. injection H as _ <-. by apply (Hbody _ _ _ HI Hrun).
Qed.

Lemma preserves_finally {A : Type} (I : process -> Prop) (body : M A)
    (cleanup : M unit) :
  preserves I body -> preserves I cleanup -> preserves I (finally body cleanup).
Proof.
  intros Hbody Hcleanup st r st' HI. unfold finally.
  destruct (body st) as [r1 st1] eqn:Hrun.
  destruct (cleanup st1) as [[u|e] st2] eqn:Hclean;
    intros H; injection H as _ <-;
    apply (Hcleanup _ _ _ (Hbody _ _ _ HI Hrun) Hclean).
Qed.

Section CacheInvariant.
Context (HOST_NAME BASE_URL APP_KEY : string) (P : Fernet.primitives)
  (Github_rejects : string -> string -> option exn)
  (json_loads : string -> result pydict) (shlex_quote : string -> string)
  (Env : Type) (StrictEnvironment : pydict -> result Env)
  (render_template : Env -> string -> pydict -> result string).

Local Abbreviation sound := (decrypt_cache_sound APP_KEY P).

Lemma sound_extern (c : call) : preserves sound (extern c).
Proof. intros st r st' HI H. injection H as _ <-. exact HI. Qed.

Lemma sound_decrypt_token (tok : string) :
  preserves sound (decrypt_token APP_KEY P tok).
Proof.
  intros st r st' HI Hrun.
  destruct (decrypt_token_transparent APP_KEY P tok st HI)
    as (st1 & Hrun1 & Hsound & _).
  rewrite Hrun in Hrun1. by injection Hrun1 as _ ->.
Qed.

Lemma sound_get_git_client (tok : string) (encrypted : bool) :
  preserves sound (get_git_client HOST_NAME BASE_URL APP_KEY P
      Github_rejects tok encrypted).
Proof.
  intros st r st' HI. unfold get_git_client, lru_cache.
  destruct (lru_find (tok, encrypted) (get_git_client_cache st)) as [v|].
  - intros H. injection H as _ <-. exact HI.
  - assert (Hbody : preserves sound
                      (get_git_client_uncached HOST_NAME BASE_URL APP_KEY P
                          Github_rejects
                         (tok, encrypted))).
    { unfold get_git_client_uncached. apply preserves_bind.
      - destruct encrypted; [apply sound_decrypt_token | apply preserves_ret].
      - intros a. apply preserves_lift. }
    destruct (get_git_client_uncached HOST_NAME BASE_URL APP_KEY P
        Github_rejects
                (tok, encrypted) st) as [[v|e] st1] eqn:Hrun;
      intros H; injection H as _ <-; by apply (Hbody _ _ _ HI Hrun).
Qed.

Local Ltac step :=
  first
    [ apply preserves_ret | apply preserves_raise | apply preserves_lift
    | apply sound_extern | apply sound_decrypt_token
    | apply sound_get_git_client
    | apply preserves_bind; [| intros ?]
    | apply preserves_try_except; [| intros ?]
    | apply preserves_finally ].

Lemma sound_encrypt_token (t : string) :
  preserves sound (encrypt_token APP_KEY P t).
Proof. unfold encrypt_token, Fernet.encrypt. repeat step. Qed.

Lemma sound_get_config (repo_name directory user_org tok : string) :
  preserves sound
    (get_config HOST_NAME BASE_URL APP_KEY P
        Github_rejects json_loads repo_name directory
       user_org tok).
Proof.
  unfold get_config. repeat step.
  match goal with |- context [negb ?b] => destruct b end; simpl; repeat step.
Qed.

Lemma sound_form (details : FormDetails) :
  preserves sound
    (form HOST_NAME BASE_URL APP_KEY P
        Github_rejects json_loads Env StrictEnvironment
       render_template details).
Proof.
  unfold form. apply preserves_bind.
  - destruct (cc_context details); [| apply preserves_ret].
    apply preserves_bind; [apply sound_get_config | intros ?; apply preserves_ret].
  - intros d. repeat step.
Qed.

Lemma sound_create (details : FormDetails) :
  preserves sound
    (create HOST_NAME BASE_URL APP_KEY P Github_rejects shlex_quote details).
Proof.
  unfold create, validate_and_create, publish, shell_command.
  apply preserves_try_except; [| intros ?; apply preserves_raise].
  destruct (negb (bool_decide (missing_values details = ∅)));
    [apply preserves_raise |].
  repeat step.
  - match goal with |- context [match ?l with [] => _ | _ :: _ => _ end] =>
      destruct l end; repeat step.
  - match goal with a : (string * string * string)%type |- _ =>
      destruct a as [[? ?] ?] end.
    repeat step.
Qed.
End CacheInvariant.

(** ** The stand-in for the template engine renders as the law says *)















(** * Further properties of the service *)

(** ** The resolver, seen from the client *)

Lemma find_split {A : Type} (p : A -> bool) (l : list A) (x : A) :
  List.find p l = Some x ->
  exists pre post,
    l = pre ++ x :: post /\ (forall y, y ∈ pre -> p y = false) /\ p x = true.
Proof.
  induction l as [|y l IH]; simpl; [done |].
  destruct (p y) eqn:Hy.
  - intros H. injection H as ->. exists [], l. split; [done |].
    split; [| done]. intros z Hz. by apply elem_of_nil in Hz.
  - intros H. destruct (IH H) as (pre & post & -> & Hpre & Hx).
    exists (y :: pre), post. split; [done |]. split; [| done].
    intros z Hz. apply elem_of_cons in Hz as [->|Hz]; [done | by apply Hpre].
Qed.

(** A dictionary splits where its list of keys splits. *)
Lemma dict_keys_split (d : pydict) (pre : list string) (key : string)
    (post : list string) :
  dict_keys d = pre ++ key :: post ->
  exists dpre raw dpost,
    d = dpre ++ (key, raw) :: dpost
    /\ dict_keys dpre = pre /\ dict_keys dpost = post.
Proof.
  unfold dict_keys. revert d. induction pre as [|k pre IH]; intros d H.
  - destruct d as [|[k' raw] d]; [done |]. rewrite fmap_cons in H.
    injection H as -> <-. by exists [], raw, d.
  - destruct d as [|[k' raw] d]; [done |]. rewrite fmap_cons in H.
    simpl in H. injection H as -> H.
    destruct (IH d H) as (dpre & raw' & dpost & -> & <- & <-).
    by exists ((k, raw) :: dpre), raw', dpost.
Qed.

Section ResolverClient.
Context (Env : Type) (StrictEnvironment : pydict -> result Env)
  (render_template : Env -> string -> pydict -> result string).

Local Abbreviation resolve :=
  (get_next_option Env StrictEnvironment render_template).
Local Abbreviation render := (Cookiecutter.render_variable Env render_template).

(** Where the loop stops: the keys before the returned one are
    answered, the returned one is not. *)
Lemma get_next_option_stops (cc_context user_inputs : pydict) (key : string)
    (v : value) (b : bool) :
  resolve cc_context user_inputs = Ok (Some key, v, b) ->
  exists pre post,
    dict_keys cc_context = pre ++ key :: post
    /\ (forall x, x ∈ pre -> x ∈ dict_keys user_inputs)
    /\ (key ∉ dict_keys user_inputs).
Proof.
  intros H.
  destruct (StrictEnvironment [("cookiecutter", VDict cc_context)])
    as [env|e] eqn:Henv;
    [| unfold get_next_option in H; rewrite Henv in H; discriminate].
  rewrite (get_next_option_unfold _ _ _ env) in H by exact Henv.
  destruct (List.find (unanswered user_inputs) (dict_keys cc_context))
    as [k|] eqn:Hfind; [| discriminate].
  assert (k = key) as ->.
  { destruct (dict_get k cc_context) as [raw|]; [| discriminate].
    destruct (render env raw user_inputs); simpl in H; [| discriminate].
    by injection H as -> _ _. }
  apply find_split in Hfind as (pre & post & Hkeys & Hpre & Hun).
  exists pre, post. split; [done |]. split.
  - intros x Hx. apply Hpre in Hx.
    apply dict_contains_spec. unfold unanswered in Hx.
    by destruct (dict_contains x user_inputs).
  - apply dict_contains_false. unfold unanswered in Hun.
    by destruct (dict_contains key user_inputs).
Qed.

(** X1. Whatever key [get_next_option] returns is the first key of the
    document without an answer: every key before it is answered, it is
    not, the value returned with it is the rendering of its default
    against the answers, and [done] is false. *)
Theorem get_next_option_returns_first_unanswered
    (cc_context user_inputs : pydict) (key : string) (v : value) (b : bool) :
  resolve cc_context user_inputs = Ok (Some key, v, b) ->
  exists env pre raw post,
    StrictEnvironment [("cookiecutter", VDict cc_context)] = Ok env
    /\ cc_context = pre ++ (key, raw) :: post
    /\ (forall x, x ∈ dict_keys pre -> x ∈ dict_keys user_inputs)
    /\ (key ∉ dict_keys user_inputs)
    /\ render env raw user_inputs = Ok v
    /\ b = false.
Proof.
  intros H.
  destruct (get_next_option_stops _ _ _ _ _ H)
    as (kpre & kpost & Hkeys & Hpre & Hkey).
  destruct (dict_keys_split _ _ _ _ Hkeys)
    as (pre & raw & post & Hsplit & Hkpre & _).
  rewrite <- Hkpre in Hpre.
  destruct (StrictEnvironment [("cookiecutter", VDict cc_context)])
    as [env|e] eqn:Henv;
    [| unfold get_next_option in H; rewrite Henv in H; discriminate].
  rewrite (get_next_option_first _ _ _ env _ _ pre key raw post) in H
    by assumption.
  destruct (render env raw user_inputs) as [rendered|] eqn:Hrender;
    simpl in H; [| discriminate].
  injection H as <- <-.
  by exists env, pre, raw, post.
Qed.

Lemma elem_of_dict_keys_answered (x key : string) (a : value)
    (user_inputs : pydict) :
  x ∈ dict_keys user_inputs -> x ∈ dict_keys (dict_set key a user_inputs).
Proof. intros H. apply elem_of_dict_keys_dict_set. by right. Qed.

(** X2. The keys are asked for in the order of the document: when the
    client has answered the key that was returned, the key returned
    next stands later in the document, and it had no answer before
    either. *)
Theorem get_next_option_in_document_order
    (cc_context user_inputs : pydict) (key key' : string) (a v v' : value)
    (b b' : bool) :
  resolve cc_context user_inputs = Ok (Some key, v, b) ->
  resolve cc_context (dict_set key a user_inputs) = Ok (Some key', v', b') ->
  (exists pre mid post,
      dict_keys cc_context = pre ++ key :: mid ++ key' :: post)
  /\ key' <> key
  /\ (key' ∉ dict_keys user_inputs).
Proof.
  intros H H'.
  apply get_next_option_stops in H as (pre & post & Hsplit & Hpre & Hkey).
  apply get_next_option_Some in H' as (Hin' & Hun' & _).
  assert (Hne : key' <> key).
  { intros ->. apply Hun'. apply elem_of_dict_keys_dict_set. by left. }
  assert (Hun : key' ∉ dict_keys user_inputs).
  { intros Hin. by apply Hun', elem_of_dict_keys_answered. }
  split; [| done].
  rewrite Hsplit in Hin'. rewrite Hsplit.
  apply elem_of_app in Hin' as [Hin'|Hin'].
  { exfalso. by apply Hun, Hpre. }
  apply elem_of_cons in Hin' as [Heq|Hin']; [done |].
  apply list_elem_of_split in Hin' as (mid & post' & Hpost).
  exists pre, mid, post'. by rewrite Hpost.
Qed.

(** X3. What [form] asks for is what [create] would miss: the key that
    the resolver returns is one of the missing values of the
    validation, and recording an answer to it removes exactly that key
    from them. *)
Theorem next_key_is_a_missing_value (details : FormDetails) (key : string)
    (a v : value) (b : bool) :
  resolve (cc_context details) (user_inputs details) = Ok (Some key, v, b) ->
  key ∈ missing_values details
  /\ missing_values (answer key a details) = missing_values details ∖ {[key]}.
Proof.
  intros H. apply get_next_option_Some in H as (Hin & Hun & _).
  unfold missing_values, answer. simpl. split.
  - apply elem_of_difference. by rewrite !key_set_spec.
  - rewrite dict_keys_dict_set. set_solver.
Qed.
End ResolverClient.

(** ** Runs of the monad *)

Lemma bind_Ok {A B : Type} (m : M A) (k : A -> M B) (st st' : process)
    (b : B) :
  bind m k st = (Ok b, st') ->
  exists a st1, m st = (Ok a, st1) /\ k a st1 = (Ok b, st').
Proof.
  unfold bind. destruct (m st) as [[a|e] st1]; [| done].
  intros H. by exists a, st1.
Qed.

Lemma bind_run {A B : Type} (m : M A) (k : A -> M B) (st st1 : process)
    (a : A) :
  m st = (Ok a, st1) -> bind m k st = k a st1.
Proof. intros H. unfold bind. by rewrite H. Qed.

Lemma bind_fail {A B : Type} (m : M A) (k : A -> M B) (st st1 : process)
    (e : exn) :
  m st = (Raise e, st1) -> bind m k st = (Raise e, st1).
Proof. intros H. unfold bind. by rewrite H. Qed.

Lemma extern_run (c : call) (st : process) :
  extern c st = (respond st (history st) c, logged c st).
Proof. reflexivity. Qed.

Lemma respond_logged (c : call) (st : process) :
  respond (logged c st) = respond st.
Proof. reflexivity. Qed.

Lemma history_logged (c : call) (st : process) :
  history (logged c st) = c :: history st.
Proof. reflexivity. Qed.

Lemma lift_Ok {A : Type} (x : result A) (st st' : process) (a : A) :
  lift x st = (Ok a, st') -> x = Ok a /\ st' = st.
Proof. unfold lift. intros H. by injection H as -> <-. Qed.

Lemma shell_command_run (output_dir command : string) (st : process) :
  shell_command output_dir command st
  = (result_map (fun _ => tt)
       (respond st (history st) (subprocess_run command output_dir)),
     logged (subprocess_run command output_dir) st).
Proof.
  unfold shell_command. unfold bind. rewrite extern_run.
  by destruct (respond st (history st) (subprocess_run command output_dir)).
Qed.

Lemma extends_with_refl (ok : call -> bool) (st : process) :
  extends_with ok st st.
Proof. split; [done |]. by exists []. Qed.

Lemma extends_with_trans (ok : call -> bool) (st1 st2 st3 : process) :
  extends_with ok st1 st2 -> extends_with ok st2 st3 ->
  extends_with ok st1 st3.
Proof.
  intros [Hr1 (c1 & Hh1 & Hok1)] [Hr2 (c2 & Hh2 & Hok2)].
  split; [congruence |]. exists (c2 ++ c1). split.
  - by rewrite Hh2, Hh1, app_assoc.
  - rewrite forallb_app. by rewrite Hok1, Hok2.
Qed.

Lemma extends_with_logged (ok : call -> bool) (c : call) (st : process) :
  ok c = true -> extends_with ok st (logged c st).
Proof.
  intros Hok. split; [done |]. exists [c]. split; [done |].
  simpl. by rewrite Hok.
Qed.

Lemma same_world_extends (ok : call -> bool) (st st' : process) :
  same_world st st' -> extends_with ok st st'.
Proof. intros [Hr Hh]. split; [done |]. by exists []. Qed.

Lemma grows_ret {A : Type} (ok : call -> bool) (a : A) : grows_with ok (ret a).
Proof.
  intros st r st' H. injection H as _ <-. apply extends_with_refl.
Qed.

Lemma grows_raise {A : Type} (ok : call -> bool) (e : exn) :
  grows_with ok (@raise A e).
Proof.
  intros st r st' H. injection H as _ <-. apply extends_with_refl.
Qed.

Lemma grows_lift {A : Type} (ok : call -> bool) (x : result A) :
  grows_with ok (lift x).
Proof.
  intros st r st' H. injection H as _ <-. apply extends_with_refl.
Qed.

Lemma grows_extern (ok : call -> bool) (c : call) :
  ok c = true -> grows_with ok (extern c).
Proof.
  intros Hok st r st' H. rewrite extern_run in H. injection H as _ <-.
  by apply extends_with_logged.
Qed.

Lemma grows_bind {A B : Type} (ok : call -> bool) (m : M A) (k : A -> M B) :
  grows_with ok m -> (forall a, grows_with ok (k a)) ->
  grows_with ok (bind m k).
Proof.
  intros Hm Hk st r st'. unfold bind.
  destruct (m st) as [[a|e] st1] eqn:Hrun.
  - intros H. eapply extends_with_trans; [by eapply Hm | by eapply Hk].
  - intros H. injection H as _ <-. by eapply Hm.
Qed.

Lemma grows_try_except {A : Type} (ok : call -> bool) (body : M A)
    (handled : exn -> bool) (handler : exn -> M A) :
  grows_with ok body -> (forall e, grows_with ok (handler e)) ->
  grows_with ok (try_except body handled handler).
Proof.
  intros Hbody Hhandler st r st'. unfold try_except.
  destruct (body st) as [[a|e] st1] eqn:Hrun.
  - intros H. injection H as _ <-. by eapply Hbody.
  - destruct (handled e).
    + intros H. eapply extends_with_trans; [by eapply Hbody |].
      by eapply Hhandler.
    + intros H. injection H as _ <-. by eapply Hbody.
Qed.

Lemma grows_finally {A : Type} (ok : call -> bool) (body : M A)
    (cleanup : M unit) :
  grows_with ok body -> grows_with ok cleanup ->
  grows_with ok (finally body cleanup).
Proof.
  intros Hbody Hcleanup st r st'. unfold finally.
  destruct (body st) as [r1 st1] eqn:Hrun.
  destruct (cleanup st1) as [[u|e] st2] eqn:Hclean;
    intros H; injection H as _ <-;
    (eapply extends_with_trans; [by eapply Hbody | by eapply Hcleanup]).
Qed.

Section ServiceRuns.
Context (HOST_NAME BASE_URL APP_KEY : string) (P : Fernet.primitives)
  (Github_rejects : string -> string -> option exn)
  (json_loads : string -> result pydict) (shlex_quote : string -> string)
  (Env : Type) (StrictEnvironment : pydict -> result Env)
  (render_template : Env -> string -> pydict -> result string).

Local Abbreviation resolve :=
  (get_next_option Env StrictEnvironment render_template).
Local Abbreviation client_of := (get_git_client HOST_NAME BASE_URL APP_KEY P
    Github_rejects).
Local Abbreviation fetch :=
  (get_config HOST_NAME BASE_URL APP_KEY P Github_rejects json_loads).
Local Abbreviation advance :=
  (form HOST_NAME BASE_URL APP_KEY P
      Github_rejects json_loads Env StrictEnvironment
     render_template).
Local Abbreviation run_publish :=
  (publish HOST_NAME BASE_URL APP_KEY P Github_rejects shlex_quote).
Local Abbreviation validate :=
  (validate_and_create HOST_NAME BASE_URL APP_KEY P Github_rejects shlex_quote).
Local Abbreviation run_create :=
  (create HOST_NAME BASE_URL APP_KEY P Github_rejects shlex_quote).

Lemma grows_decrypt_token (ok : call -> bool) (tok : string) :
  grows_with ok (decrypt_token APP_KEY P tok).
Proof.
  intros st r st' H. apply same_world_extends.
  by apply (decrypt_token_same_world APP_KEY P tok st st' r).
Qed.

Lemma grows_get_git_client (ok : call -> bool) (tok : string)
    (encrypted : bool) :
  grows_with ok (client_of tok encrypted).
Proof.
  intros st r st' H. apply same_world_extends.
  by apply (get_git_client_same_world HOST_NAME BASE_URL APP_KEY P
      Github_rejects tok
              encrypted st st' r).
Qed.

(** With no document in the session, [form] fetches one and resolves
    on it. *)
Lemma form_fetches (details : FormDetails) (st st' : process)
    (context : pydict) :
  cc_context details = [] ->
  fetch (template_repo (template details)) (directory (template details))
    (org details) (token details) st = (Ok context, st') ->
  advance details st =
  (result_map (fun step => set_next step (set_cc_context context details))
     (resolve context (user_inputs details)), st').
Proof.
  intros Hempty Hfetch. unfold form. rewrite Hempty.
  unfold bind at 1. unfold bind at 1. rewrite Hfetch.
  unfold ret at 1. unfold bind, lift, ret, result_map. simpl.
  by destruct (resolve context (user_inputs details)).
Qed.

(** X5. An empty document is never kept: when the document fetched for
    a session is empty, [form] reports [done] with no key, and the
    session it returns still has no document, so that the next call
    fetches again. *)
Theorem form_empty_document (details : FormDetails) (st st' : process)
    (env : Env) :
  cc_context details = [] ->
  fetch (template_repo (template details)) (directory (template details))
    (org details) (token details) st = (Ok [], st') ->
  StrictEnvironment [("cookiecutter", VDict [])] = Ok env ->
  exists details',
    advance details st = (Ok details', st')
    /\ done details' = true
    /\ next_key details' = None
    /\ next_value details' = VNone
    /\ cc_context details' = []
    /\ user_inputs details' = user_inputs details.
Proof.
  intros Hempty Hfetch Henv.
  rewrite (form_fetches details st st' []) by assumption.
  unfold get_next_option. rewrite Henv. simpl.
  eexists. split; [reflexivity |]. by repeat split.
Qed.

Local Ltac grow :=
  first
    [ apply grows_ret | apply grows_raise | apply grows_lift
    | apply grows_extern; reflexivity | apply grows_decrypt_token
    | apply grows_get_git_client
    | apply grows_bind; [| intros ?]
    | apply grows_try_except; [| intros ?]
    | apply grows_finally ].

(** [publish] only adds to the record of calls. *)
Lemma grows_publish (details : FormDetails) (temp_dir : string) :
  grows_with (fun _ => true) (run_publish details temp_dir).
Proof.
  unfold publish, shell_command. repeat grow.
  - match goal with |- context [match ?l with [] => _ | _ :: _ => _ end] =>
      destruct l end; repeat grow.
  - match goal with a : (string * string * string)%type |- _ =>
      destruct a as [[? ?] ?] end.
    repeat grow.
Qed.

(** X6. The temporary directory is removed on every way out: when the
    validation passes and the directory is made, the last call of
    [validate_and_create] removes that directory, whatever became of
    the publication in between, and making it was the first call. *)
Theorem temporary_directory_is_removed (details : FormDetails)
    (st : process) (temp_dir : string) :
  missing_values details = ∅ ->
  respond st (history st) (tempfile_mkdtemp "cookiecutter")
  = Ok (RStr temp_dir) ->
  exists r st' calls,
    validate details st = (r, st')
    /\ history st'
       = shutil_rmtree temp_dir
           :: calls ++ tempfile_mkdtemp "cookiecutter" :: history st.
Proof.
  intros Hcomplete Hmade. unfold validate_and_create.
  rewrite bool_decide_eq_true_2 by exact Hcomplete. cbn [negb].
  rewrite (bind_run _ _ st (logged (tempfile_mkdtemp "cookiecutter") st)
             (RStr temp_dir)) by (by rewrite extern_run, Hmade).
  rewrite (bind_run _ _ _ (logged (tempfile_mkdtemp "cookiecutter") st)
             temp_dir) by done.
  unfold finally.
  destruct (run_publish details temp_dir
              (logged (tempfile_mkdtemp "cookiecutter") st))
    as [r st2] eqn:Hpublish.
  destruct (grows_publish details temp_dir _ _ _ Hpublish)
    as [_ (calls & Hcalls & _)].
  unfold bind. rewrite extern_run.
  destruct (respond st2 (history st2) (shutil_rmtree temp_dir)) as [u|e].
  - exists r, (logged (shutil_rmtree temp_dir) st2), calls.
    split; [done |]. cbn [logged extern snd history]. by rewrite Hcalls.
  - exists (Raise e), (logged (shutil_rmtree temp_dir) st2), calls.
    split; [done |]. cbn [logged extern snd history]. by rewrite Hcalls.
Qed.

(** The block that makes sure the repository exists, and the call that
    generates the project. *)
Lemma publish_unfold (details : FormDetails) (temp_dir : string)
    (st st1 : process) (client : Github) :
  client_of (token details) true st = (Ok client, st1) ->
  exists rest,
    run_publish details temp_dir st
    = bind
        (try_except
           (do extern (Github_get_organization client (org details)) in
            do extern (Organization_create_repo client (org details)
                         (repo details)) in
            ret tt)
           is_GithubException (fun _ => ret tt))
        (fun _ =>
           bind
             (extern
                (cookiecutter_main
                   ("https://" ++ BASE_URL ++ "/"
                    ++ template_repo (template details))%string
                   (directory (template details)) (user_inputs details)
                   temp_dir))
             (fun _ => rest)) st1
    /\ grows_with (fun _ => true) rest.
Proof.
  intros Hclient. eexists. split.
  - unfold publish. rewrite (bind_run _ _ st st1 client) by exact Hclient.
    reflexivity.
  - unfold shell_command. repeat grow.
    + match goal with |- context [match ?l with [] => _ | _ :: _ => _ end] =>
        destruct l end; repeat grow.
    + match goal with a : (string * string * string)%type |- _ =>
        destruct a as [[? ?] ?] end.
      repeat grow.
Qed.

(** X7. Only a [GithubException] is tolerated when the repository is
    made: when looking up the organization or creating the repository
    fails with one, the project is generated all the same; any other
    exception of the lookup ends the publication at once. *)
Theorem publish_tolerates_github_errors (details : FormDetails)
    (temp_dir : string) (st st1 : process) (client : Github) :
  let lookup := Github_get_organization client (org details) in
  let creation :=
    Organization_create_repo client (org details) (repo details) in
  let generation :=
    cookiecutter_main
      ("https://" ++ BASE_URL ++ "/" ++ template_repo (template details))%string
      (directory (template details)) (user_inputs details) temp_dir in
  client_of (token details) true st = (Ok client, st1) ->
  (forall status,
      respond st (history st) lookup = Raise (GithubException status) ->
      exists r st' later,
        run_publish details temp_dir st = (r, st')
        /\ history st' = later ++ generation :: lookup :: history st)
  /\ (forall answer status,
        respond st (history st) lookup = Ok answer ->
        respond st (lookup :: history st) creation
        = Raise (GithubException status) ->
        exists r st' later,
          run_publish details temp_dir st = (r, st')
          /\ history st'
             = later ++ generation :: creation :: lookup :: history st)
  /\ (forall e,
        respond st (history st) lookup = Raise e ->
        is_GithubException e = false ->
        run_publish details temp_dir st = (Raise e, logged lookup st1)).
Proof.
  intros lookup creation generation Hclient.
  destruct (publish_unfold details temp_dir st st1 client Hclient)
    as (rest & Hpublish & Hrest).
  apply get_git_client_same_world in Hclient as [Hr Hh].
  fold lookup creation generation in Hpublish.
  split; [| split].
  - intros status Hlookup. rewrite Hpublish.
    assert (Htry :
              try_except (do extern lookup in do extern creation in ret tt)
                is_GithubException (fun _ => ret tt) st1
              = (Ok tt, logged lookup st1)).
    { unfold try_except, bind. rewrite extern_run, Hr, Hh, Hlookup.
      reflexivity. }
    rewrite (bind_run _ _ _ _ _ Htry). unfold bind at 1. rewrite extern_run.
    destruct (respond (logged lookup st1) (history (logged lookup st1))
                generation) as [answer|e].
    + destruct (rest (logged generation (logged lookup st1))) as [r st']
        eqn:Hrun.
      destruct (Hrest _ _ _ Hrun) as [_ (later & Hlater & _)].
      exists r, st', later. split; [done |]. rewrite Hlater.
      cbn [logged extern snd history]. by rewrite Hh.
    + exists (Raise e), (logged generation (logged lookup st1)), [].
      split; [done |]. cbn [logged extern snd history app]. by rewrite Hh.
  - intros answer status Hlookup Hcreation. rewrite Hpublish.
    assert (Htry :
              try_except (do extern lookup in do extern creation in ret tt)
                is_GithubException (fun _ => ret tt) st1
              = (Ok tt, logged creation (logged lookup st1))).
    { unfold try_except, bind. rewrite extern_run, Hr, Hh, Hlookup.
      rewrite extern_run. cbn [logged extern snd history respond].
      rewrite Hr, Hh, Hcreation. reflexivity. }
    rewrite (bind_run _ _ _ _ _ Htry). unfold bind at 1. rewrite extern_run.
    destruct (respond (logged creation (logged lookup st1))
                (history (logged creation (logged lookup st1))) generation)
      as [answer'|e].
    + destruct (rest (logged generation
                        (logged creation (logged lookup st1))))
        as [r st'] eqn:Hrun.
      destruct (Hrest _ _ _ Hrun) as [_ (later & Hlater & _)].
      exists r, st', later. split; [done |]. rewrite Hlater.
      cbn [logged extern snd history]. by rewrite Hh.
    + exists (Raise e),
        (logged generation (logged creation (logged lookup st1))), [].
      split; [done |]. cbn [logged extern snd history app]. by rewrite Hh.
  - intros e Hlookup Hother. rewrite Hpublish.
    apply bind_fail. unfold try_except, bind.
    rewrite extern_run, Hr, Hh, Hlookup. by rewrite Hother.
Qed.

(** X8. No git command runs on a project that was not generated: when
    the generator fails, [publish] fails, and no subprocess was started
    on the way. *)
Theorem no_git_without_generation (details : FormDetails)
    (temp_dir : string) (st : process) (e : exn) :
  (forall h,
      respond st h
        (cookiecutter_main
           ("https://" ++ BASE_URL ++ "/"
            ++ template_repo (template details))%string
           (directory (template details)) (user_inputs details) temp_dir)
      = Raise e) ->
  exists e' st',
    run_publish details temp_dir st = (Raise e', st')
    /\ extends_with (fun c => negb (is_subprocess_run c)) st st'.
Proof.
  intros Hfails.
  destruct (client_of (token details) true st) as [[client|e0] st1]
    eqn:Hclient.
  - destruct (publish_unfold details temp_dir st st1 client Hclient)
      as (rest & Hpublish & _).
    rewrite Hpublish.
    assert (Hworld : extends_with (fun c => negb (is_subprocess_run c)) st st1).
    { apply same_world_extends.
      by apply (get_git_client_same_world HOST_NAME BASE_URL APP_KEY P
          Github_rejects
                  (token details) true st st1 (Ok client)). }
    assert (Hblock :
              grows_with (fun c => negb (is_subprocess_run c))
                (try_except
                   (do extern (Github_get_organization client (org details)) in
                    do extern (Organization_create_repo client (org details)
                                 (repo details)) in
                    ret tt)
                   is_GithubException (fun _ => ret tt))).
    { repeat grow. }
    destruct (try_except
                (do extern (Github_get_organization client (org details)) in
                 do extern (Organization_create_repo client (org details)
                              (repo details)) in
                 ret tt)
                is_GithubException (fun _ => ret tt) st1)
      as [[u|e1] st2] eqn:Htry.
    + apply Hblock in Htry as Hgrow.
      pose proof (extends_with_trans _ _ _ _ Hworld Hgrow) as Hst2.
      rewrite (bind_run _ _ st1 st2 u) by exact Htry.
      unfold bind. rewrite extern_run.
      destruct Hst2 as [Hr Hcalls]. rewrite Hr, Hfails.
      eexists. eexists. split; [reflexivity |].
      eapply extends_with_trans; [exact (conj Hr Hcalls) |].
      by apply extends_with_logged.
    + apply Hblock in Htry as Hgrow.
      rewrite (bind_fail _ _ st1 st2 e1) by exact Htry.
      exists e1, st2. split; [done |].
      by eapply extends_with_trans.
  - exists e0, st1. split.
    + unfold publish. by apply bind_fail.
    + apply same_world_extends.
      by apply (get_git_client_same_world HOST_NAME BASE_URL APP_KEY P
          Github_rejects
                  (token details) true st st1 (Raise e0)).
Qed.

Lemma extern_Ok (c : call) (st st' : process) (r : response) :
  extern c st = (Ok r, st') ->
  respond st (history st) c = Ok r /\ st' = logged c st.
Proof. rewrite extern_run. intros H. by injection H as -> <-. Qed.

Lemma as_paths_Ok (r : response) (paths : list string) :
  as_paths r = Ok paths -> r = RPaths paths.
Proof. destruct r; simpl; intros H; by inversion H. Qed.

Lemma as_user_Ok (r : response) (login name email : string) :
  as_user r = Ok (login, name, email) -> r = RUser login name email.
Proof. destruct r; simpl; intros H; by inversion H. Qed.

Lemma shell_command_Ok (output_dir command : string) (st st' : process)
    (u : unit) :
  shell_command output_dir command st = (Ok u, st') ->
  st' = logged (subprocess_run command output_dir) st.
Proof. rewrite shell_command_run. intros H. by injection H as _ <-. Qed.

(** The calls of the block that makes sure the repository exists, when
    it does not fail. *)
Lemma ensure_repository_calls (client : Github) (organization name : string)
    (st st' : process) (u : unit) :
  try_except
    (do extern (Github_get_organization client organization) in
     do extern (Organization_create_repo client organization name) in
     ret tt)
    is_GithubException (fun _ => ret tt) st = (Ok u, st') ->
  st' = logged (Organization_create_repo client organization name)
          (logged (Github_get_organization client organization) st)
  \/ st' = logged (Github_get_organization client organization) st.
Proof.
  unfold try_except, bind. rewrite extern_run.
  destruct (respond st (history st)
              (Github_get_organization client organization)) as [r|e].
  - rewrite extern_run.
    destruct (respond _ _ (Organization_create_repo client organization name))
      as [r'|e].
    + intros H. injection H as _ <-. by left.
    + destruct (is_GithubException e); [| done].
      intros H. injection H as _ <-. by left.
  - destruct (is_GithubException e); [| done].
    intros H. injection H as _ <-. by right.
Qed.

(** X9. A publication that succeeds made these calls, in this order:
    the organization lookup and, when that answered, the creation of
    the repository; the generation into the temporary directory; the
    listing of that directory; and then, in the first directory listed,
    [git init], the two [git config] commands with the name and email of
    the authenticated user, [git remote add] with a URL that carries the
    decrypted token, [git add], [git commit] and, last of all, the
    forced [git push]. *)
Theorem publish_success_trace (details : FormDetails) (temp_dir : string)
    (st st' : process) (u : unit) :
  run_publish details temp_dir st = (Ok u, st') ->
  exists client output_dir login name email raw_token repository_calls,
    (exists s, client_of (token details) true st = (Ok client, s))
    /\ (repository_calls
        = [Organization_create_repo client (org details) (repo details);
           Github_get_organization client (org details)]
        \/ repository_calls = [Github_get_organization client (org details)])
    /\ (exists h others,
          respond st h (Path_iterdir temp_dir)
          = Ok (RPaths (output_dir :: others)))
    /\ (exists h,
          respond st h (Github_get_user client)
          = Ok (RUser login name email))
    /\ (exists s s',
          decrypt_token APP_KEY P (token details) s = (Ok raw_token, s'))
    /\ history st'
       = [subprocess_run ("git push " ++ CC_ORIGIN ++ " master -f")%string
            output_dir;
          subprocess_run
            ("git commit -m 'Initialize repository with CC: "
             ++ template_repo (template details) ++ "'")%string output_dir;
          subprocess_run "git add ." output_dir;
          subprocess_run
            ("git remote add " ++ CC_ORIGIN ++ " "
             ++ ("https://" ++ login ++ ":" ++ raw_token ++ "@" ++ BASE_URL
                 ++ "/" ++ shlex_quote (org details) ++ "/"
                 ++ shlex_quote (repo details)))%string output_dir;
          subprocess_run ("git config --local user.email " ++ email)%string
            output_dir;
          subprocess_run ("git config --local user.name " ++ name)%string
            output_dir;
          Github_get_user client;
          subprocess_run "git init" output_dir;
          Path_iterdir temp_dir;
          cookiecutter_main
            ("https://" ++ BASE_URL ++ "/"
             ++ template_repo (template details))%string
            (directory (template details)) (user_inputs details) temp_dir]
         ++ repository_calls ++ history st.
Proof.
  intros H. unfold publish in H.
  apply bind_Ok in H as (client & st1 & Hclient & H).
  apply get_git_client_same_world in Hclient as Hworld1.
  destruct Hworld1 as [Hr1 Hh1].
  apply bind_Ok in H as (u2 & st2 & Htry & H).
  apply ensure_repository_calls in Htry.
  assert (Hr2 : respond st2 = respond st).
  { destruct Htry as [->| ->]; by rewrite ?respond_logged. }
  apply bind_Ok in H as (r3 & st3 & Hgen & H).
  apply extern_Ok in Hgen as [_ Hst3].
  apply bind_Ok in H as (listing & st4 & Hlist & H).
  apply extern_Ok in Hlist as [Hlisting Hst4].
  apply bind_Ok in H as (paths & st5 & Hpaths & H).
  apply lift_Ok in Hpaths as [Hpaths ->]. apply as_paths_Ok in Hpaths as ->.
  apply bind_Ok in H as (output_dir & st6 & Hout & H).
  destruct paths as [|first others]; [discriminate |].
  injection Hout as -> <-.
  apply bind_Ok in H as (u7 & st7 & Hinit & H). apply shell_command_Ok in Hinit.
  apply bind_Ok in H as (r8 & st8 & Huser & H).
  apply extern_Ok in Huser as [Huser Hst8].
  apply bind_Ok in H as (user & st9 & Hdecode & H).
  apply lift_Ok in Hdecode as [Hdecode ->].
  destruct user as [[login name] email]. apply as_user_Ok in Hdecode as ->.
  apply bind_Ok in H as (u10 & st10 & Hname & H).
  apply shell_command_Ok in Hname.
  apply bind_Ok in H as (u11 & st11 & Hemail & H).
  apply shell_command_Ok in Hemail.
  apply bind_Ok in H as (raw_token & st12 & Hraw & H).
  apply decrypt_token_same_world in Hraw as Hworld. destruct Hworld as [_ Hh12].
  apply bind_Ok in H as (u13 & st13 & Hremote & H).
  apply shell_command_Ok in Hremote.
  apply bind_Ok in H as (u14 & st14 & Hadd & H).
  apply shell_command_Ok in Hadd.
  apply bind_Ok in H as (u15 & st15 & Hcommit & H).
  apply shell_command_Ok in Hcommit.
  apply shell_command_Ok in H.
  assert (Hlisted : exists h others',
             respond st h (Path_iterdir temp_dir)
             = Ok (RPaths (output_dir :: others'))).
  { exists (history st3), others. rewrite <- Hlisting. subst st3.
    by rewrite respond_logged, Hr2. }
  assert (Hknown : exists h,
             respond st h (Github_get_user client)
             = Ok (RUser login name email)).
  { exists (history st7). rewrite <- Huser. subst st7 st4 st3.
    by rewrite !respond_logged, Hr2. }
  exists client, output_dir, login, name, email, raw_token.
  destruct Htry as [Hst2|Hst2].
  - exists [Organization_create_repo client (org details) (repo details);
            Github_get_organization client (org details)].
    split; [by exists st1 |]. split; [by left |].
    split; [exact Hlisted |]. split; [exact Hknown |].
    split; [by exists st11, st12 |].
    subst st' st15 st14 st13. rewrite !history_logged.
    rewrite Hh12. subst st11 st10 st8 st7 st4 st3 st2.
    rewrite !history_logged. by rewrite Hh1.
  - exists [Github_get_organization client (org details)].
    split; [by exists st1 |]. split; [by right |].
    split; [exact Hlisted |]. split; [exact Hknown |].
    split; [by exists st11, st12 |].
    subst st' st15 st14 st13. rewrite !history_logged.
    rewrite Hh12. subst st11 st10 st8 st7 st4 st3 st2.
    rewrite !history_logged. by rewrite Hh1.
Qed.

Lemma forallb_quiet (calls : list call) :
  forallb (fun c => negb (is_subprocess_run c) && negb (is_Path_iterdir c))
    calls = true ->
  forallb (fun c => negb (is_subprocess_run c)) calls = true
  /\ forall dir, Path_iterdir dir ∉ calls.
Proof.
  induction calls as [|c calls IH]; simpl.
  - intros _. split; [done |]. intros dir. apply not_elem_of_nil.
  - intros H. apply andb_prop in H as [Hc H]. apply andb_prop in Hc as [Hs Hi].
    destruct (IH H) as [Hquiet Hnone]. split; [by rewrite Hs |].
    intros dir. apply not_elem_of_cons. split; [| apply Hnone].
    intros <-. discriminate.
Qed.

(** X10. An empty output directory is an error: when the generator
    leaves nothing in the temporary directory, [publish] fails and no
    git command has run; if it got as far as listing the directory, it
    fails with [IndexError]. *)
Theorem empty_output_is_an_error (details : FormDetails)
    (temp_dir : string) (st st' : process) (r : result unit) :
  (forall h, respond st h (Path_iterdir temp_dir) = Ok (RPaths [])) ->
  run_publish details temp_dir st = (r, st') ->
  (exists e, r = Raise e)
  /\ exists calls,
      history st' = calls ++ history st
      /\ forallb (fun c => negb (is_subprocess_run c)) calls = true
      /\ (Path_iterdir temp_dir ∈ calls -> r = Raise IndexError).
Proof.
  intros Hempty.
  pose (quiet := fun c =>
                   negb (is_subprocess_run c) && negb (is_Path_iterdir c)).
  destruct (client_of (token details) true st) as [[client|e0] st1]
    eqn:Hclient.
  2:{ unfold publish. rewrite (bind_fail _ _ st st1 e0) by exact Hclient.
      intros H. injection H as <- <-.
      apply (get_git_client_same_world HOST_NAME BASE_URL APP_KEY P
          Github_rejects) in Hclient
        as [_ Hh].
      split; [by exists e0 |]. exists []. split; [done |].
      split; [done |]. intros Hin. by apply elem_of_nil in Hin. }
  assert (Hworld : extends_with quiet st st1).
  { apply same_world_extends.
    by apply (get_git_client_same_world HOST_NAME BASE_URL APP_KEY P
        Github_rejects
                (token details) true st st1 (Ok client)). }
  unfold publish. rewrite (bind_run _ _ st st1 client) by exact Hclient.
  assert (Hblock :
            grows_with quiet
              (try_except
                 (do extern (Github_get_organization client (org details)) in
                  do extern (Organization_create_repo client (org details)
                               (repo details)) in
                  ret tt)
                 is_GithubException (fun _ => ret tt))).
  { repeat grow. }
  destruct (try_except
              (do extern (Github_get_organization client (org details)) in
               do extern (Organization_create_repo client (org details)
                            (repo details)) in
               ret tt)
              is_GithubException (fun _ => ret tt) st1)
    as [[u|e1] st2] eqn:Htry; apply Hblock in Htry as Hgrow;
    destruct (extends_with_trans _ _ _ _ Hworld Hgrow)
      as (Hr & calls & Hh & Hquiet);
    apply forallb_quiet in Hquiet as [Hquiet Hnone].
  - rewrite (bind_run _ _ st1 st2 u) by exact Htry.
    unfold bind at 1. rewrite extern_run.
    match goal with |- context [logged ?c st2] => set (generation := c) end.
    destruct (respond st2 (history st2) generation) as [made|e2].
    + unfold bind at 1. rewrite extern_run, respond_logged, Hr, Hempty.
      unfold bind, lift, raise. cbn [as_paths].
      intros H. injection H as <- <-. split; [by exists IndexError |].
      exists (Path_iterdir temp_dir :: generation :: calls).
      split; [by rewrite !history_logged, Hh |]. split; [done |]. done.
    + intros H. injection H as <- <-. split; [by exists e2 |].
      exists (generation :: calls).
      split; [by rewrite history_logged, Hh |]. split; [done |].
      intros Hin. apply elem_of_cons in Hin as [Heq|Hin]; [discriminate |].
      by apply Hnone in Hin.
  - rewrite (bind_fail _ _ st1 st2 e1) by exact Htry.
    intros H. injection H as <- <-. split; [by exists e1 |].
    exists calls. split; [done |]. split; [done |].
    intros Hin. by apply Hnone in Hin.
Qed.

End ServiceRuns.

(** ** Fetching the configuration *)

Section Fetching.
Context (HOST_NAME BASE_URL APP_KEY : string) (P : Fernet.primitives)
  (Github_rejects : string -> string -> option exn)
  (json_loads : string -> result pydict).

Local Abbreviation client_of := (get_git_client HOST_NAME BASE_URL APP_KEY P
    Github_rejects).
Local Abbreviation fetch :=
  (get_config HOST_NAME BASE_URL APP_KEY P Github_rejects json_loads).

(** X11. A failure to fetch the template's own document is never
    swallowed: whatever exception the lookup of the template
    repository, the download of its [cookiecutter.json] or the parsing
    of that file raises, a [GithubException] included, [get_config]
    raises it, and asks nothing about the organization. *)
Theorem get_config_template_failure
    (repo_name directory user_org tok : string) (st st1 : process)
    (client : Github) (e : exn) :
  let c1 := Github_get_repo client repo_name in
  let c2 :=
    Repository_get_contents client repo_name (document_path directory) in
  client_of tok true st = (Ok client, st1) ->
  (respond st (history st) c1 = Raise e ->
   fetch repo_name directory user_org tok st = (Raise e, logged c1 st1))
  /\ (forall answer,
        respond st (history st) c1 = Ok answer ->
        respond st (c1 :: history st) c2 = Raise e ->
        fetch repo_name directory user_org tok st
        = (Raise e, logged c2 (logged c1 st1)))
  /\ (forall answer text,
        respond st (history st) c1 = Ok answer ->
        respond st (c1 :: history st) c2 = Ok (RStr text) ->
        json_loads text = Raise e ->
        fetch repo_name directory user_org tok st
        = (Raise e, logged c2 (logged c1 st1))).
Proof.
  intros c1 c2 Hclient. subst c1 c2. unfold document_path.
  apply get_git_client_same_world in Hclient as Hworld.
  destruct Hworld as [Hr Hh].
  unfold get_config. rewrite (bind_run _ _ st st1 client) by exact Hclient.
  split; [| split].
  - intros H1. apply bind_fail. by rewrite extern_run, Hr, Hh, H1.
  - intros answer H1 H2.
    erewrite (bind_run _ _ st1 _ answer)
      by (by rewrite extern_run, Hr, Hh, H1).
    apply bind_fail. rewrite extern_run, respond_logged, history_logged.
    by rewrite Hr, Hh, H2.
  - intros answer text H1 H2 Hjson.
    erewrite (bind_run _ _ st1 _ answer)
      by (by rewrite extern_run, Hr, Hh, H1).
    erewrite (bind_run _ _ _ _ (RStr text))
      by (by rewrite extern_run, respond_logged, history_logged, Hr, Hh, H2).
    erewrite (bind_run _ _ _ _ text) by done.
    apply bind_fail. unfold lift. by rewrite Hjson.
Qed.

(** With the template's document in hand, what is left of [get_config]
    is the lookup of the overrides. *)
Lemma get_config_base (repo_name directory user_org tok : string)
    (st st1 : process) (client : Github) (answer : response) (text : string)
    (base : pydict) :
  let c1 := Github_get_repo client repo_name in
  let c2 :=
    Repository_get_contents client repo_name (document_path directory) in
  let config_repo := (user_org ++ "/.github")%string in
  let c3 := Github_get_repo client config_repo in
  let c4 :=
    Repository_get_contents client config_repo
      (os_path_join (os_path_join "cookiecutter" repo_name)
         (document_path directory)) in
  client_of tok true st = (Ok client, st1) ->
  respond st (history st) c1 = Ok answer ->
  respond st (c1 :: history st) c2 = Ok (RStr text) ->
  json_loads text = Ok base ->
  fetch repo_name directory user_org tok st
  = bind
      (try_except (do extern c3 in ret true) is_GithubException
         (fun _ => ret false))
      (fun found =>
         if negb found then ret base
         else
           try_except
             (let* content := extern c4 in
              let* decoded_content := lift (as_str content) in
              let* user_defaults := lift (json_loads decoded_content) in
              ret (Cookiecutter.apply_overwrites_to_context base user_defaults))
             is_GithubException (fun _ => ret base))
      (logged c2 (logged c1 st1))
  /\ respond (logged c2 (logged c1 st1)) = respond st
  /\ history (logged c2 (logged c1 st1)) = c2 :: c1 :: history st.
Proof.
  intros c1 c2 config_repo c3 c4 Hclient H1 H2 Hjson.
  subst c1 c2 config_repo c3 c4. unfold document_path in *.
  apply get_git_client_same_world in Hclient as Hworld.
  destruct Hworld as [Hr Hh].
  split; [| split; [by rewrite !respond_logged
                     | by rewrite !history_logged, Hh]].
  unfold get_config. rewrite (bind_run _ _ st st1 client) by exact Hclient.
  erewrite (bind_run _ _ st1 _ answer)
    by (by rewrite extern_run, Hr, Hh, H1).
  erewrite (bind_run _ _ _ _ (RStr text))
    by (by rewrite extern_run, respond_logged, history_logged, Hr, Hh, H2).
  erewrite (bind_run _ _ _ _ text) by done.
  erewrite (bind_run _ _ _ _ base) by (unfold lift; by rewrite Hjson).
  reflexivity.
Qed.

(** X12. Of the lookup of the overrides only a [GithubException] is
    swallowed: any other exception of the lookup of the [.github]
    repository, and an overrides file that does not parse, make
    [get_config] fail although the template's document was fetched. *)
Theorem get_config_overrides_failure
    (repo_name directory user_org tok : string) (st st1 : process)
    (client : Github) (answer : response) (text : string) (base : pydict)
    (e : exn) :
  let c1 := Github_get_repo client repo_name in
  let c2 :=
    Repository_get_contents client repo_name (document_path directory) in
  let config_repo := (user_org ++ "/.github")%string in
  let c3 := Github_get_repo client config_repo in
  let c4 :=
    Repository_get_contents client config_repo
      (os_path_join (os_path_join "cookiecutter" repo_name)
         (document_path directory)) in
  client_of tok true st = (Ok client, st1) ->
  respond st (history st) c1 = Ok answer ->
  respond st (c1 :: history st) c2 = Ok (RStr text) ->
  json_loads text = Ok base ->
  is_GithubException e = false ->
  (respond st (c2 :: c1 :: history st) c3 = Raise e ->
   exists st', fetch repo_name directory user_org tok st = (Raise e, st'))
  /\ (forall found text',
        respond st (c2 :: c1 :: history st) c3 = Ok found ->
        respond st (c3 :: c2 :: c1 :: history st) c4 = Ok (RStr text') ->
        json_loads text' = Raise e ->
        exists st', fetch repo_name directory user_org tok st = (Raise e, st')).
Proof.
  intros c1 c2 config_repo c3 c4 Hclient H1 H2 Hjson Hother.
  destruct (get_config_base repo_name directory user_org tok st st1 client
              answer text base Hclient H1 H2 Hjson) as (Hfetch & Hr & Hh).
  subst c1 c2 config_repo c3 c4. cbv zeta in Hfetch, Hr, Hh. rewrite Hfetch.
  split.
  - intros H3. eexists. apply bind_fail.
    unfold try_except, bind. rewrite extern_run, Hr, Hh, H3.
    by rewrite Hother.
  - intros found text' H3 H4 Hjson'. eexists.
    erewrite (bind_run _ _ _ _ true)
      by (unfold try_except, bind; by rewrite extern_run, Hr, Hh, H3).
    cbn [negb]. unfold try_except, bind.
    rewrite extern_run, respond_logged, history_logged.
    rewrite Hr, Hh, H4. unfold lift. cbn [as_str]. rewrite Hjson'.
    by rewrite Hother.
Qed.

(** X13. [get_config] asks for the template's document before it asks
    for the overrides, and makes four requests at most: with both
    documents found it returns the merged document after exactly these
    four, in this order. *)
Theorem get_config_requests
    (repo_name directory user_org tok : string) (st st1 : process)
    (client : Github) (answer found : response) (text text' : string)
    (base overrides : pydict) :
  let c1 := Github_get_repo client repo_name in
  let c2 :=
    Repository_get_contents client repo_name (document_path directory) in
  let config_repo := (user_org ++ "/.github")%string in
  let c3 := Github_get_repo client config_repo in
  let c4 :=
    Repository_get_contents client config_repo
      (os_path_join (os_path_join "cookiecutter" repo_name)
         (document_path directory)) in
  client_of tok true st = (Ok client, st1) ->
  respond st (history st) c1 = Ok answer ->
  respond st (c1 :: history st) c2 = Ok (RStr text) ->
  json_loads text = Ok base ->
  respond st (c2 :: c1 :: history st) c3 = Ok found ->
  respond st (c3 :: c2 :: c1 :: history st) c4 = Ok (RStr text') ->
  json_loads text' = Ok overrides ->
  exists st',
    fetch repo_name directory user_org tok st
    = (Ok (Cookiecutter.apply_overwrites_to_context base overrides), st')
    /\ history st' = c4 :: c3 :: c2 :: c1 :: history st.
Proof.
  intros c1 c2 config_repo c3 c4 Hclient H1 H2 Hjson H3 H4 Hjson'.
  destruct (get_config_base repo_name directory user_org tok st st1 client
              answer text base Hclient H1 H2 Hjson) as (Hfetch & Hr & Hh).
  subst c1 c2 config_repo c3 c4. cbv zeta in Hfetch, Hr, Hh. rewrite Hfetch.
  erewrite (bind_run _ _ _ _ true)
    by (unfold try_except, bind; by rewrite extern_run, Hr, Hh, H3).
  cbn [negb]. unfold try_except, bind.
  rewrite extern_run, respond_logged, history_logged.
  rewrite Hr, Hh, H4. unfold lift, ret. cbn [as_str]. rewrite Hjson'.
  eexists. split; [reflexivity |].
  do 2 rewrite history_logged. by rewrite Hh.
Qed.
End Fetching.

(** ** The memo tables *)

Lemma lru_find_None {K V : Type} `{EqDecision K} (k : K) (c : list (K * V)) :
  lru_find k c = None <-> k ∉ c.*1.
Proof.
  induction c as [|[k' v] c IH]; simpl.
  - split; [intros _; apply not_elem_of_nil | done].
  - rewrite not_elem_of_cons. destruct (decide (k' = k)) as [->|Hne].
    + split; [done | by intros [? _]].
    + rewrite IH. split; [by split | by intros [_ ?]].
Qed.

Lemma lru_remove_keys {K V : Type} `{EqDecision K} (k x : K)
    (c : list (K * V)) :
  x ∈ (lru_remove k c).*1 -> x ∈ c.*1.
Proof.
  induction c as [|[k' v] c IH]; simpl; [done |].
  destruct (decide (k' = k)) as [->|Hne]; simpl.
  - intros Hx. by apply elem_of_cons; right.
  - rewrite !elem_of_cons. intros [->|Hx]; [by left | right; by apply IH].
Qed.

Lemma lru_remove_NoDup {K V : Type} `{EqDecision K} (k : K)
    (c : list (K * V)) :
  NoDup c.*1 -> NoDup (lru_remove k c).*1 /\ k ∉ (lru_remove k c).*1.
Proof.
  induction c as [|[k' v] c IH]; simpl.
  - intros _. split; [constructor | apply not_elem_of_nil].
  - rewrite NoDup_cons. intros [Hk' Hc].
    destruct (IH Hc) as [Hnodup Hk].
    destruct (decide (k' = k)) as [->|Hne]; simpl; [done |].
    split.
    + apply NoDup_cons. split; [| done].
      intros Hin. by apply Hk', (lru_remove_keys k).
    + apply not_elem_of_cons. by split.
Qed.

Lemma lru_remove_length {K V : Type} `{EqDecision K} (k : K) (v : V)
    (c : list (K * V)) :
  lru_find k c = Some v -> S (length (lru_remove k c)) = length c.
Proof.
  induction c as [|[k' v'] c IH]; simpl; [done |].
  destruct (decide (k' = k)); simpl; [done |].
  intros Hfind. by rewrite IH.
Qed.

(** A hit reorders the table: it neither grows nor gets a second entry
    for a key. *)
Lemma lru_touch_bounded {K V : Type} `{EqDecision K} (n : nat) (k : K)
    (v : V) (c : list (K * V)) :
  lru_find k c = Some v -> (length c <= n)%nat -> NoDup c.*1 ->
  (length (lru_touch k v c) <= n)%nat /\ NoDup (lru_touch k v c).*1.
Proof.
  intros Hfind Hlen Hnodup. unfold lru_touch. simpl.
  rewrite (lru_remove_length k v c Hfind). split; [done |].
  apply NoDup_cons. destruct (lru_remove_NoDup k c Hnodup). by split.
Qed.

(** A miss stores one entry and drops what does not fit. *)
Lemma lru_store_bounded {K V : Type} `{EqDecision K} (n : nat) (k : K)
    (v : V) (c : list (K * V)) :
  lru_find k c = None -> NoDup c.*1 ->
  (length (lru_store n k v c) <= n)%nat /\ NoDup (lru_store n k v c).*1.
Proof.
  intros Hfind Hnodup. unfold lru_store. split.
  - rewrite length_take. lia.
  - rewrite fmap_take. eapply sublist_NoDup; [| apply sublist_take].
    simpl. apply NoDup_cons. split; [by apply lru_find_None | done].
Qed.

Lemma lru_cache_bounded {K V : Type} `{EqDecision K} (maxsize : nat)
    (table : process -> list (K * V))
    (set_table : list (K * V) -> process -> process)
    (f : K -> M V) (k : K) (st st' : process) (r : result V) :
  (forall st0 r0 st0', f k st0 = (r0, st0') -> table st0' = table st0) ->
  (forall c st0, table (set_table c st0) = c) ->
  lru_cache maxsize table set_table f k st = (r, st') ->
  (length (table st) <= maxsize)%nat -> NoDup (table st).*1 ->
  (length (table st') <= maxsize)%nat /\ NoDup (table st').*1.
Proof.
  intros Hf Hset. unfold lru_cache.
  destruct (lru_find k (table st)) as [v|] eqn:Hfind.
  - intros H Hlen Hnodup. injection H as _ <-. rewrite Hset.
    by apply lru_touch_bounded.
  - destruct (f k st) as [[v|e] st1] eqn:Hrun; intros H Hlen Hnodup;
      injection H as _ <-; apply Hf in Hrun.
    + rewrite Hset, Hrun. by apply lru_store_bounded.
    + by rewrite Hrun.
Qed.

(** Every run of the service is built from external calls,
    [decrypt_token] and [get_git_client]: an invariant of the process
    that these three keep is kept by all of it. *)
Section Invariants.
Context (HOST_NAME BASE_URL APP_KEY : string) (P : Fernet.primitives)
  (Github_rejects : string -> string -> option exn)
  (json_loads : string -> result pydict) (shlex_quote : string -> string)
  (Env : Type) (StrictEnvironment : pydict -> result Env)
  (render_template : Env -> string -> pydict -> result string).
Context (I : process -> Prop).
Hypothesis kept_extern : forall c, preserves I (extern c).
Hypothesis kept_decrypt_token :
  forall tok, preserves I (decrypt_token APP_KEY P tok).
Hypothesis kept_get_git_client :
  forall tok encrypted,
    preserves I (get_git_client HOST_NAME BASE_URL APP_KEY P
        Github_rejects tok encrypted).

Local Ltac keep :=
  first
    [ apply preserves_ret | apply preserves_raise | apply preserves_lift
    | apply kept_extern | apply kept_decrypt_token
    | apply kept_get_git_client
    | apply preserves_bind; [| intros ?]
    | apply preserves_try_except; [| intros ?]
    | apply preserves_finally ].

Lemma kept_encrypt_token (t : string) :
  preserves I (encrypt_token APP_KEY P t).
Proof. unfold encrypt_token, Fernet.encrypt. repeat keep. Qed.

Lemma kept_get_config (repo_name directory user_org tok : string) :
  preserves I
    (get_config HOST_NAME BASE_URL APP_KEY P
        Github_rejects json_loads repo_name directory
       user_org tok).
Proof.
  unfold get_config. repeat keep.
  match goal with |- context [negb ?b] => destruct b end; simpl; repeat keep.
Qed.

Lemma kept_form (details : FormDetails) :
  preserves I
    (form HOST_NAME BASE_URL APP_KEY P
        Github_rejects json_loads Env StrictEnvironment
       render_template details).
Proof.
  unfold form. apply preserves_bind.
  - destruct (cc_context details); [| apply preserves_ret].
    apply preserves_bind; [apply kept_get_config | intros ?; apply preserves_ret].
  - intros d. repeat keep.
Qed.

Lemma kept_create (details : FormDetails) :
  preserves I (create HOST_NAME BASE_URL APP_KEY P
      Github_rejects shlex_quote details).
Proof.
  unfold create, validate_and_create, publish, shell_command.
  apply preserves_try_except; [| intros ?; apply preserves_raise].
  destruct (negb (bool_decide (missing_values details = ∅)));
    [apply preserves_raise |].
  repeat keep.
  - match goal with |- context [match ?l with [] => _ | _ :: _ => _ end] =>
      destruct l end; repeat keep.
  - match goal with a : (string * string * string)%type |- _ =>
      destruct a as [[? ?] ?] end.
    repeat keep.
Qed.

Lemma kept_reachable (st0 st : process) :
  I st0 ->
  reachable HOST_NAME BASE_URL APP_KEY P
      Github_rejects json_loads shlex_quote Env
    StrictEnvironment render_template st0 st ->
  I st.
Proof.
  intros Hstart Hreach.
  induction Hreach as
    [| c st st' r _ IH Hrun | t st st' r _ IH Hrun | tok st st' r _ IH Hrun
     | tok encrypted st st' r _ IH Hrun | details st st' r _ IH Hrun
     | details st st' r _ IH Hrun ].
  - exact Hstart.
  - exact (kept_extern c _ _ _ IH Hrun).
  - exact (kept_encrypt_token t _ _ _ IH Hrun).
  - exact (kept_decrypt_token tok _ _ _ IH Hrun).
  - exact (kept_get_git_client tok encrypted _ _ _ IH Hrun).
  - exact (kept_form details _ _ _ IH Hrun).
  - exact (kept_create details _ _ _ IH Hrun).
Qed.
End Invariants.

Section Caches.
Context (HOST_NAME BASE_URL APP_KEY : string) (P : Fernet.primitives)
  (Github_rejects : string -> string -> option exn)
  (json_loads : string -> result pydict) (shlex_quote : string -> string)
  (Env : Type) (StrictEnvironment : pydict -> result Env)
  (render_template : Env -> string -> pydict -> result string).

Local Abbreviation decrypt := (decrypt_token APP_KEY P).
Local Abbreviation client_of := (get_git_client HOST_NAME BASE_URL APP_KEY P
    Github_rejects).
Local Abbreviation reached :=
  (reachable HOST_NAME BASE_URL APP_KEY P
      Github_rejects json_loads shlex_quote Env
     StrictEnvironment render_template).
Local Abbreviation sound :=
  (caches_sound HOST_NAME BASE_URL APP_KEY P Github_rejects).

Lemma decrypt_token_uncached_decrypted (tok : string) (st : process) :
  decrypt_token_uncached APP_KEY P tok st = (decrypted APP_KEY P tok, st).
Proof. apply decrypt_token_uncached_pure. Qed.

Lemma decrypt_token_client_cache (tok : string) (st st' : process)
    (r : result string) :
  decrypt tok st = (r, st') ->
  get_git_client_cache st' = get_git_client_cache st.
Proof.
  unfold decrypt_token, lru_cache.
  destruct (lru_find tok (decrypt_token_cache st)) as [raw|].
  - intros H. by injection H as _ <-.
  - rewrite decrypt_token_uncached_decrypted.
    destruct (decrypted APP_KEY P tok); intros H; by injection H as _ <-.
Qed.

Lemma decrypt_token_failure (tok : string) (st st' : process) (e : exn) :
  decrypt tok st = (Raise e, st') ->
  st' = st /\ decrypted APP_KEY P tok = Raise e.
Proof.
  unfold decrypt_token, lru_cache.
  destruct (lru_find tok (decrypt_token_cache st)) as [raw|]; [done |].
  rewrite decrypt_token_uncached_decrypted.
  destruct (decrypted APP_KEY P tok); [done |].
  intros H. by injection H as -> <-.
Qed.

(** With a sound table, memoisation does not show in the result. *)
Lemma decrypt_token_result (tok : string) (st st' : process)
    (r : result string) :
  decrypt_cache_sound APP_KEY P st ->
  decrypt tok st = (r, st') -> r = decrypted APP_KEY P tok.
Proof.
  intros Hsound Hrun.
  destruct (decrypt_token_transparent APP_KEY P tok st Hsound)
    as (st1 & Hrun1 & _).
  rewrite Hrun, decrypt_token_uncached_decrypted in Hrun1.
  by injection Hrun1 as -> _.
Qed.

(** A run of the constructor. *)
Lemma Github_init_Ok (base_url login_or_token : string) (client : Github) :
  Github_init Github_rejects base_url login_or_token = Ok client ->
  client = {| base_url := base_url; login_or_token := login_or_token |}
  /\ Github_rejects base_url login_or_token = None.
Proof.
  unfold Github_init.
  destruct (Github_rejects base_url login_or_token); [done |].
  intros H. by injection H as <-.
Qed.

Lemma Github_init_Raise (base_url login_or_token : string) (e : exn) :
  Github_init Github_rejects base_url login_or_token = Raise e ->
  Github_rejects base_url login_or_token = Some e.
Proof.
  unfold Github_init.
  destruct (Github_rejects base_url login_or_token); [| done].
  intros H. by injection H as <-.
Qed.

(** The body of [get_git_client]: the token is decrypted if it has to
    be, and the client is built. *)
Lemma get_git_client_uncached_run (tok : string) (encrypted : bool)
    (st st' : process) (r : result Github) :
  get_git_client_uncached HOST_NAME BASE_URL APP_KEY P Github_rejects
    (tok, encrypted) st = (r, st') ->
  (exists e, encrypted = true /\ decrypt tok st = (Raise e, st')
             /\ r = Raise e)
  \/ (exists raw,
        (if encrypted then decrypt tok st = (Ok raw, st')
         else raw = tok /\ st' = st)
        /\ r = Github_init Github_rejects (host_name HOST_NAME BASE_URL) raw).
Proof.
  unfold get_git_client_uncached, bind, ret, lift.
  destruct encrypted.
  - destruct (decrypt tok st) as [[raw|e] st1] eqn:Hrun;
      intros H; injection H as <- <-.
    + right. by exists raw.
    + left. by exists e.
  - intros H. injection H as <- <-. right. by exists tok.
Qed.

(** A failure of [get_git_client] is one of its body: nothing is
    memoised for it. *)
Lemma get_git_client_Raise (tok : string) (encrypted : bool)
    (st st' : process) (e : exn) :
  client_of tok encrypted st = (Raise e, st') ->
  get_git_client_uncached HOST_NAME BASE_URL APP_KEY P Github_rejects
    (tok, encrypted) st = (Raise e, st').
Proof.
  unfold get_git_client, lru_cache.
  destruct (lru_find (tok, encrypted) (get_git_client_cache st)); [done |].
  by destruct (get_git_client_uncached HOST_NAME BASE_URL APP_KEY P
                 Github_rejects (tok, encrypted) st) as [[client|e'] st1].
Qed.

(** *** The tables stay within their sizes *)

Lemma bounded_extern (c : call) : preserves cache_bounded (extern c).
Proof. intros st r st' HI H. injection H as _ <-. exact HI. Qed.

Lemma bounded_decrypt_token (tok : string) :
  preserves cache_bounded (decrypt tok).
Proof.
  intros st r st' (Hlen & Hnodup & Hclients) Hrun.
  unfold cache_bounded.
  rewrite (decrypt_token_client_cache tok st st' r Hrun).
  cut ((length (decrypt_token_cache st') <= 1024)%nat
       /\ NoDup (decrypt_token_cache st').*1); [tauto |].
  apply (lru_cache_bounded 1024 decrypt_token_cache set_decrypt_token_cache
           (decrypt_token_uncached APP_KEY P) tok st st' r); try done.
  intros st0 r0 st0'. rewrite decrypt_token_uncached_decrypted.
  intros H. by injection H as _ <-.
Qed.

Lemma bounded_get_git_client (tok : string) (encrypted : bool) :
  preserves cache_bounded (client_of tok encrypted).
Proof.
  intros st r st' (Hlen & Hnodup & Hlen' & Hnodup') Hrun.
  assert (Hbody : forall st0 r0 st0',
             get_git_client_uncached HOST_NAME BASE_URL APP_KEY P
               Github_rejects (tok, encrypted) st0 = (r0, st0') ->
             get_git_client_cache st0' = get_git_client_cache st0
             /\ (cache_bounded st0 -> cache_bounded st0')).
  { intros st0 r0 st0' Hbody.
    apply get_git_client_uncached_run in Hbody
      as [(e & _ & Hdecrypt & _)|(raw & Hdecrypt & _)].
    - split; [exact (decrypt_token_client_cache _ _ _ _ Hdecrypt) |].
      intros HI. exact (bounded_decrypt_token tok _ _ _ HI Hdecrypt).
    - destruct encrypted; [| by destruct Hdecrypt as [_ ->]].
      split; [exact (decrypt_token_client_cache _ _ _ _ Hdecrypt) |].
      intros HI. exact (bounded_decrypt_token tok _ _ _ HI Hdecrypt). }
  cut (((length (decrypt_token_cache st') <= 1024)%nat
        /\ NoDup (decrypt_token_cache st').*1)
       /\ (length (get_git_client_cache st') <= 128)%nat
          /\ NoDup (get_git_client_cache st').*1);
    [unfold cache_bounded; tauto |].
  split.
  - revert Hrun. unfold get_git_client, lru_cache.
    destruct (lru_find (tok, encrypted) (get_git_client_cache st)).
    + intros H. by injection H as _ <-.
    + destruct (get_git_client_uncached HOST_NAME BASE_URL APP_KEY P
                  Github_rejects (tok, encrypted) st)
        as [[v|e] st1] eqn:Hrun;
        intros H; injection H as _ <-;
        apply Hbody in Hrun as [_ Hkept];
        destruct Hkept as (? & ? & _); done.
  - apply (lru_cache_bounded 128 get_git_client_cache
             set_get_git_client_cache
             (get_git_client_uncached HOST_NAME BASE_URL APP_KEY P
                Github_rejects)
             (tok, encrypted) st st' r); try done.
    intros st0 r0 st0' H. by apply Hbody in H as [? _].
Qed.

(** X15. The memo tables stay within their sizes: in a process that
    started with nothing memoised, whatever it has run since, the table
    of [decrypt_token] holds at most 1024 decrypted tokens and the
    table of [get_git_client] at most 128 clients, one for each key. *)
Theorem caches_stay_bounded (st0 st : process) :
  fresh st0 -> reached st0 st -> cache_bounded st.
Proof.
  intros [Hdecrypt Hclient].
  apply kept_reachable;
    [apply bounded_extern | apply bounded_decrypt_token
    | apply bounded_get_git_client |].
  unfold cache_bounded. rewrite Hdecrypt, Hclient. simpl.
  repeat split; first [lia | constructor].
Qed.

(** *** The tables hold what their functions return *)

Lemma caches_sound_extern (c : call) : preserves sound (extern c).
Proof. intros st r st' HI H. injection H as _ <-. exact HI. Qed.

Lemma caches_sound_decrypt_token (tok : string) :
  preserves sound (decrypt tok).
Proof.
  intros st r st' [Hdecrypt Hclient] Hrun. split.
  - exact (sound_decrypt_token APP_KEY P tok st r st' Hdecrypt Hrun).
  - unfold client_cache_sound.
    by rewrite (decrypt_token_client_cache tok st st' r Hrun).
Qed.

(** The body of [get_git_client] keeps the tables sound, and says
    what the token it built the client with is. *)
Lemma caches_sound_body (tok : string) (encrypted : bool)
    (st st' : process) (raw : string) :
  sound st ->
  (if encrypted then decrypt tok st = (Ok raw, st')
   else raw = tok /\ st' = st) ->
  sound st'
  /\ if encrypted
     then forall st0,
            decrypt_token_uncached APP_KEY P tok st0 = (Ok raw, st0)
     else raw = tok.
Proof.
  intros Hsound Hrun. destruct encrypted.
  - split; [exact (caches_sound_decrypt_token tok st _ st' Hsound Hrun) |].
    intros st0. rewrite decrypt_token_uncached_decrypted.
    by rewrite <- (decrypt_token_result tok st st' (Ok raw) (proj1 Hsound)
                     Hrun).
  - by destruct Hrun as [-> ->].
Qed.

Lemma caches_sound_get_git_client (tok : string) (encrypted : bool) :
  preserves sound (client_of tok encrypted).
Proof.
  intros st r st' Hsound.
  pose proof Hsound as [Hdecrypt Hclient].
  unfold get_git_client, lru_cache.
  destruct (lru_find (tok, encrypted) (get_git_client_cache st))
    as [client|] eqn:Hfind.
  - intros H. injection H as _ <-. split; [exact Hdecrypt |].
    intros tok' encrypted' client' Hfind'.
    unfold set_get_git_client_cache in Hfind'.
    cbn [get_git_client_cache] in Hfind'.
    apply lru_find_touch in Hfind' as [[Hkey ->]|Hfind'].
    + injection Hkey as -> ->. by apply Hclient.
    + by apply Hclient.
  - destruct (get_git_client_uncached HOST_NAME BASE_URL APP_KEY P
                Github_rejects (tok, encrypted) st)
      as [[v|e] st1] eqn:Hbody; intros H; injection H as _ <-;
      apply get_git_client_uncached_run in Hbody
        as [(e' & _ & Hrun & Hr)|(raw & Hrun & Hr)]; try done.
    + symmetry in Hr. apply Github_init_Ok in Hr as [-> Haccepted].
      destruct (caches_sound_body tok encrypted st st1 raw Hsound Hrun)
        as [[Hdecrypt1 Hclient1] Hraw].
      split; [exact Hdecrypt1 |].
      intros tok' encrypted' client' Hfind'.
      unfold set_get_git_client_cache in Hfind'.
      cbn [get_git_client_cache] in Hfind'.
      apply lru_find_store in Hfind' as [[Hkey ->]|Hfind'];
        [| by apply Hclient1].
      by injection Hkey as -> ->.
    + exact (caches_sound_decrypt_token tok st _ st1 Hsound Hrun).
    + by destruct (caches_sound_body tok encrypted st st1 raw Hsound Hrun).
Qed.

Lemma fresh_sound (st : process) : fresh st -> sound st.
Proof.
  intros [Hdecrypt Hclient]. split.
  - intros tok raw. by rewrite Hdecrypt.
  - intros tok encrypted client. by rewrite Hclient.
Qed.

Lemma reachable_sound (st0 st : process) :
  sound st0 -> reached st0 st -> sound st.
Proof.
  apply kept_reachable;
    [apply caches_sound_extern | apply caches_sound_decrypt_token
    | apply caches_sound_get_git_client].
Qed.

(** What a client built in a sound state logs in with. *)
Lemma get_git_client_login (tok : string) (encrypted : bool)
    (st st' : process) (client : Github) :
  sound st ->
  client_of tok encrypted st = (Ok client, st') ->
  base_url client = host_name HOST_NAME BASE_URL
  /\ Github_rejects (base_url client) (login_or_token client) = None
  /\ if encrypted then decrypted APP_KEY P tok = Ok (login_or_token client)
     else login_or_token client = tok.
Proof.
  intros Hsound Hrun.
  assert (Hfind : lru_find (tok, encrypted) (get_git_client_cache st')
                  = Some client).
  { revert Hrun. unfold get_git_client, lru_cache.
    destruct (lru_find (tok, encrypted) (get_git_client_cache st))
      as [v|] eqn:Hfind.
    - intros H. injection H as -> <-. simpl. by rewrite decide_True.
    - destruct (get_git_client_uncached HOST_NAME BASE_URL APP_KEY P
                  Github_rejects (tok, encrypted) st)
        as [[v|e] st1]; [| done].
      intros H. injection H as -> <-. simpl. by rewrite decide_True. }
  destruct (caches_sound_get_git_client tok encrypted st _ st' Hsound Hrun)
    as [_ Hclient].
  destruct (Hclient tok encrypted client Hfind) as (Hurl & Haccepted & Hlogin).
  split; [exact Hurl |]. split; [exact Haccepted |].
  destruct encrypted; [| exact Hlogin].
  specialize (Hlogin st). rewrite decrypt_token_uncached_decrypted in Hlogin.
  by injection Hlogin.
Qed.

(** X14. [get_git_client] fails only when the token cannot be
    decrypted or when the constructor of [Github] rejects the base URL
    or the token, and it raises the exception of the step that failed.
    A failure is not memoised: the table of [get_git_client] is as it
    was, and so is the table of [decrypt_token] when it was the
    decryption that failed. *)
Theorem get_git_client_failure (st0 st st' : process) (tok : string)
    (encrypted : bool) (e : exn) :
  fresh st0 -> reached st0 st ->
  client_of tok encrypted st = (Raise e, st') ->
  get_git_client_cache st' = get_git_client_cache st
  /\ ((encrypted = true
       /\ decrypted APP_KEY P tok = Raise e
       /\ decrypt_token_cache st' = decrypt_token_cache st)
      \/ (exists raw,
            (if encrypted then decrypted APP_KEY P tok = Ok raw
             else raw = tok)
            /\ Github_rejects (host_name HOST_NAME BASE_URL) raw = Some e)).
Proof.
  intros Hfresh Hreach Hrun.
  pose proof (reachable_sound st0 st (fresh_sound st0 Hfresh) Hreach)
    as [Hsound _].
  apply get_git_client_Raise, get_git_client_uncached_run in Hrun
    as [(e' & -> & Hrun & He)|(raw & Hrun & He)].
  - injection He as ->.
    apply decrypt_token_failure in Hrun as [-> Hfail].
    split; [done |]. left. by split.
  - symmetry in He. apply Github_init_Raise in He.
    destruct encrypted.
    + split; [exact (decrypt_token_client_cache _ _ _ _ Hrun) |].
      right. exists raw. split; [| done].
      symmetry. by apply (decrypt_token_result tok st st').
    + destruct Hrun as [-> ->]. split; [done |]. right. by exists tok.
Qed.

(** X16. Memoisation never mixes sessions up: in a process that
    started with nothing memoised, every client that [get_git_client]
    returns is one for the configured host that logs in with the
    decryption of the very token it was asked for, or with the token
    itself when it is not encrypted. *)
Theorem get_git_client_logs_in_with_token (st0 st st' : process)
    (tok : string) (encrypted : bool) (client : Github) :
  fresh st0 -> reached st0 st ->
  client_of tok encrypted st = (Ok client, st') ->
  base_url client = host_name HOST_NAME BASE_URL
  /\ if encrypted then decrypted APP_KEY P tok = Ok (login_or_token client)
     else login_or_token client = tok.
Proof.
  intros Hfresh Hreach Hrun.
  destruct (get_git_client_login tok encrypted st st' client) as (? & _ & ?);
    [by apply (reachable_sound st0); [apply fresh_sound |] | done | done].
Qed.

(** X17. Memoisation does not show in what [decrypt_token] returns: in
    a process that started with nothing memoised, every call returns or
    raises what [Fernet(APP_KEY).decrypt(token.encode()).decode()]
    comes to, the errors of the encoding and of the decoding
    included.  A result is memoised for the token, an exception is
    not, and the table of [get_git_client] is left alone. *)
Theorem decrypt_token_memoised (st0 st st' : process) (tok : string)
    (r : result string) :
  fresh st0 -> reached st0 st ->
  decrypt tok st = (r, st') ->
  r = decrypted APP_KEY P tok
  /\ get_git_client_cache st' = get_git_client_cache st
  /\ match r with
     | Ok raw => lru_find tok (decrypt_token_cache st') = Some raw
     | Raise _ => decrypt_token_cache st' = decrypt_token_cache st
     end.
Proof.
  intros Hfresh Hreach Hrun.
  destruct (reachable_sound st0 st (fresh_sound st0 Hfresh) Hreach)
    as [Hsound _].
  split; [by apply (decrypt_token_result tok st st') |].
  split; [exact (decrypt_token_client_cache _ _ _ _ Hrun) |].
  destruct r as [raw|e].
  - revert Hrun. unfold decrypt_token, lru_cache.
    destruct (lru_find tok (decrypt_token_cache st)) as [raw'|].
    + intros H. injection H as -> <-. simpl. by rewrite decide_True.
    + rewrite decrypt_token_uncached_decrypted.
      destruct (decrypted APP_KEY P tok) as [raw'|]; [| done].
      intros H. injection H as -> <-.
      unfold set_decrypt_token_cache, lru_store.
      cbn [decrypt_token_cache take lru_find]. by rewrite decide_True.
  - by apply decrypt_token_failure in Hrun as [-> _].
Qed.

(** X18. The token that [encrypt_token] hands out opens the session it
    was made for: once [encrypt_token] has returned a token for [t],
    in every state the process reaches later [get_git_client] either
    builds from that token a client that logs in with [t], whatever
    the tables have memoised, or raises the exception with which the
    constructor of [Github] rejects the base URL or [t]. *)
Theorem get_git_client_of_encrypted_token (st0 st st1 st2 : process)
    (t c : string) :
  Fernet.lawful P ->
  fresh st0 -> reached st0 st ->
  encrypt_token APP_KEY P t st = (Ok c, st1) ->
  reached st1 st2 ->
  match Github_rejects (host_name HOST_NAME BASE_URL) t with
  | None =>
      exists client st3,
        client_of c true st2 = (Ok client, st3)
        /\ login_or_token client = t
        /\ base_url client = host_name HOST_NAME BASE_URL
  | Some e => exists st3, client_of c true st2 = (Raise e, st3)
  end.
Proof.
  intros Hlaw Hfresh Hreach Hrun Hlater.
  pose proof (reachable_sound st0 st (fresh_sound st0 Hfresh) Hreach)
    as Hsound.
  assert (Hsound1 : sound st1).
  { destruct Hsound as [Hdecrypt Hclient].
    pose proof (encrypt_token_caches APP_KEY P t st) as [Hd Hc].
    rewrite Hrun in Hd, Hc. simpl in Hd, Hc.
    split; unfold decrypt_cache_sound, client_cache_sound.
    - by rewrite Hd.
    - by rewrite Hc. }
  destruct (decrypt_after_encrypt APP_KEY P t c st st1 Hlaw (proj1 Hsound)
              Hrun) as (s & Hdecrypt & _).
  assert (Hc : decrypted APP_KEY P c = Ok t).
  { symmetry. apply (decrypt_token_result c st1 s); [apply Hsound1 | done]. }
  pose proof (reachable_sound st1 st2 Hsound1 Hlater) as Hsound2.
  destruct (client_of c true st2) as [[client|e] st3] eqn:Hbuild.
  - destruct (get_git_client_login c true st2 st3 client Hsound2 Hbuild)
      as (Hurl & Haccepted & Hlogin).
    assert (login_or_token client = t) as Ht by congruence.
    rewrite Hurl, Ht in Haccepted. rewrite Haccepted.
    by exists client, st3.
  - apply get_git_client_Raise, get_git_client_uncached_run in Hbuild
      as [(e' & _ & Hfail & _)|(raw & Hraw & He)].
    + apply decrypt_token_failure in Hfail as [_ Hfail]. congruence.
    + assert (raw = t) as ->.
      { pose proof (decrypt_token_result c st2 st3 (Ok raw) (proj1 Hsound2)
                      Hraw). congruence. }
      symmetry in He. apply Github_init_Raise in He. rewrite He.
      by exists st3.
Qed.
End Caches.

(** ** From the form to the creation *)

Section Sessions.
Context (HOST_NAME BASE_URL APP_KEY : string) (P : Fernet.primitives)
  (Github_rejects : string -> string -> option exn)
  (json_loads : string -> result pydict) (shlex_quote : string -> string)
  (Env : Type) (StrictEnvironment : pydict -> result Env)
  (render_template : Env -> string -> pydict -> result string).

Local Abbreviation resolve :=
  (get_next_option Env StrictEnvironment render_template).
Local Abbreviation advance :=
  (form HOST_NAME BASE_URL APP_KEY P
      Github_rejects json_loads Env StrictEnvironment
     render_template).
Local Abbreviation run_create :=
  (create HOST_NAME BASE_URL APP_KEY P Github_rejects shlex_quote).

(** The session that [form] returns is the session it was given, with
    a document and the next step of the resolver on that document. *)
Lemma form_Ok (details details' : FormDetails) (st st' : process) :
  advance details st = (Ok details', st') ->
  exists context step,
    resolve context (user_inputs details) = Ok step
    /\ details' = set_next step (set_cc_context context details).
Proof.
  unfold form. intros H.
  apply bind_Ok in H as (d & st1 & Hdocument & H).
  apply bind_Ok in H as (step & st2 & Hstep & H).
  apply lift_Ok in Hstep as [Hstep ->]. injection H as <- <-.
  destruct (cc_context details) as [|entry rest] eqn:Hcc.
  - apply bind_Ok in Hdocument as (context & st3 & _ & Hd).
    injection Hd as <- _. by exists context, step.
  - injection Hdocument as <- _. exists (entry :: rest), step.
    split; [by rewrite <- Hcc |].
    destruct details. simpl in *. by subst.
Qed.

Lemma get_next_option_None (cc_context user_inputs : pydict) (v : value)
    (b : bool) :
  resolve cc_context user_inputs = Ok (None, v, b) ->
  b = true /\ (forall x, x ∈ dict_keys cc_context -> x ∈ dict_keys user_inputs).
Proof.
  intros H.
  destruct (StrictEnvironment [("cookiecutter", VDict cc_context)])
    as [env|e] eqn:Henv;
    [| unfold get_next_option in H; rewrite Henv in H; discriminate].
  assert (Hb : v = VNone /\ b = true).
  { rewrite (get_next_option_unfold _ _ _ env) in H by exact Henv.
    destruct (List.find (unanswered user_inputs) (dict_keys cc_context))
      as [k|]; [| by injection H as <- <-].
    destruct (dict_get k cc_context) as [raw|]; [| discriminate].
    destruct (Cookiecutter.render_variable Env render_template env raw
                user_inputs); simpl in H; discriminate. }
  destruct Hb as [-> ->]. split; [done |].
  by apply (get_next_option_done Env StrictEnvironment render_template env).
Qed.

(** X19. What [form] reports agrees with what [create] accepts.  When
    the session that [form] returns is [done], it names no key and
    misses no value, so that the validation of [create] passes; when it
    is not, the key it names is a missing value, and [create] on this
    session answers with status 500, around the status 400 that lists
    the missing values. *)
Theorem form_agrees_with_create (details details' : FormDetails)
    (st st' : process) :
  advance details st = (Ok details', st') ->
  if done details' then
    next_key details' = None /\ missing_values details' = ∅
  else
    exists key,
      next_key details' = Some key
      /\ key ∈ missing_values details'
      /\ forall st2,
           run_create details' st2 =
           (Raise
              (HTTPException 500
                 (ErrorOccured
                    (HTTPException 400
                       (MissingInputs (missing_values details'))))),
            st2).
Proof.
  intros H. apply form_Ok in H as (context & [[key v] b] & Hstep & ->).
  simpl. destruct key as [key|].
  - apply get_next_option_Some in Hstep as (Hin & Hun & ->).
    exists key. split; [done |].
    assert (Hmissing : key ∈ missing_values
                         (set_next (Some key, v, false)
                            (set_cc_context context details))).
    { apply elem_of_difference. by rewrite !key_set_spec. }
    split; [exact Hmissing |]. intros st2.
    apply create_incomplete. intros Hempty. rewrite Hempty in Hmissing.
    by apply not_elem_of_empty in Hmissing.
  - apply get_next_option_None in Hstep as [-> Hall].
    split; [done |]. apply missing_values_empty. by apply key_set_subseteq.
Qed.
End Sessions.

(** * Worked examples *)

Section Examples.
Import Example.

Local Abbreviation resolve :=
  (get_next_option Jinja2.Env Jinja2.StrictEnvironment Jinja2.render_template).
Local Abbreviation render :=
  (Cookiecutter.render_variable Jinja2.Env Jinja2.render_template).
Local Abbreviation encrypt := (encrypt_token APP_KEY null_primitives).
Local Abbreviation decrypt := (decrypt_token APP_KEY null_primitives).

Local Ltac by_computation :=
  match goal with
  | |- ?G => apply (bool_decide_eq_true_1 G); vm_compute; reflexivity
  end.

Lemma unletters_letters (data : list byte) :
  unletters (letters data) = Some data.
Proof.
  induction data as [|b data IH]; [done |].
  change (letters (b :: data))
    with (letter (Byte.to_N b / 16) :: letter (Byte.to_N b mod 16)
            :: letters data).
  cbn [unletters]. rewrite IH. by destruct b.
Defined.

Lemma letters_are_text (data : list byte) :
  utf8_valid (letters data) = true.
Proof.
  induction data as [|b data IH]; [done |].
  change (letters (b :: data))
    with (letter (Byte.to_N b / 16) :: letter (Byte.to_N b mod 16)
            :: letters data).
  destruct b; exact IH.
Defined.

Lemma null_primitives_lawful : Fernet.lawful null_primitives.
Proof.
  split; simpl; [exact unletters_letters | done |].
  intros _ _. reflexivity.
Defined.

Lemma null_primitives_text_safe : Fernet.text_safe null_primitives.
Proof. exact letters_are_text. Defined.

Lemma boot_sound : decrypt_cache_sound APP_KEY null_primitives boot.
Proof. intros tok raw H. discriminate H. Defined.

(** C1 fails on the code: every key of the document has an answer,
    and the resolver raises the error of the environment instead of
    reporting that it is done. *)
Lemma unloadable_extension_is_not_done :
  (forall x, x ∈ dict_keys extension_document ->
             x ∈ dict_keys extension_answers)
  /\ resolve extension_document extension_answers
     = Raise (UnknownExtension "missing.Extension").
Proof. split; [intros x Hx; exact Hx | reflexivity]. Qed.

(** C1 on the two-field document: with the name answered the slug is
    next, and with both answered the resolver is done. *)
Lemma get_next_option_first_unanswered_witness :
  resolve base_document foo_answer
  = Ok (Some "project_slug", VStr "Foo Bar", false)
  /\ resolve base_document complete_answers = Ok (None, VNone, true).
Proof.
  split.
  - exact (proj1 (get_next_option_first_unanswered Jinja2.Env
                    Jinja2.StrictEnvironment Jinja2.render_template
                    base_document foo_answer)
             [("project_name", VStr "My App")] "project_slug"
             (VStr "{{ cookiecutter.project_name }}") [] eq_refl
             (fun x Hx => Hx) ltac:(by_computation)).
  - apply (proj2 (get_next_option_first_unanswered Jinja2.Env
                    Jinja2.StrictEnvironment Jinja2.render_template
                    base_document complete_answers)).
    intros x Hx. exact Hx.
Defined.





(** C5 fails on the code: a token that is one lone surrogate cannot
    be encoded, and [encrypt_token] raises instead of returning an
    encrypted token. *)
Lemma lone_surrogate_is_not_encrypted :
  encrypt lone_surrogate boot = (Raise UnicodeEncodeError, boot).
Proof. reflexivity. Qed.

(** C5 on the token [secret] in a fresh process. *)
Lemma decrypt_encrypt_token_witness :
  exists c st' st'',
    encrypt "secret" boot = (Ok c, st')
    /\ decrypt c st' = (Ok "secret", st'')
    /\ decrypt_cache_sound APP_KEY null_primitives st''.
Proof.
  assert (Hrange : 0 <= 1604448000 < 2 ^ 64) by lia.
  exact (decrypt_encrypt_token APP_KEY null_primitives "secret" boot
           {| Fernet.signing_key :=
                [x01; x23; x45; x67; x89; xab; xcd; xef;
                 x01; x23; x45; x67; x89; xab; xcd; xef];
              Fernet.encryption_key :=
                [x01; x23; x45; x67; x89; xab; xcd; xef;
                 x01; x23; x45; x67; x89; xab; xcd; xef] |}
           1604448000 (repeat x01 16)
           null_primitives_lawful null_primitives_text_safe eq_refl eq_refl
           Hrange eq_refl eq_refl boot_sound).
Defined.

(** C6 fails on the code: two calls in a row with the same token and
    the same key return different encrypted tokens. *)
Lemma encrypt_token_twice_differs :
  exists c1 c2,
    (encrypt "secret" boot).1 = Ok c1
    /\ (encrypt "secret" (encrypt "secret" boot).2).1 = Ok c2
    /\ c1 <> c2.
Proof.
  eexists. eexists. split; [reflexivity |]. split; [reflexivity |].
  by_computation.
Qed.

Lemma encrypt_token_draws_witness :
  (encrypt "secret" boot).1 = (encrypt "secret" boot).1
  /\ forall c1 c2,
       (encrypt "secret" boot).1 = Ok c1 ->
       (encrypt "secret" (encrypt "secret" boot).2).1 = Ok c2 ->
       c1 <> c2.
Proof.
  split.
  - exact (proj1 (encrypt_token_draws APP_KEY null_primitives "secret"
                    boot boot) eq_refl eq_refl).
  - intros c1 c2 H1 H2.
    apply (proj2 (encrypt_token_draws APP_KEY null_primitives "secret"
                    boot (encrypt "secret" boot).2)
             null_primitives_lawful c1 c2 H1 H2).
    intros Hiv. vm_compute in Hiv. discriminate Hiv.
Defined.

(** C7 fails on the code: an override that is not one of the choices
    of a choice variable replaces nothing. *)
Lemma override_of_choices_is_not_a_replacement :
  dict_get "license"
    (Cookiecutter.apply_overwrites_to_context license_document
       [("license", VStr "GPL")])
  = Some (VList [VStr "MIT"; VStr "BSD"])
  /\ dict_get "license"
       (Cookiecutter.apply_overwrites_to_context license_document
          [("license", VStr "GPL")])
     <> Some (VStr "GPL").
Proof. split; [reflexivity | discriminate]. Qed.

(** C7 on the example of the spec, and on a valid choice. *)
Lemma apply_overwrites_to_context_spec_witness :
  Cookiecutter.apply_overwrites_to_context abc_document [("b", VStr "X")]
  = [("a", VStr "1"); ("b", VStr "X"); ("c", VStr "3")]
  /\ dict_keys
       (Cookiecutter.apply_overwrites_to_context abc_document
          [("b", VStr "X"); ("z", VStr "Y")])
     = ["a"; "b"; "c"]
  /\ dict_get "b"
       (Cookiecutter.apply_overwrites_to_context abc_document
          [("b", VStr "X"); ("z", VStr "Y")])
     = Some (VStr "X")
  /\ dict_get "license"
       (Cookiecutter.apply_overwrites_to_context license_document
          [("license", VStr "BSD")])
     = Some (VList [VStr "BSD"; VStr "MIT"]).
Proof.
  assert (Hnodup : NoDup (dict_keys [("b", VStr "X"); ("z", VStr "Y")])).
  { by_computation. }
  assert (Hnodup' : NoDup (dict_keys [("license", VStr "BSD")])).
  { by_computation. }
  destruct (apply_overwrites_to_context_spec abc_document
              [("b", VStr "X"); ("z", VStr "Y")] Hnodup)
    as (Hkeys & _ & Hover).
  destruct (apply_overwrites_to_context_spec license_document
              [("license", VStr "BSD")] Hnodup')
    as (_ & _ & Hover').
  split; [reflexivity |]. split; [exact Hkeys |]. split.
  - apply (Hover "b" (VStr "X") (VStr "2")); [left | reflexivity].
  - apply (Hover' "license" (VStr "BSD") (VList [VStr "MIT"; VStr "BSD"]));
      [left | reflexivity].
Defined.

(** C8 on a session that carries its document: nothing is fetched. *)
Lemma form_cached_is_local_witness :
  form "" GITHUB_URL APP_KEY null_primitives
      Github_rejects json_loads Jinja2.Env
    Jinja2.StrictEnvironment Jinja2.render_template
    (session "acme" base_document foo_answer secret_token) boot
  = (Ok (set_next (Some "project_slug", VStr "Foo Bar", false)
           (session "acme" base_document foo_answer secret_token)),
     boot).
Proof.
  apply (form_cached_is_local "" GITHUB_URL APP_KEY null_primitives
      Github_rejects
           json_loads Jinja2.Env Jinja2.StrictEnvironment
           Jinja2.render_template
           (session "acme" base_document foo_answer secret_token) boot).
  discriminate.
Defined.

(** C9 for an organization without a [.github] repository and for
    one whose [.github] repository has no defaults file. *)
Lemma get_config_without_overrides_witness :
  (exists st',
      get_config "" GITHUB_URL APP_KEY null_primitives Github_rejects json_loads
        template_name "" "acme" secret_token boot
      = (Ok base_document, st'))
  /\ (exists st',
         get_config "" GITHUB_URL APP_KEY null_primitives
             Github_rejects json_loads
           template_name "" "initech" secret_token boot
         = (Ok base_document, st')).
Proof.
  split.
  - apply (get_config_without_overrides "" GITHUB_URL APP_KEY
             null_primitives Github_rejects json_loads template_name "" "acme"
             secret_token boot
             (get_git_client "" GITHUB_URL APP_KEY null_primitives
                 Github_rejects
                secret_token true boot).2
             {| base_url := GITHUB_API_URL; login_or_token := "secret" |}
             cookiecutter_json base_document eq_refl).
    + by exists RNone.
    + reflexivity.
    + reflexivity.
    + left. by exists 404.
  - apply (get_config_without_overrides "" GITHUB_URL APP_KEY
             null_primitives
                 Github_rejects json_loads template_name "" "initech"
             secret_token boot
             (get_git_client "" GITHUB_URL APP_KEY null_primitives
                 Github_rejects
                secret_token true boot).2
             {| base_url := GITHUB_API_URL; login_or_token := "secret" |}
             cookiecutter_json base_document eq_refl).
    + by exists RNone.
    + reflexivity.
    + reflexivity.
    + right. split; [by exists RNone | by exists 404].
Defined.

(** For an organization with a defaults file, the fetched document
    carries the organization's default. *)
Lemma get_config_with_overrides_example :
  exists st',
    get_config "" GITHUB_URL APP_KEY null_primitives Github_rejects json_loads
      template_name "" "initrode" secret_token boot
    = (Ok [("project_name", VStr "Initrode");
           ("project_slug", VStr "{{ cookiecutter.project_name }}")], st').
Proof.
  apply (get_config_with_overrides "" GITHUB_URL APP_KEY null_primitives
      Github_rejects
           json_loads template_name "" "initrode" secret_token boot
           (get_git_client "" GITHUB_URL APP_KEY null_primitives Github_rejects
              secret_token true boot).2
           {| base_url := GITHUB_API_URL; login_or_token := "secret" |}
           cookiecutter_json overrides_json base_document overrides_document
           eq_refl).
  - by exists RNone.
  - reflexivity.
  - reflexivity.
  - by exists RNone.
  - reflexivity.
  - reflexivity.
Qed.

(** C10 fails on the code: answers with a key the document does not
    have complete the resolution and pass the validation. *)
Lemma extra_answers_complete :
  resolve base_document extra_answers = Ok (None, VNone, true)
  /\ missing_values (session "acme" base_document extra_answers secret_token)
     = ∅
  /\ "unknown" ∈ key_set extra_answers
  /\ ("unknown" ∉ key_set base_document)
  /\ key_set extra_answers <> key_set base_document.
Proof.
  split; [reflexivity |]. split; [by_computation |].
  split; [by_computation |]. split; by_computation.
Qed.

Lemma completion_covers_document_witness :
  missing_values
    (session "acme" base_document complete_answers secret_token) = ∅
  /\ key_set complete_answers = key_set base_document
  /\ key_set (dict_set "project_slug" (VStr "foo-bar") foo_answer)
     ⊆ key_set base_document.
Proof.
  destruct (completion_covers_document Jinja2.Env Jinja2.StrictEnvironment
              Jinja2.render_template tt
              (session "acme" base_document complete_answers secret_token)
              eq_refl)
    as (_ & Hvalid & Hequal & _).
  destruct (completion_covers_document Jinja2.Env Jinja2.StrictEnvironment
              Jinja2.render_template tt
              (session "acme" base_document foo_answer secret_token)
              eq_refl)
    as (_ & _ & _ & Hstep).
  assert (Hmissing :
            missing_values
              (session "acme" base_document complete_answers secret_token)
            = ∅).
  { apply Hvalid. by_computation. }
  split; [exact Hmissing |]. split.
  - apply Hequal; [exact Hmissing | by_computation].
  - apply (Hstep "project_slug" (VStr "Foo Bar") false (VStr "foo-bar"));
      [reflexivity | by_computation].
Defined.

(** C2 fails on the code: a session without an answer for
    [project_slug] is rejected by the validation with status 400, and
    [create] reports it with status 500; no external call is made. *)
Theorem create_incomplete_is_status_500 (HOST_NAME BASE_URL KEY : string)
    (P : Fernet.primitives) (rejects : string -> string -> option exn)
    (quote : string -> string) (st : process) :
  create HOST_NAME BASE_URL KEY P rejects quote
    (session "acme" base_document foo_answer secret_token) st
  = (Raise
       (HTTPException 500
          (ErrorOccured
             (HTTPException 400 (MissingInputs {["project_slug"]})))),
     st).
Proof.
  assert (Hmissing :
            missing_values
              (session "acme" base_document foo_answer secret_token)
            = {["project_slug"]}) by by_computation.
  destruct (create_incomplete HOST_NAME BASE_URL KEY P rejects quote
              (session "acme" base_document foo_answer secret_token) st)
    as [_ Hcreate].
  - rewrite Hmissing. by_computation.
  - rewrite Hcreate. by rewrite Hmissing.
Qed.
End Examples.

(** * Worked examples of the further properties *)

Section Scenarios.
Import Example.

Local Abbreviation resolve :=
  (get_next_option Jinja2.Env Jinja2.StrictEnvironment Jinja2.render_template).
Local Abbreviation render :=
  (Cookiecutter.render_variable Jinja2.Env Jinja2.render_template).
Local Abbreviation encrypt := (encrypt_token APP_KEY null_primitives).
Local Abbreviation decrypt := (decrypt_token APP_KEY null_primitives).
Local Abbreviation client_of :=
  (get_git_client "" GITHUB_URL APP_KEY null_primitives Github_rejects).
Local Abbreviation fetch :=
  (get_config "" GITHUB_URL APP_KEY null_primitives
      Github_rejects Scenario.json_loads).
Local Abbreviation advance :=
  (form "" GITHUB_URL APP_KEY null_primitives
      Github_rejects Scenario.json_loads Jinja2.Env
     Jinja2.StrictEnvironment Jinja2.render_template).
Local Abbreviation run_publish :=
  (publish "" GITHUB_URL APP_KEY null_primitives Github_rejects shlex_quote).
Local Abbreviation validate :=
  (validate_and_create "" GITHUB_URL APP_KEY null_primitives
      Github_rejects shlex_quote).
Local Abbreviation run_create :=
  (create "" GITHUB_URL APP_KEY null_primitives Github_rejects shlex_quote).
Local Abbreviation reached :=
  (reachable "" GITHUB_URL APP_KEY null_primitives
      Github_rejects Scenario.json_loads
     shlex_quote Jinja2.Env Jinja2.StrictEnvironment Jinja2.render_template).

Local Ltac by_computation :=
  match goal with
  | |- ?G => apply (bool_decide_eq_true_1 G); vm_compute; reflexivity
  end.

(** The client of the session of the examples. *)
Local Abbreviation octocat :=
  {| base_url := GITHUB_API_URL; login_or_token := "secret" |}.

(** X1 on the two-field document with the name answered. *)
Lemma get_next_option_returns_first_unanswered_witness :
  exists env pre raw post,
    Jinja2.StrictEnvironment [("cookiecutter", VDict base_document)] = Ok env
    /\ base_document = pre ++ ("project_slug", raw) :: post
    /\ (forall x, x ∈ dict_keys pre -> x ∈ dict_keys foo_answer)
    /\ ("project_slug" ∉ dict_keys foo_answer)
    /\ render env raw foo_answer = Ok (VStr "Foo Bar")
    /\ false = false.
Proof.
  apply (get_next_option_returns_first_unanswered Jinja2.Env
           Jinja2.StrictEnvironment Jinja2.render_template base_document
           foo_answer "project_slug" (VStr "Foo Bar") false).
  reflexivity.
Defined.

(** X2 on the two-field document: the name is asked for first, and the
    slug once the name is answered. *)
Lemma get_next_option_in_document_order_witness :
  (exists pre mid post,
      dict_keys base_document
      = pre ++ "project_name" :: mid ++ "project_slug" :: post)
  /\ "project_slug" <> "project_name"
  /\ ("project_slug" ∉ dict_keys ([] : pydict)).
Proof.
  apply (get_next_option_in_document_order Jinja2.Env
           Jinja2.StrictEnvironment Jinja2.render_template base_document []
           "project_name" "project_slug" (VStr "Foo Bar") (VStr "My App")
           (VStr "Foo Bar") false false).
  - reflexivity.
  - reflexivity.
Defined.

(** X3 on the session with the name answered. *)
Lemma next_key_is_a_missing_value_witness :
  "project_slug" ∈ missing_values (session "acme" base_document foo_answer
                                     secret_token)
  /\ missing_values
       (answer "project_slug" (VStr "foo-bar")
          (session "acme" base_document foo_answer secret_token))
     = missing_values (session "acme" base_document foo_answer secret_token)
       ∖ {["project_slug"]}.
Proof.
  apply (next_key_is_a_missing_value Jinja2.Env Jinja2.StrictEnvironment
           Jinja2.render_template
           (session "acme" base_document foo_answer secret_token)
           "project_slug" (VStr "foo-bar") (VStr "Foo Bar") false).
  reflexivity.
Defined.

(** X5 on the template without variables. *)
Lemma form_empty_document_witness :
  let st := Scenario.start (Ok RNone) [Scenario.output_dir] in
  let st' := (fetch "empty/template" "" "acme" secret_token st).2 in
  exists details',
    advance Scenario.empty_session st = (Ok details', st')
    /\ done details' = true
    /\ next_key details' = None
    /\ next_value details' = VNone
    /\ cc_context details' = []
    /\ user_inputs details' = [].
Proof.
  apply (form_empty_document "" GITHUB_URL APP_KEY null_primitives
      Github_rejects
           Scenario.json_loads Jinja2.Env Jinja2.StrictEnvironment
           Jinja2.render_template Scenario.empty_session
           (Scenario.start (Ok RNone) [Scenario.output_dir]) _ tt).
  - reflexivity.
  - vm_compute. reflexivity.
  - reflexivity.
Defined.

(** X6 on a complete session: the directory that was made is removed. *)
Lemma temporary_directory_is_removed_witness :
  let details := Scenario.session "acme" "demo" base_document complete_answers in
  let st := Scenario.start (Ok RNone) [Scenario.output_dir] in
  exists r st' calls,
    validate details st = (r, st')
    /\ history st'
       = shutil_rmtree Scenario.temp_dir
           :: calls ++ tempfile_mkdtemp "cookiecutter" :: history st.
Proof.
  apply (temporary_directory_is_removed "" GITHUB_URL APP_KEY null_primitives
      Github_rejects
           shlex_quote
           (Scenario.session "acme" "demo" base_document complete_answers)
           (Scenario.start (Ok RNone) [Scenario.output_dir])
           Scenario.temp_dir).
  - by_computation.
  - reflexivity.
Defined.

(** X7 on an organization that does not exist and on one whose lookup
    fails on the network. *)
Lemma publish_tolerates_github_errors_witness :
  let st := Scenario.start (Ok RNone) [Scenario.output_dir] in
  let st1 := (client_of secret_token true st).2 in
  let ghost := Scenario.session "ghost" "demo" base_document complete_answers in
  let down := Scenario.session "down" "demo" base_document complete_answers in
  (exists r st' later,
      run_publish ghost Scenario.temp_dir st = (r, st')
      /\ history st'
         = later
           ++ cookiecutter_main
                ("https://" ++ GITHUB_URL ++ "/" ++ template_name)%string ""
                complete_answers Scenario.temp_dir
              :: Github_get_organization octocat "ghost" :: history st)
  /\ run_publish down Scenario.temp_dir st
     = (Raise (OSError "connection refused"),
        logged (Github_get_organization octocat "down") st1).
Proof.
  split.
  - apply (proj1 (publish_tolerates_github_errors "" GITHUB_URL APP_KEY
                    null_primitives Github_rejects shlex_quote
                    (Scenario.session "ghost" "demo" base_document
                       complete_answers)
                    Scenario.temp_dir
                    (Scenario.start (Ok RNone) [Scenario.output_dir]) _
                    octocat eq_refl) 404).
    reflexivity.
  - apply (proj2 (proj2 (publish_tolerates_github_errors "" GITHUB_URL
                           APP_KEY null_primitives Github_rejects shlex_quote
                           (Scenario.session "down" "demo" base_document
                              complete_answers)
                           Scenario.temp_dir
                           (Scenario.start (Ok RNone) [Scenario.output_dir])
                           _ octocat eq_refl))
             (OSError "connection refused")).
    + reflexivity.
    + reflexivity.
Defined.

(** X8 on a generator that fails. *)
Lemma no_git_without_generation_witness :
  let details := Scenario.session "acme" "demo" base_document complete_answers in
  let st := Scenario.start (Raise (CookiecutterException "no network")) [] in
  exists e' st',
    run_publish details Scenario.temp_dir st = (Raise e', st')
    /\ extends_with (fun c => negb (is_subprocess_run c)) st st'.
Proof.
  apply (no_git_without_generation "" GITHUB_URL APP_KEY null_primitives
      Github_rejects
           shlex_quote
           (Scenario.session "acme" "demo" base_document complete_answers)
           Scenario.temp_dir
           (Scenario.start (Raise (CookiecutterException "no network")) [])
           (CookiecutterException "no network")).
  intros h. reflexivity.
Defined.

(** X9 on a complete session: the ten calls after the two that make
    the repository. *)
Lemma publish_success_trace_witness :
  let details := Scenario.session "acme" "demo" base_document complete_answers in
  let st := Scenario.start (Ok RNone) [Scenario.output_dir] in
  let st' := (run_publish details Scenario.temp_dir st).2 in
  exists client output_dir login name email raw_token repository_calls,
    (exists s, client_of (token details) true st = (Ok client, s))
    /\ (repository_calls
        = [Organization_create_repo client (org details) (repo details);
           Github_get_organization client (org details)]
        \/ repository_calls = [Github_get_organization client (org details)])
    /\ (exists h others,
          respond st h (Path_iterdir Scenario.temp_dir)
          = Ok (RPaths (output_dir :: others)))
    /\ (exists h,
          respond st h (Github_get_user client)
          = Ok (RUser login name email))
    /\ (exists s s', decrypt (token details) s = (Ok raw_token, s'))
    /\ history st'
       = [subprocess_run ("git push " ++ CC_ORIGIN ++ " master -f")%string
            output_dir;
          subprocess_run
            ("git commit -m 'Initialize repository with CC: "
             ++ template_repo (template details) ++ "'")%string output_dir;
          subprocess_run "git add ." output_dir;
          subprocess_run
            ("git remote add " ++ CC_ORIGIN ++ " "
             ++ ("https://" ++ login ++ ":" ++ raw_token ++ "@" ++ GITHUB_URL
                 ++ "/" ++ shlex_quote (org details) ++ "/"
                 ++ shlex_quote (repo details)))%string output_dir;
          subprocess_run ("git config --local user.email " ++ email)%string
            output_dir;
          subprocess_run ("git config --local user.name " ++ name)%string
            output_dir;
          Github_get_user client;
          subprocess_run "git init" output_dir;
          Path_iterdir Scenario.temp_dir;
          cookiecutter_main
            ("https://" ++ GITHUB_URL ++ "/"
             ++ template_repo (template details))%string
            (directory (template details)) (user_inputs details)
            Scenario.temp_dir]
         ++ repository_calls ++ history st.
Proof.
  apply (publish_success_trace "" GITHUB_URL APP_KEY null_primitives
      Github_rejects
           shlex_quote
           (Scenario.session "acme" "demo" base_document complete_answers)
           Scenario.temp_dir
           (Scenario.start (Ok RNone) [Scenario.output_dir]) _ tt).
  vm_compute. reflexivity.
Defined.

(** X10 on a generator that leaves nothing behind. *)
Lemma empty_output_is_an_error_witness :
  let details := Scenario.session "acme" "demo" base_document complete_answers in
  let st := Scenario.start (Ok RNone) [] in
  let run := run_publish details Scenario.temp_dir st in
  (exists e, run.1 = Raise e)
  /\ exists calls,
      history run.2 = calls ++ history st
      /\ forallb (fun c => negb (is_subprocess_run c)) calls = true
      /\ (Path_iterdir Scenario.temp_dir ∈ calls -> run.1 = Raise IndexError).
Proof.
  apply (empty_output_is_an_error "" GITHUB_URL APP_KEY null_primitives
      Github_rejects
           shlex_quote
           (Scenario.session "acme" "demo" base_document complete_answers)
           Scenario.temp_dir (Scenario.start (Ok RNone) [])).
  - intros h. reflexivity.
  - apply surjective_pairing.
Defined.

(** X11 on a repository that does not exist: the [GithubException] of
    the lookup is what [get_config] raises. *)
Lemma get_config_template_failure_witness :
  let st1 := (client_of secret_token true boot).2 in
  fetch "nobody/nothing" "" "acme" secret_token boot
  = (Raise (GithubException 404),
     logged (Github_get_repo octocat "nobody/nothing") st1).
Proof.
  apply (proj1 (get_config_template_failure "" GITHUB_URL APP_KEY
                  null_primitives
                      Github_rejects Scenario.json_loads "nobody/nothing" ""
                  "acme" secret_token boot _ octocat (GithubException 404)
                  eq_refl)).
  reflexivity.
Defined.

(** X12 on the organization whose defaults file is no JSON. *)
Lemma get_config_overrides_failure_witness :
  exists st',
    fetch template_name "" "broken" secret_token
      (Scenario.start (Ok RNone) [])
    = (Raise JSONDecodeError, st').
Proof.
  apply (proj2 (get_config_overrides_failure "" GITHUB_URL APP_KEY
                  null_primitives
                      Github_rejects Scenario.json_loads template_name ""
                  "broken" secret_token (Scenario.start (Ok RNone) [])
                  (client_of secret_token true
                     (Scenario.start (Ok RNone) [])).2
                  octocat RNone cookiecutter_json base_document
                  JSONDecodeError eq_refl eq_refl eq_refl eq_refl eq_refl)
           RNone "not json").
  - reflexivity.
  - reflexivity.
  - reflexivity.
Defined.

(** X13 on the organization that has a defaults file. *)
Lemma get_config_requests_witness :
  exists st',
    fetch template_name "" "initrode" secret_token boot
    = (Ok (Cookiecutter.apply_overwrites_to_context base_document
             overrides_document),
       st')
    /\ history st'
       = [Repository_get_contents octocat "initrode/.github"
            "cookiecutter/audreyr/cookiecutter-pypackage/cookiecutter.json";
          Github_get_repo octocat "initrode/.github";
          Repository_get_contents octocat template_name "cookiecutter.json";
          Github_get_repo octocat template_name].
Proof.
  apply (get_config_requests "" GITHUB_URL APP_KEY null_primitives
      Github_rejects
           Scenario.json_loads template_name "" "initrode" secret_token boot
           (client_of secret_token true boot).2 octocat RNone RNone
           cookiecutter_json overrides_json base_document overrides_document
           eq_refl eq_refl eq_refl eq_refl eq_refl eq_refl eq_refl).
Defined.

(** X14 on a token that is no Fernet token, and on a host name without
    a scheme, which the constructor rejects. *)
Lemma get_git_client_failure_witness :
  (get_git_client_cache boot = get_git_client_cache boot
   /\ ((true = true
        /\ decrypted APP_KEY null_primitives "garbage" = Raise InvalidToken
        /\ decrypt_token_cache boot = decrypt_token_cache boot)
       \/ (exists raw,
             decrypted APP_KEY null_primitives "garbage" = Ok raw
             /\ Github_rejects (host_name "" GITHUB_URL) raw
                = Some InvalidToken)))
  /\ (get_git_client_cache boot = get_git_client_cache boot
      /\ ((false = true
           /\ decrypted APP_KEY null_primitives "secret"
              = Raise (AssertionError "Unknown URL scheme")
           /\ decrypt_token_cache boot = decrypt_token_cache boot)
          \/ (exists raw,
                raw = "secret"
                /\ Github_rejects (host_name "ghe.example.com" GITHUB_URL) raw
                   = Some (AssertionError "Unknown URL scheme")))).
Proof.
  split.
  - apply (get_git_client_failure "" GITHUB_URL APP_KEY null_primitives
             Github_rejects Scenario.json_loads shlex_quote Jinja2.Env
             Jinja2.StrictEnvironment Jinja2.render_template boot boot boot
             "garbage" true InvalidToken).
    + by split.
    + apply reachable_start.
    + reflexivity.
  - apply (get_git_client_failure "ghe.example.com" GITHUB_URL APP_KEY
             null_primitives Github_rejects Scenario.json_loads shlex_quote
             Jinja2.Env Jinja2.StrictEnvironment Jinja2.render_template boot
             boot boot "secret" false
             (AssertionError "Unknown URL scheme")).
    + by split.
    + apply reachable_start.
    + reflexivity.
Defined.

(** X15 after a request that fetched a document. *)
Lemma caches_stay_bounded_witness :
  cache_bounded
    (advance (session "acme" [] foo_answer secret_token) boot).2.
Proof.
  apply (caches_stay_bounded "" GITHUB_URL APP_KEY null_primitives
      Github_rejects
           Scenario.json_loads shlex_quote Jinja2.Env
           Jinja2.StrictEnvironment Jinja2.render_template boot).
  - by split.
  - apply (reachable_form "" GITHUB_URL APP_KEY null_primitives Github_rejects
             Scenario.json_loads shlex_quote Jinja2.Env
             Jinja2.StrictEnvironment Jinja2.render_template boot
             (session "acme" [] foo_answer secret_token) boot _
             (advance (session "acme" [] foo_answer secret_token) boot).1).
    + apply reachable_start.
    + apply surjective_pairing.
Defined.

(** X16 on the token of the examples, in a process that has served a
    request for it before. *)
Lemma get_git_client_logs_in_with_token_witness :
  base_url octocat = host_name "" GITHUB_URL
  /\ decrypted APP_KEY null_primitives secret_token
     = Ok (login_or_token octocat).
Proof.
  apply (get_git_client_logs_in_with_token "" GITHUB_URL APP_KEY
           null_primitives
               Github_rejects Scenario.json_loads shlex_quote Jinja2.Env
           Jinja2.StrictEnvironment Jinja2.render_template boot
           (advance (session "acme" [] foo_answer secret_token) boot).2
           (client_of secret_token true
              (advance (session "acme" [] foo_answer secret_token) boot).2).2
           secret_token true octocat).
  - by split.
  - apply (reachable_form "" GITHUB_URL APP_KEY null_primitives Github_rejects
             Scenario.json_loads shlex_quote Jinja2.Env
             Jinja2.StrictEnvironment Jinja2.render_template boot
             (session "acme" [] foo_answer secret_token) boot _
             (advance (session "acme" [] foo_answer secret_token) boot).1).
    + apply reachable_start.
    + apply surjective_pairing.
  - vm_compute. reflexivity.
Defined.

(** X17 on a token that was decrypted before, where the second call
    returns the same, and on a token that is no Fernet token. *)
Lemma decrypt_token_memoised_witness :
  let st := (decrypt secret_token boot).2 in
  (Ok "secret" = decrypted APP_KEY null_primitives secret_token
   /\ get_git_client_cache (decrypt secret_token st).2
      = get_git_client_cache st
   /\ lru_find secret_token (decrypt_token_cache (decrypt secret_token st).2)
      = Some "secret")
  /\ (Raise InvalidToken = decrypted APP_KEY null_primitives "garbage"
      /\ get_git_client_cache st = get_git_client_cache st
      /\ decrypt_token_cache st = decrypt_token_cache st).
Proof.
  assert (Hreach : reached boot (decrypt secret_token boot).2).
  { apply (reachable_decrypt_token "" GITHUB_URL APP_KEY null_primitives
             Github_rejects Scenario.json_loads shlex_quote Jinja2.Env
             Jinja2.StrictEnvironment Jinja2.render_template boot
             secret_token boot _ (decrypt secret_token boot).1).
    - apply reachable_start.
    - apply surjective_pairing. }
  split.
  - apply (decrypt_token_memoised "" GITHUB_URL APP_KEY null_primitives
             Github_rejects Scenario.json_loads shlex_quote Jinja2.Env
             Jinja2.StrictEnvironment Jinja2.render_template boot
             (decrypt secret_token boot).2
             (decrypt secret_token (decrypt secret_token boot).2).2
             secret_token (Ok "secret")).
    + by split.
    + exact Hreach.
    + vm_compute. reflexivity.
  - apply (decrypt_token_memoised "" GITHUB_URL APP_KEY null_primitives
             Github_rejects Scenario.json_loads shlex_quote Jinja2.Env
             Jinja2.StrictEnvironment Jinja2.render_template boot
             (decrypt secret_token boot).2 (decrypt secret_token boot).2
             "garbage" (Raise InvalidToken)).
    + by split.
    + exact Hreach.
    + vm_compute. reflexivity.
Defined.

(** X18 on the token [secret]: the client is built after a request
    that fetched a document with it; and with a host name that the
    constructor rejects, the constructor's exception is raised. *)
Lemma get_git_client_of_encrypted_token_witness :
  let st1 := (encrypt "secret" boot).2 in
  let st2 := (advance (session "acme" [] foo_answer secret_token) st1).2 in
  (exists client st3,
      client_of secret_token true st2 = (Ok client, st3)
      /\ login_or_token client = "secret"
      /\ base_url client = host_name "" GITHUB_URL)
  /\ (exists st3,
        get_git_client "ghe.example.com" GITHUB_URL APP_KEY null_primitives
          Github_rejects secret_token true st1
        = (Raise (AssertionError "Unknown URL scheme"), st3)).
Proof.
  split.
  - refine (get_git_client_of_encrypted_token "" GITHUB_URL APP_KEY
              null_primitives Github_rejects Scenario.json_loads shlex_quote
              Jinja2.Env Jinja2.StrictEnvironment Jinja2.render_template
              boot boot (encrypt "secret" boot).2
              (advance (session "acme" [] foo_answer secret_token)
                 (encrypt "secret" boot).2).2
              "secret" secret_token null_primitives_lawful _ _ _ _).
    + by split.
    + apply reachable_start.
    + vm_compute. reflexivity.
    + apply (reachable_form "" GITHUB_URL APP_KEY null_primitives
               Github_rejects Scenario.json_loads shlex_quote Jinja2.Env
               Jinja2.StrictEnvironment Jinja2.render_template _
               (session "acme" [] foo_answer secret_token)
               (encrypt "secret" boot).2 _
               (advance (session "acme" [] foo_answer secret_token)
                  (encrypt "secret" boot).2).1).
      * apply reachable_start.
      * apply surjective_pairing.
  - refine (get_git_client_of_encrypted_token "ghe.example.com" GITHUB_URL
              APP_KEY null_primitives Github_rejects Scenario.json_loads
              shlex_quote Jinja2.Env Jinja2.StrictEnvironment
              Jinja2.render_template boot boot (encrypt "secret" boot).2
              (encrypt "secret" boot).2 "secret" secret_token
              null_primitives_lawful _ _ _ _).
    + by split.
    + apply reachable_start.
    + vm_compute. reflexivity.
    + apply reachable_start.
Defined.

(** X19 on the session with the name answered: the slug is asked for,
    and [create] refuses the session. *)
Lemma form_agrees_with_create_witness :
  let details' :=
    set_next (Some "project_slug", VStr "Foo Bar", false)
      (session "acme" base_document foo_answer secret_token) in
  exists key,
    next_key details' = Some key
    /\ key ∈ missing_values details'
    /\ forall st2,
         run_create details' st2 =
         (Raise
            (HTTPException 500
               (ErrorOccured
                  (HTTPException 400
                     (MissingInputs (missing_values details'))))),
          st2).
Proof.
  apply (form_agrees_with_create "" GITHUB_URL APP_KEY null_primitives
      Github_rejects
           Scenario.json_loads shlex_quote Jinja2.Env
           Jinja2.StrictEnvironment Jinja2.render_template
           (session "acme" base_document foo_answer secret_token)
           (set_next (Some "project_slug", VStr "Foo Bar", false)
              (session "acme" base_document foo_answer secret_token))
           boot boot).
  reflexivity.
Defined.
End Scenarios.
